(** * kvdo: slab depot block allocator, allocating vios and the UDS index
      configuration block

    A shallow embedding of

    - [src/vdo/block-allocator.c]  (slab priorities, slab queueing, block
      allocation, reference release, load-time slab ordering),
    - [src/vdo/allocating-vio.c]   (zone-by-zone allocation retry),
    - [src/uds/config.c]           (index configuration encode / decode,
      sizes and thread counts of a new configuration),
    - [src/vdo/kernel/dump.c]      (dump options),
    - [src/vdo/base/extent.c]      (metadata extents),
    - [src/vdo/vdoInit.c]          (the start of a vdo),

    followed by the properties established about them.

    Conventions.  C unsigned integers are values of [Z] with the wrap-around
    written out ([u32], [u64]).  A pointer to a slab is the slab's index in the
    depot's slab array ([depot->slabs[slab_number]]); a [NULL] pointer is
    [None].  A computation that would dereference an invalid pointer in C has
    no defined result: the functions below return [None] there. *)

From Stdlib Require Import ZArith Lia Bool.
From Stdlib Require Import Strings.String Strings.Byte.
From coqutil Require Byte Word.LittleEndianList.
From stdpp Require Import base option list sorting.

#[local] Open Scope Z_scope.

(** ** Machine integers *)

Module Ints.

Definition u32 (z : Z) : Z := z mod 2 ^ 32.
Definition u64 (z : Z) : Z := z mod 2 ^ 64.

Definition is_u32 (z : Z) : Prop := 0 <= z < 2 ^ 32.
Definition is_u64 (z : Z) : Prop := 0 <= z < 2 ^ 64.

(** [size_t] of the 64-bit kernels kvdo is built for. *)
Definition is_size_t (z : Z) : Prop := is_u64 z.

End Ints.
Export Ints.

(** ** Status codes

    [VDO_SUCCESS] and [UDS_SUCCESS] are both 0 in the C sources; the other
    codes are only ever compared for equality, so an enumeration is
    enough. *)

Inductive status : Set :=
| SUCCESS
| VDO_NO_SPACE
| VDO_READ_ONLY
| VDO_LOCK_ERROR
| VDO_INVALID_ADMIN_STATE
| VDO_OUT_OF_RANGE
| VDO_INVALID_STATE
| UDS_ASSERTION_FAILED
| UDS_BAD_STATE
| UDS_BUFFER_ERROR
| UDS_END_OF_FILE
| UDS_CORRUPT_FILE
| UDS_CORRUPT_COMPONENT
| UDS_NO_INDEX.

#[global] Instance status_eq_dec : EqDecision status.
Proof. solve_decision. Defined.

Abbreviation VDO_SUCCESS := SUCCESS (only parsing).
Abbreviation UDS_SUCCESS := SUCCESS (only parsing).

(** [ASSERT(expr, ...)] of permassert.h (not among the sources): success
    when the expression holds; otherwise the failure is logged and an error
    code comes back, [UDS_ASSERTION_FAILED]. *)
Definition ASSERT (expr : bool) : status :=
  if expr then SUCCESS else UDS_ASSERTION_FAILED.

(** ** num-utils.h *)

(** Modelled from the spec: num-utils.h is not among the sources.  The
    priority policy is stated with [floor(log2(F))]; the C helper takes a
    [uint64_t], returns an [int], and answers -1 for 0. *)
Definition log_base_two (n : Z) : Z :=
  if n =? 0 then -1 else Z.log2 n.

(** ** Priority table (priority-table.c) *)

Module PriorityTable.

(** Modelled from the spec: priority-table.c is not among the sources.
    "A bucketed priority queue: array of doubly-linked lists indexed by
    priority 0..max_priority ... enqueue(priority, node), dequeue_max()
    returning the head of the highest non-empty bucket, remove(node),
    is_empty().  Ties within a bucket are FIFO."  A node is the number of
    the slab that embeds the list entry.  An enqueue beyond [max_priority]
    has no bucket to land in and leaves the table as it is. *)
Record priority_table : Type := {
  max_priority : Z;
  buckets : list (list nat)
}.

Definition make_priority_table (max_priority : Z) : priority_table :=
  {| max_priority := max_priority;
     buckets := replicate (Z.to_nat (max_priority + 1)) [] |}.

Definition priority_table_enqueue (table : priority_table) (priority : Z)
    (entry : nat) : priority_table :=
  {| max_priority := max_priority table;
     buckets := alter (fun b => b ++ [entry]) (Z.to_nat priority)
                      (buckets table) |}.

(** The highest non-empty bucket of a bucket array: its index, its head and
    the array with that head unlinked. *)
Fixpoint dequeue_buckets (bs : list (list nat))
    : option (nat * nat * list (list nat)) :=
  match bs with
  | [] => None
  | b :: rest =>
      match dequeue_buckets rest with
      | Some (i, e, rest') => Some (S i, e, b :: rest')
      | None =>
          match b with
          | [] => None
          | e :: b' => Some (O, e, b' :: rest)
          end
      end
  end.

Definition priority_table_dequeue (table : priority_table)
    : option nat * priority_table :=
  match dequeue_buckets (buckets table) with
  | Some (_, e, bs) =>
      (Some e, {| max_priority := max_priority table; buckets := bs |})
  | None => (None, table)
  end.

Definition priority_table_remove (table : priority_table) (entry : nat)
    : priority_table :=
  {| max_priority := max_priority table;
     buckets := map (filter (fun e => e <> entry)) (buckets table) |}.

Definition is_priority_table_empty (table : priority_table) : bool :=
  forallb (fun b => match b with [] => true | _ => false end) (buckets table).

(** The bucket an entry is queued in, if any. *)
Definition queued_at (table : priority_table) (entry : nat) (p : nat) : Prop :=
  exists b, buckets table !! p = Some b /\ entry ∈ b.

Definition queued (table : priority_table) (entry : nat) : Prop :=
  exists p, queued_at table entry p.

(** [entry] heads the highest non-empty bucket: the slab the next dequeue
    hands out. *)
Definition highest_priority_entry (table : priority_table) (entry : nat)
    : Prop :=
  exists (i : nat) (b : list nat),
    buckets table !! i = Some (entry :: b)
    /\ forall (j : nat) (b' : list nat),
         (i < j)%nat -> buckets table !! j = Some b' -> b' = [].

End PriorityTable.
Export PriorityTable.

(** ** Block allocator (block-allocator.c) *)

Module BlockAllocator.

Inductive slab_depot_load_type : Set :=
| VDO_SLAB_DEPOT_NORMAL_LOAD
| VDO_SLAB_DEPOT_RECOVERY_LOAD
| VDO_SLAB_DEPOT_REBUILD_LOAD.

#[global] Instance slab_depot_load_type_eq_dec : EqDecision slab_depot_load_type.
Proof. solve_decision. Defined.

(** The operation types of a reference update (journal-point.h is not among
    the sources; the four operations are those of the spec's [modify]). *)
Inductive journal_operation : Set :=
| VDO_JOURNAL_DATA_DECREMENT
| VDO_JOURNAL_DATA_INCREMENT
| VDO_JOURNAL_BLOCK_MAP_DECREMENT
| VDO_JOURNAL_BLOCK_MAP_INCREMENT.

Record reference_operation : Set := {
  op_type : journal_operation;
  op_pbn : Z;
  op_lock : option nat
}.

Definition VDO_ZERO_BLOCK : Z := 0.

(** Modelled from the spec: slab-summary.c is not among the sources.  "Per-slab
    record ... [{tail_block_offset, load_ref_counts: bool, is_clean: bool,
    fullness_hint: 0..127}]". *)
Record slab_summary_entry : Set := {
  tail_block_offset : Z;
  load_ref_counts : bool;
  summary_is_clean : bool;
  fullness_hint : Z
}.

(** [struct slab_status] as block-allocator.c uses it. *)
Record slab_status : Set := {
  status_slab_number : nat;
  is_clean : bool;
  emptiness : Z
}.

(** Modelled from the spec: slab-scrubber.c is not among the sources.  The
    scrubber "owns two lists: [high_priority] and [normal]"; registering a
    slab appends it to the list the flag selects. *)
Record slab_scrubber : Set := {
  high_priority_slabs : list nat;
  scrubber_slabs : list nat
}.

Definition vdo_register_slab_for_scrubbing (scrubber : slab_scrubber)
    (slab : nat) (high_priority : bool) : slab_scrubber :=
  if high_priority
  then {| high_priority_slabs := high_priority_slabs scrubber ++ [slab];
          scrubber_slabs := scrubber_slabs scrubber |}
  else {| high_priority_slabs := high_priority_slabs scrubber;
          scrubber_slabs := scrubber_slabs scrubber ++ [slab] |}.

(** Modelled from the spec: read-only-notifier.c is not among the sources.
    "Read-only mode, once entered, is sticky": the notifier latches the first
    error it is given. *)
Definition vdo_enter_read_only_mode (notifier : option status)
    (error_code : status) : option status :=
  match notifier with
  | Some e => Some e
  | None => Some error_code
  end.

Record block_allocator_statistics : Set := {
  slabs_opened : Z;
  slabs_reopened : Z
}.

(** The interface of ref-counts.c, which is not among the sources: the free
    block count of a slab's counters (a [block_count_t]) and the search for
    an unreferenced block, which answers a status, the block found and the
    updated counters. *)
Class RefCounts (RC : Type) : Type := {
  vdo_get_unreferenced_block_count : RC -> Z;
  vdo_allocate_unreferenced_block : RC -> status * Z * RC;
  unreferenced_block_count_range :
    forall rc, is_u64 (vdo_get_unreferenced_block_count rc)
}.

Section Allocator.

Context {RC : Type} `{!RefCounts RC}.

(** The fields of [struct vdo_slab] the allocator reads and writes.
    [allocator] is the zone number of the owning allocator; the journal
    predicates of slab-journal.c appear as the booleans they return; the
    recovery flags are those of the spec's slab ("unrecovered",
    "resuming"). *)
Record vdo_slab : Type := {
  slab_number : nat;
  allocator : nat;
  reference_counts : RC;
  journal_blank : bool;
  journal_requires_scrubbing : bool;
  priority : Z;
  unrecovered : bool;
  resuming : bool
}.

Definition set_priority (slab : vdo_slab) (p : Z) : vdo_slab :=
  {| slab_number := slab_number slab; allocator := allocator slab;
     reference_counts := reference_counts slab;
     journal_blank := journal_blank slab;
     journal_requires_scrubbing := journal_requires_scrubbing slab;
     priority := p; unrecovered := unrecovered slab;
     resuming := resuming slab |}.

Definition set_reference_counts (slab : vdo_slab) (rc : RC) : vdo_slab :=
  {| slab_number := slab_number slab; allocator := allocator slab;
     reference_counts := rc;
     journal_blank := journal_blank slab;
     journal_requires_scrubbing := journal_requires_scrubbing slab;
     priority := priority slab; unrecovered := unrecovered slab;
     resuming := resuming slab |}.

(** Modelled from the spec: slab.c is not among the sources.  "Mark
    unrecovered": the slab's [unrecovered] flag is raised. *)
Definition vdo_mark_slab_unrecovered (slab : vdo_slab) : vdo_slab :=
  {| slab_number := slab_number slab; allocator := allocator slab;
     reference_counts := reference_counts slab;
     journal_blank := journal_blank slab;
     journal_requires_scrubbing := journal_requires_scrubbing slab;
     priority := priority slab; unrecovered := true;
     resuming := resuming slab |}.

(** Modelled from the spec: the accessors of slab.c and slab-journal.c are
    not among the sources.  The free block count of a slab is that of its
    reference counters; the other three read the slab's flags. *)
Definition get_slab_free_block_count (slab : vdo_slab) : Z :=
  vdo_get_unreferenced_block_count (reference_counts slab).

Definition vdo_is_slab_journal_blank (slab : vdo_slab) : bool :=
  journal_blank slab.

Definition vdo_is_unrecovered_slab (slab : vdo_slab) : bool :=
  unrecovered slab.

Definition vdo_is_slab_resuming (slab : vdo_slab) : bool :=
  resuming slab.

(** [struct slab_depot] (slab-depot.h), the fields used here.
    [depot->slab_count] is the length of [slabs]. *)
Record slab_depot : Type := {
  data_blocks : Z;
  origin : Z;
  slab_size_shift : Z;
  load_type : slab_depot_load_type;
  slabs : list vdo_slab
}.

(** [struct block_allocator].  The depot is reached through the allocator,
    as in C ([allocator->depot]); every slab an allocator function touches
    belongs to that allocator's zone. *)
Record block_allocator : Type := {
  depot : slab_depot;
  zone_number : nat;
  slab_count : Z;
  last_slab : nat;
  allocated_blocks : Z;
  open_slab : option nat;
  prioritized_slabs : priority_table;
  scrubber : slab_scrubber;
  summary : list slab_summary_entry;
  unopened_slab_priority : Z;
  statistics : block_allocator_statistics;
  read_only_notifier : option status
}.

Definition set_slabs (a : block_allocator) (l : list vdo_slab)
    : block_allocator :=
  {| depot := {| data_blocks := data_blocks (depot a);
                 origin := origin (depot a);
                 slab_size_shift := slab_size_shift (depot a);
                 load_type := load_type (depot a);
                 slabs := l |};
     zone_number := zone_number a; slab_count := slab_count a;
     last_slab := last_slab a; allocated_blocks := allocated_blocks a;
     open_slab := open_slab a; prioritized_slabs := prioritized_slabs a;
     scrubber := scrubber a; summary := summary a;
     unopened_slab_priority := unopened_slab_priority a;
     statistics := statistics a;
     read_only_notifier := read_only_notifier a |}.

Definition set_allocated_blocks (a : block_allocator) (n : Z)
    : block_allocator :=
  {| depot := depot a;
     zone_number := zone_number a; slab_count := slab_count a;
     last_slab := last_slab a; allocated_blocks := n;
     open_slab := open_slab a; prioritized_slabs := prioritized_slabs a;
     scrubber := scrubber a; summary := summary a;
     unopened_slab_priority := unopened_slab_priority a;
     statistics := statistics a;
     read_only_notifier := read_only_notifier a |}.

Definition set_open_slab (a : block_allocator) (s : option nat)
    : block_allocator :=
  {| depot := depot a;
     zone_number := zone_number a; slab_count := slab_count a;
     last_slab := last_slab a; allocated_blocks := allocated_blocks a;
     open_slab := s; prioritized_slabs := prioritized_slabs a;
     scrubber := scrubber a; summary := summary a;
     unopened_slab_priority := unopened_slab_priority a;
     statistics := statistics a;
     read_only_notifier := read_only_notifier a |}.

Definition set_prioritized_slabs (a : block_allocator) (t : priority_table)
    : block_allocator :=
  {| depot := depot a;
     zone_number := zone_number a; slab_count := slab_count a;
     last_slab := last_slab a; allocated_blocks := allocated_blocks a;
     open_slab := open_slab a; prioritized_slabs := t;
     scrubber := scrubber a; summary := summary a;
     unopened_slab_priority := unopened_slab_priority a;
     statistics := statistics a;
     read_only_notifier := read_only_notifier a |}.

Definition set_scrubber (a : block_allocator) (s : slab_scrubber)
    : block_allocator :=
  {| depot := depot a;
     zone_number := zone_number a; slab_count := slab_count a;
     last_slab := last_slab a; allocated_blocks := allocated_blocks a;
     open_slab := open_slab a; prioritized_slabs := prioritized_slabs a;
     scrubber := s; summary := summary a;
     unopened_slab_priority := unopened_slab_priority a;
     statistics := statistics a;
     read_only_notifier := read_only_notifier a |}.

Definition set_unopened_slab_priority (a : block_allocator) (u : Z)
    : block_allocator :=
  {| depot := depot a;
     zone_number := zone_number a; slab_count := slab_count a;
     last_slab := last_slab a; allocated_blocks := allocated_blocks a;
     open_slab := open_slab a; prioritized_slabs := prioritized_slabs a;
     scrubber := scrubber a; summary := summary a;
     unopened_slab_priority := u;
     statistics := statistics a;
     read_only_notifier := read_only_notifier a |}.

Definition set_statistics (a : block_allocator)
    (st : block_allocator_statistics) : block_allocator :=
  {| depot := depot a;
     zone_number := zone_number a; slab_count := slab_count a;
     last_slab := last_slab a; allocated_blocks := allocated_blocks a;
     open_slab := open_slab a; prioritized_slabs := prioritized_slabs a;
     scrubber := scrubber a; summary := summary a;
     unopened_slab_priority := unopened_slab_priority a;
     statistics := st;
     read_only_notifier := read_only_notifier a |}.

Definition set_read_only_notifier (a : block_allocator) (n : option status)
    : block_allocator :=
  {| depot := depot a;
     zone_number := zone_number a; slab_count := slab_count a;
     last_slab := last_slab a; allocated_blocks := allocated_blocks a;
     open_slab := open_slab a; prioritized_slabs := prioritized_slabs a;
     scrubber := scrubber a; summary := summary a;
     unopened_slab_priority := unopened_slab_priority a;
     statistics := statistics a;
     read_only_notifier := n |}.

(** [depot->slabs[n]] and the write back of a slab the code mutates through
    its pointer. *)
Definition get_slab (a : block_allocator) (n : nat) : option vdo_slab :=
  slabs (depot a) !! n.

Definition put_slab (a : block_allocator) (n : nat) (slab : vdo_slab)
    : block_allocator :=
  set_slabs a (<[n := slab]> (slabs (depot a))).

(** *** calculate_slab_priority *)

Definition calculate_slab_priority (a : block_allocator) (slab : vdo_slab)
    : Z :=
  let free_blocks := get_slab_free_block_count slab in
  let unopened_slab_priority := unopened_slab_priority a in
  if free_blocks =? 0 then 0
  else if vdo_is_slab_journal_blank slab then unopened_slab_priority
  else
    let priority := u32 (1 + log_base_two free_blocks) in
    if priority <? unopened_slab_priority then priority
    else u32 (priority + 1).

(** *** prioritize_slab *)

Definition prioritize_slab (a : block_allocator) (n : nat)
    : option block_allocator :=
  slab ← get_slab a n;
  let p := calculate_slab_priority a slab in
  Some (set_prioritized_slabs (put_slab a n (set_priority slab p))
          (priority_table_enqueue (prioritized_slabs a) p n)).

(** *** allocate_components

    The part of the constructor that fixes the priority range.  The
    listener registration, the vio pool and the scrubber come from files
    that are not among the sources; their failure paths are left out. *)

Definition allocate_components (a : block_allocator) : block_allocator :=
  let max_free_blocks := data_blocks (depot a) in
  let max_priority := u32 (2 + log_base_two max_free_blocks) in
  set_unopened_slab_priority
    (set_scrubber
       (set_prioritized_slabs a (make_priority_table max_priority))
       {| high_priority_slabs := []; scrubber_slabs := [] |})
    (u32 (1 + log_base_two (u64 (max_free_blocks * 3) / 4))).

(** *** vdo_queue_slab

    The C function works on [slab->allocator]: [a] stands for the allocator
    of the slab's own zone, the only one the callers in these sources reach
    it with.  The same holds for [prioritize_slab] and
    [vdo_adjust_free_block_count]. *)

Definition vdo_queue_slab (a : block_allocator) (n : nat)
    : option block_allocator :=
  slab ← get_slab a n;
  let free_blocks := get_slab_free_block_count slab in
  let result := ASSERT (free_blocks <=? data_blocks (depot a)) in
  if decide (result <> VDO_SUCCESS) then
    Some (set_read_only_notifier a
            (vdo_enter_read_only_mode (read_only_notifier a) result))
  else if vdo_is_unrecovered_slab slab then
    Some (set_scrubber a
            (vdo_register_slab_for_scrubbing (scrubber a) n false))
  else
    let a1 :=
      if negb (vdo_is_slab_resuming slab) then
        let a' :=
          set_allocated_blocks a (u64 (allocated_blocks a - free_blocks)) in
        if negb (vdo_is_slab_journal_blank slab) then
          set_statistics a'
            {| slabs_opened := u64 (slabs_opened (statistics a') + 1);
               slabs_reopened := slabs_reopened (statistics a') |}
        else a'
      else a in
    prioritize_slab a1 n.

(** *** vdo_adjust_free_block_count *)

Definition vdo_adjust_free_block_count (a : block_allocator) (n : nat)
    (increment : bool) : option block_allocator :=
  slab ← get_slab a n;
  let a1 :=
    set_allocated_blocks a
      (u64 (allocated_blocks a + (if increment then -1 else 1))) in
  if decide (Some n = open_slab a1) then Some a1
  else if priority slab =? calculate_slab_priority a1 slab then Some a1
  else
    prioritize_slab
      (set_prioritized_slabs a1
         (priority_table_remove (prioritized_slabs a1) n)) n.

(** *** allocate_slab_block

    The block number is written through [block_number_ptr] on success
    only: the second component is [Some pbn] exactly then. *)

Definition allocate_slab_block (a : block_allocator) (n : nat)
    : option (status * option Z * block_allocator) :=
  slab ← get_slab a n;
  let '(result, pbn, rc) :=
    vdo_allocate_unreferenced_block (reference_counts slab) in
  let a1 := put_slab a n (set_reference_counts slab rc) in
  if decide (result <> VDO_SUCCESS) then Some (result, None, a1)
  else
    a2 ← vdo_adjust_free_block_count a1 n false;
    Some (VDO_SUCCESS, Some pbn, a2).

(** The rest of the slab interface the allocator calls into (slab.c and
    ref-counts.c, not among the sources): opening a slab, which may touch the
    slab and the allocator's statistics, and a reference count update, which
    answers a status and the state it leaves. *)
Class SlabOps : Type := {
  vdo_open_slab :
    vdo_slab -> block_allocator_statistics ->
    vdo_slab * block_allocator_statistics;
  vdo_modify_slab_reference_count :
    block_allocator -> option nat -> option Z -> reference_operation ->
    status * block_allocator
}.

Context `{!SlabOps}.

(** *** vdo_allocate_block

    [priority_table_dequeue] answers [NULL] on an empty table, and
    [vdo_open_slab] dereferences what it is given: no result is defined
    then. *)

Definition open_next_slab_and_allocate (a : block_allocator)
    : option (status * option Z * block_allocator) :=
  let '(entry, table) := priority_table_dequeue (prioritized_slabs a) in
  n ← entry;
  let a1 := set_open_slab (set_prioritized_slabs a table) (Some n) in
  slab ← get_slab a1 n;
  let '(slab', stats) := vdo_open_slab slab (statistics a1) in
  allocate_slab_block (set_statistics (put_slab a1 n slab') stats) n.

Definition vdo_allocate_block (a : block_allocator)
    : option (status * option Z * block_allocator) :=
  match open_slab a with
  | Some n =>
      '(result, pbn, a1) ← allocate_slab_block a n;
      if bool_decide (result = VDO_SUCCESS)
         || bool_decide (result <> VDO_NO_SPACE)
      then Some (result, pbn, a1)
      else
        a2 ← prioritize_slab a1 n;
        open_next_slab_and_allocate a2
  | None => open_next_slab_and_allocate a
  end.

(** *** vdo_release_block_reference *)

(** Modelled from the spec: slab-depot.c is not among the sources.
    "[get_slab(pbn)]: returns the slab containing pbn by computing
    [(pbn - origin) >> slab_size_shift]; returns [None] for zero block;
    triggers read-only mode for out-of-range non-zero PBNs." *)
Definition vdo_get_slab (a : block_allocator) (pbn : Z)
    : option nat * block_allocator :=
  if pbn =? VDO_ZERO_BLOCK then (None, a)
  else
    let slab_number := Z.shiftr (pbn - origin (depot a))
                                (slab_size_shift (depot a)) in
    if (pbn <? origin (depot a))
       || (Z.of_nat (length (slabs (depot a))) <=? slab_number)
    then
      (None,
       set_read_only_notifier a
         (vdo_enter_read_only_mode (read_only_notifier a) VDO_OUT_OF_RANGE))
    else (Some (Z.to_nat slab_number), a).

Definition data_decrement (pbn : Z) : reference_operation :=
  {| op_type := VDO_JOURNAL_DATA_DECREMENT; op_pbn := pbn; op_lock := None |}.

Definition vdo_release_block_reference (a : block_allocator) (pbn : Z)
    : block_allocator :=
  let operation := data_decrement pbn in
  if pbn =? VDO_ZERO_BLOCK then a
  else
    let '(slab, a1) := vdo_get_slab a pbn in
    let '(result, a2) :=
      vdo_modify_slab_reference_count a1 slab None operation in
    a2.

(** *** compare_slab_statuses *)

Definition compare_slab_statuses (info1 info2 : slab_status) : Z :=
  if negb (eqb (is_clean info1) (is_clean info2)) then
    (if is_clean info1 then 1 else -1)
  else if negb (emptiness info1 =? emptiness info2) then
    (if emptiness info2 <? emptiness info1 then 1 else -1)
  else
    (if (status_slab_number info1 <? status_slab_number info2)%nat
     then 1 else -1).

(** [info1] is handed out by the heap before [info2]. *)
Definition ranks_above (info1 info2 : slab_status) : Prop :=
  compare_slab_statuses info1 info2 = 1.

(** The comparator in the spec's words, for comparison with the one above:
    "a lexicographic comparator [(is_clean desc, fullness_hint desc,
    slab_number desc)]", each key ranking the larger value first. *)
Definition spec_compare_slab_statuses (info1 info2 : slab_status) : Z :=
  if negb (eqb (is_clean info1) (is_clean info2)) then
    (if is_clean info1 then 1 else -1)
  else if negb (emptiness info1 =? emptiness info2) then
    (if emptiness info2 <? emptiness info1 then 1 else -1)
  else
    (if (status_slab_number info2 <? status_slab_number info1)%nat
     then 1 else -1).

(** *** vdo_prepare_slabs_for_allocation *)

(** Modelled from the spec: heap.c is not among the sources.  "Build a
    max-heap over all [slab_count] slabs keyed by a ... comparator ..., pop
    all": a pop yields an element of the heap that the comparator ranks
    above every other one.  The heap's contents are kept as a list. *)
Section Heap.

Context {A : Type} (comparator : A -> A -> Z).

Fixpoint extract_max (x : A) (rest : list A) : A * list A :=
  match rest with
  | [] => (x, [])
  | y :: rest' =>
      if 0 <? comparator y x
      then let '(m, r) := extract_max y rest' in (m, x :: r)
      else let '(m, r) := extract_max x rest' in (m, y :: r)
  end.

Definition pop_max_heap_element (heap : list A) : option (A * list A) :=
  match heap with
  | [] => None
  | x :: rest => Some (extract_max x rest)
  end.

(** [while (pop_max_heap_element(&heap, &current))]: the elements in the
    order the loop sees them.  The count bounds the loop by the heap's
    size. *)
Fixpoint pop_all (count : nat) (heap : list A) : list A :=
  match count with
  | O => []
  | S count' =>
      match pop_max_heap_element heap with
      | None => []
      | Some (m, heap') => m :: pop_all count' heap'
      end
  end.

End Heap.

(** Modelled from the spec: slab-summary.c is not among the sources.  The
    status of slab [i] carries the summary's [is_clean] and [fullness_hint]
    of that slab. *)
Definition vdo_get_summarized_slab_statuses
    (summary : list slab_summary_entry) (slab_count : nat)
    : list slab_status :=
  imap (fun i e => {| status_slab_number := i;
                      is_clean := summary_is_clean e;
                      emptiness := fullness_hint e |})
       (take slab_count summary).

Definition vdo_must_load_ref_counts (summary : list slab_summary_entry)
    (slab_number : nat) : option bool :=
  load_ref_counts <$> summary !! slab_number.

Definition get_data_block_count (a : block_allocator) : Z :=
  u64 (slab_count a * data_blocks (depot a)).

(** One turn of the loop body over a popped status. *)
Definition prepare_slab (a : block_allocator)
    (current_slab_status : slab_status) : option block_allocator :=
  let n := status_slab_number current_slab_status in
  slab ← get_slab a n;
  if decide (allocator slab <> zone_number a) then Some a
  else
    queue_directly ←
      (if decide (load_type (depot a) = VDO_SLAB_DEPOT_REBUILD_LOAD)
       then Some true
       else
         must_load ← vdo_must_load_ref_counts (summary a) (slab_number slab);
         Some (negb must_load && is_clean current_slab_status));
    if (queue_directly : bool) then vdo_queue_slab a n
    else
      let a1 := put_slab a n (vdo_mark_slab_unrecovered slab) in
      let high_priority :=
        (is_clean current_slab_status
         && bool_decide (load_type (depot a) = VDO_SLAB_DEPOT_NORMAL_LOAD))
        || journal_requires_scrubbing slab in
      Some (set_scrubber a1
              (vdo_register_slab_for_scrubbing (scrubber a1) n high_priority)).

Fixpoint prepare_slabs (a : block_allocator) (order : list slab_status)
    : option block_allocator :=
  match order with
  | [] => Some a
  | current_slab_status :: order' =>
      a' ← prepare_slab a current_slab_status;
      prepare_slabs a' order'
  end.

(** The order in which the loop meets the slab statuses. *)
Definition slab_processing_order (a : block_allocator) : list slab_status :=
  let slab_count := length (slabs (depot a)) in
  pop_all compare_slab_statuses slab_count
    (vdo_get_summarized_slab_statuses (summary a) slab_count).

Definition vdo_prepare_slabs_for_allocation (a : block_allocator)
    : option block_allocator :=
  prepare_slabs (set_allocated_blocks a (get_data_block_count a))
    (slab_processing_order a).

End Allocator.

Arguments vdo_slab RC : clear implicits.
Arguments slab_depot RC : clear implicits.
Arguments block_allocator RC : clear implicits.
Arguments SlabOps RC : clear implicits.

End BlockAllocator.

(** ** States of the allocation queue *)

Module AllocatorInvariants.

Import BlockAllocator.

(** The slabs a priority table holds, bucket after bucket. *)
Definition queue_entries (table : priority_table) : list nat :=
  mjoin (buckets table).

Section Invariants.

Context {RC : Type} `{!RefCounts RC}.

(** The slab waits in one of the scrubber's lists. *)
Definition in_scrubber (a : block_allocator RC) (n : nat) : Prop :=
  n ∈ high_priority_slabs (scrubber a) \/ n ∈ scrubber_slabs (scrubber a).

(** [slab->priority] is the bucket the slab is queued in. *)
Definition priorities_recorded (a : block_allocator RC) : Prop :=
  forall (n p : nat),
    queued_at (prioritized_slabs a) n p ->
    exists slab, get_slab a n = Some slab /\ priority slab = Z.of_nat p.

(** The state of the allocation queue between two calls: no slab is
    queued twice, every queued slab records the priority of its bucket, and
    the open slab is not queued. *)
Definition queue_consistent (a : block_allocator RC) : Prop :=
  0 <= unopened_slab_priority a
  /\ NoDup (queue_entries (prioritized_slabs a))
  /\ priorities_recorded a
  /\ (forall n, open_slab a = Some n -> ~ queued (prioritized_slabs a) n).

(** The priority table and the unopened slab priority have the sizes
    [allocate_components] gives them. *)
Definition sized_by_components (a : block_allocator RC) : Prop :=
  max_priority (prioritized_slabs a)
  = max_priority (prioritized_slabs (allocate_components a))
  /\ length (buckets (prioritized_slabs a))
     = length (buckets (prioritized_slabs (allocate_components a)))
  /\ unopened_slab_priority a
     = unopened_slab_priority (allocate_components a).

(** What allocating a block leaves alone. *)
Definition allocation_frame (a a' : block_allocator RC) : Prop :=
  scrubber a' = scrubber a
  /\ read_only_notifier a' = read_only_notifier a
  /\ summary a' = summary a
  /\ zone_number a' = zone_number a
  /\ slab_count a' = slab_count a
  /\ unopened_slab_priority a' = unopened_slab_priority a
  /\ data_blocks (depot a') = data_blocks (depot a)
  /\ length (slabs (depot a')) = length (slabs (depot a)).

(** The slab is in neither queue; the slab is in exactly one of them. *)
Definition unplaced (a : block_allocator RC) (n : nat) : Prop :=
  ~ queued (prioritized_slabs a) n /\ ~ in_scrubber a n.

Definition placed_once (a : block_allocator RC) (n : nat) : Prop :=
  (queued (prioritized_slabs a) n /\ ~ in_scrubber a n)
  \/ (in_scrubber a n /\ ~ queued (prioritized_slabs a) n).

(** What placing slab [n] leaves alone: the zone, the size of a slab and
    every other slab. *)
Definition others_kept (a a' : block_allocator RC) (n : nat) : Prop :=
  zone_number a' = zone_number a
  /\ data_blocks (depot a') = data_blocks (depot a)
  /\ forall m, m <> n ->
       get_slab a' m = get_slab a m
       /\ (queued (prioritized_slabs a') m <-> queued (prioritized_slabs a) m)
       /\ (in_scrubber a' m <-> in_scrubber a m).

(** The state in which the slabs are prepared for allocation: a consistent
    queue sized by the constructor and no open slab. *)
Definition prepared (a : block_allocator RC) : Prop :=
  queue_consistent a
  /\ open_slab a = None
  /\ sized_by_components a
  /\ is_u64 (data_blocks (depot a)).

End Invariants.

End AllocatorInvariants.

(** ** What an allocation leaves behind *)

Module AllocationSteps.

Import BlockAllocator.

Section Steps.

Context {RC : Type} `{!RefCounts RC} `{!SlabOps RC}.




End Steps.

End AllocationSteps.

(** ** The order of slabs at load *)

Module LoadOrder.

Import BlockAllocator.

(** The order the load is to handle the slabs in: a clean slab before a
    dirty one; of two slabs equally clean, the one with the larger
    emptiness first; of two slabs equally clean and empty, the one with the
    lower slab number first. *)
Definition processed_before (info1 info2 : slab_status) : Prop :=
  (is_clean info1 = true /\ is_clean info2 = false)
  \/ (is_clean info1 = is_clean info2
      /\ emptiness info2 < emptiness info1)
  \/ (is_clean info1 = is_clean info2
      /\ emptiness info1 = emptiness info2
      /\ (status_slab_number info1 < status_slab_number info2)%nat).

End LoadOrder.

(** ** An implementation of the reference counters *)

Module RefCountsModel.

Import BlockAllocator.

(** Modelled from the spec: ref-counts.c is not among the sources.  "Each
    counter is one of: 0 (free), 1..MAX-1 (shared), MAX (saturated ...), or
    PROVISIONAL"; "[allocate_unreferenced] scans the counter array starting
    at the cursor, wrapping once, returning the first counter equal to 0; it
    sets that counter to PROVISIONAL, advances the cursor past it, and
    returns the PBN.  Fails with NO_SPACE if no zero is found."  It is the
    instance on which the allocator is run on concrete states. *)
Inductive counter : Set :=
| Free
| Provisional
| Count (n : Z).

Record ref_counts : Set := {
  slab_origin : Z;
  counters : list counter;
  search_cursor : nat
}.

Definition is_free (c : counter) : bool :=
  match c with Free => true | _ => false end.

Definition free_count (rc : ref_counts) : Z :=
  u64 (Z.of_nat (length (List.filter is_free (counters rc)))).

Fixpoint first_free (cs : list counter) : option nat :=
  match cs with
  | [] => None
  | Free :: _ => Some O
  | _ :: rest => S <$> first_free rest
  end.

Definition search_free (rc : ref_counts) : option nat :=
  match first_free (drop (search_cursor rc) (counters rc)) with
  | Some i => Some (search_cursor rc + i)%nat
  | None => first_free (take (search_cursor rc) (counters rc))
  end.

Definition allocate_unreferenced (rc : ref_counts) : status * Z * ref_counts :=
  match search_free rc with
  | None => (VDO_NO_SPACE, 0, rc)
  | Some i =>
      (VDO_SUCCESS, slab_origin rc + Z.of_nat i,
       {| slab_origin := slab_origin rc;
          counters := <[i := Provisional]> (counters rc);
          search_cursor := S i |})
  end.

Lemma free_count_range (rc : ref_counts) : is_u64 (free_count rc).
Proof. unfold is_u64, free_count, u64. apply Z.mod_pos_bound. lia. Qed.

#[global] Instance ref_counts_model : RefCounts ref_counts := {|
  vdo_get_unreferenced_block_count := free_count;
  vdo_allocate_unreferenced_block := allocate_unreferenced;
  unreferenced_block_count_range := free_count_range
|}.

(** Modelled from the spec: "[DATA_DECREMENT]: N→N-1; if N==1, slab's free
    count increases and allocator is notified ...; decrementing 0 is a fatal
    inconsistency" ([INVALID_STATE], read-only mode); "[DATA_INCREMENT]:
    provisional→1 or N→N+1 (saturating at MAX)"; the block map variants have
    "otherwise identical semantics".  A decrement vacates a provisional
    reference.  [MAXIMUM_REFERENCE_COUNT] stands for the spec's MAX. *)
Definition MAXIMUM_REFERENCE_COUNT : Z := 254.

Definition is_decrement (t : journal_operation) : bool :=
  match t with
  | VDO_JOURNAL_DATA_DECREMENT | VDO_JOURNAL_BLOCK_MAP_DECREMENT => true
  | _ => false
  end.

Definition set_counter (a : block_allocator ref_counts) (n : nat)
    (slab : vdo_slab ref_counts) (i : nat) (c : counter)
    : block_allocator ref_counts :=
  put_slab a n
    (set_reference_counts slab
       {| slab_origin := slab_origin (reference_counts slab);
          counters := <[i := c]> (counters (reference_counts slab));
          search_cursor := search_cursor (reference_counts slab) |}).

Definition notify_allocator (a : block_allocator ref_counts) (n : nat)
    (increment : bool) : block_allocator ref_counts :=
  default a (vdo_adjust_free_block_count a n increment).

Definition modify_slab_reference_count (a : block_allocator ref_counts)
    (slab : option nat) (journal_point : option Z)
    (operation : reference_operation)
    : status * block_allocator ref_counts :=
  match slab with
  | None => (VDO_SUCCESS, a)
  | Some n =>
      match get_slab a n with
      | None => (VDO_OUT_OF_RANGE, a)
      | Some s =>
          let i := Z.to_nat (op_pbn operation
                             - slab_origin (reference_counts s)) in
          match counters (reference_counts s) !! i with
          | None => (VDO_OUT_OF_RANGE, a)
          | Some c =>
              if is_decrement (op_type operation) then
                match c with
                | Free =>
                    (VDO_INVALID_STATE,
                     set_read_only_notifier a
                       (vdo_enter_read_only_mode (read_only_notifier a)
                          VDO_INVALID_STATE))
                | Provisional =>
                    (VDO_SUCCESS,
                     notify_allocator (set_counter a n s i Free) n true)
                | Count k =>
                    if k =? 1 then
                      (VDO_SUCCESS,
                       notify_allocator (set_counter a n s i Free) n true)
                    else (VDO_SUCCESS, set_counter a n s i (Count (k - 1)))
                end
              else
                match c with
                | Free =>
                    (VDO_SUCCESS,
                     notify_allocator (set_counter a n s i (Count 1)) n false)
                | Provisional => (VDO_SUCCESS, set_counter a n s i (Count 1))
                | Count k =>
                    (VDO_SUCCESS,
                     set_counter a n s i
                       (Count (Z.min (k + 1) MAXIMUM_REFERENCE_COUNT)))
                end
          end
      end
  end.

#[global] Instance slab_ops_model : SlabOps ref_counts := {|
  vdo_open_slab := fun slab stats => (slab, stats);
  vdo_modify_slab_reference_count := modify_slab_reference_count
|}.

End RefCountsModel.

(** ** Allocating vios (allocating-vio.c) *)

Module AllocatingVio.

(** [struct pbn_lock], the fields used here. *)
Record pbn_lock : Set := {
  holder_count : Z;
  has_provisional_reference : bool
}.

(** [struct allocating_vio], the fields used here.  [zone] is the number
    of the physical zone the vio points to. *)
Record allocating_vio : Set := {
  zone : nat;
  allocation : Z;
  allocation_attempts : Z;
  wait_for_clean_slab : bool;
  allocation_lock : option pbn_lock
}.

(** What the vio calls in a physical zone, over a state [W] of all zones:
    the zone's block allocator ([allocate_vdo_block], which writes the block
    number on success only), its scrubber's queue of waiters for a clean slab
    ([enqueue_for_clean_vdo_slab]: "VDO_SUCCESS if the waiter was queued,
    VDO_NO_SPACE if there are no slabs to scrub, and some other error
    otherwise") and its lock table.  [physical_zone_count] is
    [vdo->thread_config->physical_zone_count]. *)
Class PhysicalZones (W : Type) : Type := {
  physical_zone_count : Z;
  allocate_vdo_block : W -> nat -> status * option Z * W;
  enqueue_for_clean_vdo_slab : W -> nat -> status * W;
  attempt_vdo_physical_zone_pbn_lock :
    W -> nat -> Z -> status * pbn_lock * W
}.

(** The calls a vio makes into the zones, in the order it makes them. *)
Inductive zone_call : Set :=
| Allocate (zone_number : nat)
| EnqueueForCleanSlab (zone_number : nat).

(** How [should_try_next_zone] leaves: the caller moves on to the next zone,
    the vio waits on the scrubber, or the vio's completion has been
    continued with a result. *)
Inductive zone_decision : Set :=
| TryNextZone
| Enqueued
| Finished (result : status).

Section Vio.

Context {W : Type} `{!PhysicalZones W}.

(** Where an allocation stands when control returns to the work queues. *)
Inductive outcome : Type :=
| Completed (result : status) (vio : allocating_vio) (w : W)
| WaitingForCleanSlab (vio : allocating_vio) (w : W)
| StillRunning.

Definition set_zone (vio : allocating_vio) (z : nat) : allocating_vio :=
  {| zone := z; allocation := allocation vio;
     allocation_attempts := allocation_attempts vio;
     wait_for_clean_slab := wait_for_clean_slab vio;
     allocation_lock := allocation_lock vio |}.

Definition set_allocation (vio : allocating_vio) (pbn : Z) : allocating_vio :=
  {| zone := zone vio; allocation := pbn;
     allocation_attempts := allocation_attempts vio;
     wait_for_clean_slab := wait_for_clean_slab vio;
     allocation_lock := allocation_lock vio |}.

Definition set_attempts (vio : allocating_vio) (wait : bool) (n : Z)
    : allocating_vio :=
  {| zone := zone vio; allocation := allocation vio;
     allocation_attempts := n;
     wait_for_clean_slab := wait;
     allocation_lock := allocation_lock vio |}.

Definition set_allocation_lock (vio : allocating_vio) (l : option pbn_lock)
    : allocating_vio :=
  {| zone := zone vio; allocation := allocation vio;
     allocation_attempts := allocation_attempts vio;
     wait_for_clean_slab := wait_for_clean_slab vio;
     allocation_lock := l |}.

(** *** attempt_pbn_write_lock *)

Definition attempt_pbn_write_lock (w : W) (vio : allocating_vio)
    : status * allocating_vio * W :=
  let '(result, lock, w1) :=
    attempt_vdo_physical_zone_pbn_lock w (zone vio) (allocation vio) in
  if decide (result <> VDO_SUCCESS) then (result, vio, w1)
  else if 0 <? holder_count lock then (VDO_LOCK_ERROR, vio, w1)
  else
    (VDO_SUCCESS,
     set_allocation_lock vio
       (Some {| holder_count := holder_count lock + 1;
                has_provisional_reference := true |}),
     w1).

(** *** finish_allocation

    The result handed to [continue_vdo_completion]. *)

Definition finish_allocation (vio : allocating_vio) (result : status)
    : status :=
  if decide (result = VDO_NO_SPACE) then VDO_SUCCESS else result.

(** *** has_zones_to_try *)

Definition has_zones_to_try (vio : allocating_vio) : bool :=
  allocation_attempts vio <? physical_zone_count.

(** *** should_try_next_zone *)

Definition should_try_next_zone (w : W) (vio : allocating_vio)
    : zone_decision * allocating_vio * W * list zone_call :=
  if negb (wait_for_clean_slab vio) && has_zones_to_try vio
  then (TryNextZone, vio, w, [])
  else
    let vio1 :=
      if negb (wait_for_clean_slab vio) then set_attempts vio true 1
      else vio in
    let '(result, w1) := enqueue_for_clean_vdo_slab w (zone vio1) in
    let calls := [EnqueueForCleanSlab (zone vio1)] in
    if decide (result = VDO_SUCCESS) then (Enqueued, vio1, w1, calls)
    else if bool_decide (result <> VDO_NO_SPACE)
            || negb (has_zones_to_try vio1)
    then (Finished (finish_allocation vio1 result), vio1, w1, calls)
    else (TryNextZone, vio1, w1, calls).

(** *** try_next_zone

    [launch] stands for
    [vio_launch_physical_zone_callback(allocating_vio, allocate_block_in_zone)],
    which runs [allocate_block_in_zone] on the thread of the vio's new zone.
    The zone number is a [zone_count_t]; it stays below the zone count. *)

Definition next_zone_number (z : nat) : nat :=
  let zone_number := (z + 1)%nat in
  if Z.of_nat zone_number =? physical_zone_count then O else zone_number.

Definition try_next_zone
    (launch : W -> allocating_vio -> outcome * list zone_call)
    (w : W) (vio : allocating_vio) : outcome * list zone_call :=
  match should_try_next_zone w vio with
  | (TryNextZone, vio1, w1, calls) =>
      let '(o, rest) :=
        launch w1 (set_zone vio1 (next_zone_number (zone vio1))) in
      (o, calls ++ rest)
  | (Enqueued, vio1, w1, calls) => (WaitingForCleanSlab vio1 w1, calls)
  | (Finished r, vio1, w1, calls) => (Completed r vio1 w1, calls)
  end.

(** *** allocate_block_in_zone

    The fuel counts the launches of the callback. *)

Fixpoint allocate_block_in_zone (fuel : nat) (w : W) (vio : allocating_vio)
    : outcome * list zone_call :=
  match fuel with
  | O => (StillRunning, [])
  | S fuel' =>
      let vio1 :=
        set_attempts vio (wait_for_clean_slab vio)
          (allocation_attempts vio + 1) in
      let '(result, pbn, w1) := allocate_vdo_block w (zone vio1) in
      let vio2 :=
        match pbn with
        | Some p => set_allocation vio1 p
        | None => vio1
        end in
      let called := Allocate (zone vio1) in
      if decide (result = VDO_NO_SPACE) then
        let '(o, calls) :=
          try_next_zone (allocate_block_in_zone fuel') w1 vio2 in
        (o, called :: calls)
      else
        let '(result', vio3, w2) :=
          if decide (result = VDO_SUCCESS)
          then attempt_pbn_write_lock w1 vio2
          else (result, vio2, w1) in
        (Completed (finish_allocation vio3 result') vio3 w2, [called])
  end.

(** *** retry_allocate_block_in_zone *)

Definition retry_allocate_block_in_zone (fuel : nat) (w : W)
    (vio : allocating_vio) : outcome * list zone_call :=
  allocate_block_in_zone fuel w (set_attempts vio false 0).

(** *** vio_allocate_data_block

    [first_zone] is what [get_next_vdo_allocation_zone(selector)]
    answers. *)

Definition vio_allocate_data_block (fuel : nat) (w : W)
    (vio : allocating_vio) (first_zone : nat) : outcome * list zone_call :=
  allocate_block_in_zone fuel w
    (set_zone (set_allocation (set_attempts vio (wait_for_clean_slab vio) 0)
                 BlockAllocator.VDO_ZERO_BLOCK)
       first_zone).

(** The zones met from [z] on, in the order [try_next_zone] visits them,
    and the zone reached after [k] moves. *)
Fixpoint zones_from (z : nat) (k : nat) : list nat :=
  match k with
  | O => []
  | S k' => z :: zones_from (next_zone_number z) k'
  end.

Fixpoint zone_after (z : nat) (k : nat) : nat :=
  match k with
  | O => z
  | S k' => zone_after (next_zone_number z) k'
  end.

(** No zone has a free block; every scrubber gives the same answer to a
    waiter. *)
Definition every_zone_out_of_space : Prop :=
  forall (w : W) (z : nat),
    exists w', allocate_vdo_block w z = (VDO_NO_SPACE, None, w').

Definition every_scrubber_answers (result : status) : Prop :=
  forall (w : W) (z : nat),
    exists w', enqueue_for_clean_vdo_slab w z = (result, w').

End Vio.

Arguments outcome W : clear implicits.

End AllocatingVio.

(** ** Counting the launches of an allocation *)

Module AllocationLaunches.

Import AllocatingVio.

(** The number of calls to a zone's block allocator among the calls a vio
    made. *)
Fixpoint allocation_calls (calls : list zone_call) : nat :=
  match calls with
  | [] => O
  | Allocate _ :: rest => S (allocation_calls rest)
  | EnqueueForCleanSlab _ :: rest => allocation_calls rest
  end.

(** The zones a vio meets that starts in zone [first] of [n] zones and
    moves on [k - 1] times, each time to the next zone number, zone 0
    following zone [n - 1]. *)
Definition zones_in_turn (n first k : nat) : list nat :=
  (fun j => ((first + j) mod n)%nat) <$> seq 0 k.

Section Launches.

Context {W : Type} `{!PhysicalZones W}.

(** The launches of [allocate_block_in_zone] a vio can still need: the
    zones left in the round it is in and, while it has not yet turned to
    the scrubbers, the round trip over the other zones that may follow. *)
Definition launches_left (vio : allocating_vio) : nat :=
  (Z.to_nat (Z.max 1 (physical_zone_count - allocation_attempts vio))
   + (if wait_for_clean_slab vio then 0
      else Z.to_nat (physical_zone_count - 1)))%nat.

End Launches.

End AllocationLaunches.

(** ** Index configuration block (config.c) *)

Module Config.

Import coqutil.Byte coqutil.Word.LittleEndianList.

Definition INDEX_CONFIG_MAGIC : list byte := list_byte_of_string "ALBIC".
Definition INDEX_CONFIG_VERSION_6_02 : list byte :=
  list_byte_of_string "06.02".
Definition INDEX_CONFIG_VERSION_8_02 : list byte :=
  list_byte_of_string "08.02".

Definition INDEX_CONFIG_MAGIC_LENGTH : nat := 5.
Definition INDEX_CONFIG_VERSION_LENGTH : nat := 5.

(** [sizeof(struct uds_configuration_6_02)] and
    [sizeof(struct uds_configuration_8_02)]: eight [uint32_t] and one
    [uint64_t], and two more [uint64_t] (the payloads of the spec's on-disk
    layout). *)
Definition sizeof_uds_configuration_6_02 : nat := 40.
Definition sizeof_uds_configuration_8_02 : nat := 56.

(** [struct geometry], the fields used here; [bytes_per_page] is a
    [size_t], the others [unsigned int] and [uint64_t]. *)
Record geometry : Set := {
  bytes_per_page : Z;
  record_pages_per_chapter : Z;
  chapters_per_volume : Z;
  sparse_chapters_per_volume : Z;
  remapped_virtual : Z;
  remapped_physical : Z
}.

(** [struct configuration], the fields used here. *)
Record configuration : Set := {
  config_geometry : geometry;
  cache_chapters : Z;
  volume_index_mean_delta : Z;
  sparse_sample_rate : Z;
  nonce : Z
}.

(** [struct uds_configuration_8_02]: the saved form. *)
Record uds_configuration_8_02 : Set := {
  saved_record_pages_per_chapter : Z;
  saved_chapters_per_volume : Z;
  saved_sparse_chapters_per_volume : Z;
  saved_cache_chapters : Z;
  saved_volume_index_mean_delta : Z;
  saved_bytes_per_page : Z;
  saved_sparse_sample_rate : Z;
  saved_nonce : Z;
  saved_remapped_virtual : Z;
  saved_remapped_physical : Z
}.

(** The fields hold values of their C types. *)
Definition well_typed_configuration (config : configuration) : Prop :=
  is_size_t (bytes_per_page (config_geometry config))
  /\ is_u32 (record_pages_per_chapter (config_geometry config))
  /\ is_u32 (chapters_per_volume (config_geometry config))
  /\ is_u32 (sparse_chapters_per_volume (config_geometry config))
  /\ is_u64 (remapped_virtual (config_geometry config))
  /\ is_u64 (remapped_physical (config_geometry config))
  /\ is_u32 (cache_chapters config)
  /\ is_u32 (volume_index_mean_delta config)
  /\ is_u32 (sparse_sample_rate config)
  /\ is_u64 (nonce config).

(** *** Buffers

    Modelled from the spec: buffer.c is not among the sources.  "All
    multi-byte integers are little-endian."  A buffer is a byte array with
    a start and an end position; the content lies between them, puts go to
    the end, gets come from the start, and both fail when there is no
    room. *)
Record buffer : Type := {
  buf_data : list byte;
  buf_start : nat;
  buf_end : nat
}.

Definition make_buffer (size : nat) : buffer :=
  {| buf_data := replicate size Byte.x00; buf_start := O; buf_end := O |}.

Definition buffer_length (b : buffer) : nat := length (buf_data b).
Definition content_length (b : buffer) : nat := (buf_end b - buf_start b)%nat.
Definition available_space (b : buffer) : nat :=
  (buffer_length b - buf_end b)%nat.

Definition get_buffer_contents (b : buffer) : list byte :=
  drop (buf_start b) (buf_data b).

Definition clear_buffer (b : buffer) : buffer :=
  {| buf_data := buf_data b; buf_start := O; buf_end := buffer_length b |}.

(** Computations over a buffer that answer a status. *)
Definition buffered (A : Type) : Type := buffer -> status + A * buffer.

#[export] Instance buffered_ret : MRet buffered :=
  fun A x b => inr (x, b).
#[export] Instance buffered_bind : MBind buffered :=
  fun A B f m b =>
    match m b with
    | inl e => inl e
    | inr (x, b') => f x b'
    end.

Definition put_bytes (bs : list byte) : buffered unit :=
  fun b =>
    if (available_space b <? length bs)%nat then inl UDS_BUFFER_ERROR
    else
      inr (tt,
           {| buf_data := take (buf_end b) (buf_data b) ++ bs
                          ++ drop (buf_end b + length bs) (buf_data b);
              buf_start := buf_start b;
              buf_end := (buf_end b + length bs)%nat |}).

Definition get_bytes (n : nat) : buffered (list byte) :=
  fun b =>
    if (content_length b <? n)%nat then inl UDS_BUFFER_ERROR
    else
      inr (take n (drop (buf_start b) (buf_data b)),
           {| buf_data := buf_data b;
              buf_start := (buf_start b + n)%nat;
              buf_end := buf_end b |}).

Definition put_uint32_le_into_buffer (v : Z) : buffered unit :=
  put_bytes (le_split 4 v).
Definition put_uint64_le_into_buffer (v : Z) : buffered unit :=
  put_bytes (le_split 8 v).
Definition zero_bytes (n : nat) : buffered unit :=
  put_bytes (replicate n Byte.x00).

Definition get_uint32_le_from_buffer : buffered Z :=
  bs ← get_bytes 4; mret (le_combine bs).
Definition get_uint64_le_from_buffer : buffered Z :=
  bs ← get_bytes 8; mret (le_combine bs).
Definition skip_forward (n : nat) : buffered unit :=
  _ ← get_bytes n; mret tt.

(** [ASSERT_LOG_ONLY(cond, ...)] as a step. *)
Definition assert_log_only (cond : buffer -> bool) (e : status)
    : buffered unit :=
  fun b => if cond b then inr (tt, b) else inl e.

(** *** decode_index_config_06_02 *)

Definition decode_index_config_06_02 : buffered uds_configuration_8_02 :=
  record_pages ← get_uint32_le_from_buffer;
  chapters ← get_uint32_le_from_buffer;
  sparse_chapters ← get_uint32_le_from_buffer;
  cache ← get_uint32_le_from_buffer;
  _ ← skip_forward 4;
  mean_delta ← get_uint32_le_from_buffer;
  page_bytes ← get_uint32_le_from_buffer;
  sample_rate ← get_uint32_le_from_buffer;
  the_nonce ← get_uint64_le_from_buffer;
  _ ← assert_log_only (fun b => (content_length b =? 0)%nat)
        UDS_CORRUPT_COMPONENT;
  mret {| saved_record_pages_per_chapter := record_pages;
          saved_chapters_per_volume := chapters;
          saved_sparse_chapters_per_volume := sparse_chapters;
          saved_cache_chapters := cache;
          saved_volume_index_mean_delta := mean_delta;
          saved_bytes_per_page := page_bytes;
          saved_sparse_sample_rate := sample_rate;
          saved_nonce := the_nonce;
          saved_remapped_virtual := 0;
          saved_remapped_physical := 0 |}.

(** *** decode_index_config_08_02 *)

Definition decode_index_config_08_02 : buffered uds_configuration_8_02 :=
  record_pages ← get_uint32_le_from_buffer;
  chapters ← get_uint32_le_from_buffer;
  sparse_chapters ← get_uint32_le_from_buffer;
  cache ← get_uint32_le_from_buffer;
  _ ← skip_forward 4;
  mean_delta ← get_uint32_le_from_buffer;
  page_bytes ← get_uint32_le_from_buffer;
  sample_rate ← get_uint32_le_from_buffer;
  the_nonce ← get_uint64_le_from_buffer;
  virtual ← get_uint64_le_from_buffer;
  physical ← get_uint64_le_from_buffer;
  _ ← assert_log_only (fun b => (content_length b =? 0)%nat)
        UDS_CORRUPT_COMPONENT;
  mret {| saved_record_pages_per_chapter := record_pages;
          saved_chapters_per_volume := chapters;
          saved_sparse_chapters_per_volume := sparse_chapters;
          saved_cache_chapters := cache;
          saved_volume_index_mean_delta := mean_delta;
          saved_bytes_per_page := page_bytes;
          saved_sparse_sample_rate := sample_rate;
          saved_nonce := the_nonce;
          saved_remapped_virtual := virtual;
          saved_remapped_physical := physical |}.

(** *** Buffered readers and writers

    Modelled from the spec: the buffered reader and writer are not among
    the sources.  A reader is the bytes still to be read, a writer the bytes
    written so far; a read beyond the end fails, a verification fails on
    the first difference. *)
Definition read_from_buffered_reader (reader : list byte) (n : nat)
    : status + list byte * list byte :=
  if (length reader <? n)%nat then inl UDS_END_OF_FILE
  else inr (take n reader, drop n reader).

#[export] Instance byte_eq_dec : EqDecision byte := Byte.byte_eq_dec.

(** [memcmp(x, y, n) == 0] on two arrays of the same length [n]. *)
Definition bytes_eqb (x y : list byte) : bool :=
  bool_decide (x = y).

Definition verify_buffered_data (reader : list byte) (value : list byte)
    : status + list byte :=
  match read_from_buffered_reader reader (length value) with
  | inl e => inl e
  | inr (bs, reader') =>
      if bytes_eqb bs value then inr reader' else inl UDS_CORRUPT_FILE
  end.

Definition write_to_buffered_writer (writer : list byte) (bs : list byte)
    : list byte :=
  writer ++ bs.

(** *** read_version

    The bytes of the saved configuration are read straight into the
    buffer's array, and [clear_buffer] then makes all of them its
    content.  [make_buffer] is taken to succeed: the two returns on its
    failure, an allocation error, are left out, and so are the failures of
    the reader other than a short input. *)

Definition read_and_decode (reader : list byte) (size : nat)
    (decode : buffered uds_configuration_8_02)
    : (status + uds_configuration_8_02) * list byte :=
  let buffer := make_buffer size in
  match read_from_buffered_reader reader (buffer_length buffer) with
  | inl e => (inl e, reader)
  | inr (bs, reader') =>
      let buffer :=
        clear_buffer {| buf_data := bs; buf_start := buf_start buffer;
                        buf_end := buf_end buffer |} in
      match decode buffer with
      | inl e => (inl e, reader')
      | inr (conf, _) => (inr conf, reader')
      end
  end.

Definition read_version (reader : list byte)
    : (status + uds_configuration_8_02) * list byte :=
  match read_from_buffered_reader reader INDEX_CONFIG_VERSION_LENGTH with
  | inl e => (inl e, reader)
  | inr (version_buffer, reader') =>
      if bytes_eqb INDEX_CONFIG_VERSION_6_02 version_buffer then
        read_and_decode reader' sizeof_uds_configuration_6_02
          decode_index_config_06_02
      else if bytes_eqb INDEX_CONFIG_VERSION_8_02 version_buffer then
        read_and_decode reader' sizeof_uds_configuration_8_02
          decode_index_config_08_02
      else (inl UDS_CORRUPT_COMPONENT, reader')
  end.

(** *** are_matching_configurations *)

Definition are_matching_configurations (saved : uds_configuration_8_02)
    (user : configuration) : bool :=
  let geometry := config_geometry user in
  let result := true in
  let result :=
    if negb (saved_record_pages_per_chapter saved
             =? record_pages_per_chapter geometry)
    then false else result in
  let result :=
    if negb (saved_chapters_per_volume saved =? chapters_per_volume geometry)
    then false else result in
  let result :=
    if negb (saved_sparse_chapters_per_volume saved
             =? sparse_chapters_per_volume geometry)
    then false else result in
  let result :=
    if negb (saved_cache_chapters saved =? cache_chapters user)
    then false else result in
  let result :=
    if negb (saved_volume_index_mean_delta saved
             =? volume_index_mean_delta user)
    then false else result in
  let result :=
    if negb (saved_bytes_per_page saved =? bytes_per_page geometry)
    then false else result in
  let result :=
    if negb (saved_sparse_sample_rate saved =? sparse_sample_rate user)
    then false else result in
  let result :=
    if negb (saved_nonce saved =? nonce user)
    then false else result in
  result.

(** *** validate_config_contents *)

Definition set_remapping (config : configuration) (virtual physical : Z)
    : configuration :=
  {| config_geometry :=
       {| bytes_per_page := bytes_per_page (config_geometry config);
          record_pages_per_chapter :=
            record_pages_per_chapter (config_geometry config);
          chapters_per_volume := chapters_per_volume (config_geometry config);
          sparse_chapters_per_volume :=
            sparse_chapters_per_volume (config_geometry config);
          remapped_virtual := virtual;
          remapped_physical := physical |};
     cache_chapters := cache_chapters config;
     volume_index_mean_delta := volume_index_mean_delta config;
     sparse_sample_rate := sparse_sample_rate config;
     nonce := nonce config |}.

Definition validate_config_contents (reader : list byte)
    (config : configuration) : status * configuration * list byte :=
  match verify_buffered_data reader INDEX_CONFIG_MAGIC with
  | inl e => (e, config, reader)
  | inr reader1 =>
      match read_version reader1 with
      | (inl e, reader2) => (e, config, reader2)
      | (inr saved, reader2) =>
          if negb (are_matching_configurations saved config)
          then (UDS_NO_INDEX, config, reader2)
          else
            (UDS_SUCCESS,
             set_remapping config (saved_remapped_virtual saved)
               (saved_remapped_physical saved),
             reader2)
      end
  end.

(** *** encode_index_config_06_02 *)

Definition encode_index_config_06_02 (config : configuration)
    : buffered unit :=
  let geometry := config_geometry config in
  _ ← put_uint32_le_into_buffer (record_pages_per_chapter geometry);
  _ ← put_uint32_le_into_buffer (chapters_per_volume geometry);
  _ ← put_uint32_le_into_buffer (sparse_chapters_per_volume geometry);
  _ ← put_uint32_le_into_buffer (cache_chapters config);
  _ ← zero_bytes 4;
  _ ← put_uint32_le_into_buffer (volume_index_mean_delta config);
  _ ← put_uint32_le_into_buffer (bytes_per_page geometry);
  _ ← put_uint32_le_into_buffer (sparse_sample_rate config);
  _ ← put_uint64_le_into_buffer (nonce config);
  assert_log_only (fun b => (available_space b =? 0)%nat)
    UDS_ASSERTION_FAILED.

(** *** encode_index_config_08_02 *)

Definition encode_index_config_08_02 (config : configuration)
    : buffered unit :=
  let geometry := config_geometry config in
  _ ← put_uint32_le_into_buffer (record_pages_per_chapter geometry);
  _ ← put_uint32_le_into_buffer (chapters_per_volume geometry);
  _ ← put_uint32_le_into_buffer (sparse_chapters_per_volume geometry);
  _ ← put_uint32_le_into_buffer (cache_chapters config);
  _ ← zero_bytes 4;
  _ ← put_uint32_le_into_buffer (volume_index_mean_delta config);
  _ ← put_uint32_le_into_buffer (bytes_per_page geometry);
  _ ← put_uint32_le_into_buffer (sparse_sample_rate config);
  _ ← put_uint64_le_into_buffer (nonce config);
  _ ← put_uint64_le_into_buffer (remapped_virtual geometry);
  _ ← put_uint64_le_into_buffer (remapped_physical geometry);
  assert_log_only (fun b => (available_space b =? 0)%nat)
    UDS_ASSERTION_FAILED.

(** *** write_config_contents

    [version] is a [uint32_t]. *)

Definition write_config_contents (writer : list byte)
    (config : configuration) (version : Z) : status * list byte :=
  let writer := write_to_buffered_writer writer INDEX_CONFIG_MAGIC in
  if version <? 4 then
    let writer := write_to_buffered_writer writer INDEX_CONFIG_VERSION_6_02 in
    match encode_index_config_06_02 config
            (make_buffer sizeof_uds_configuration_6_02) with
    | inl e => (e, writer)
    | inr (_, buffer) =>
        (UDS_SUCCESS,
         write_to_buffered_writer writer
           (take (content_length buffer) (get_buffer_contents buffer)))
    end
  else
    let writer := write_to_buffered_writer writer INDEX_CONFIG_VERSION_8_02 in
    match encode_index_config_08_02 config
            (make_buffer sizeof_uds_configuration_8_02) with
    | inl e => (e, writer)
    | inr (_, buffer) =>
        (UDS_SUCCESS,
         write_to_buffered_writer writer
           (take (content_length buffer) (get_buffer_contents buffer)))
    end.

(** *** The saved form of a configuration *)

(** The saved configuration agrees with the supplied one, field by field. *)
Definition fields_match (saved : uds_configuration_8_02)
    (user : configuration) : Prop :=
  saved_record_pages_per_chapter saved
  = record_pages_per_chapter (config_geometry user)
  /\ saved_chapters_per_volume saved
     = chapters_per_volume (config_geometry user)
  /\ saved_sparse_chapters_per_volume saved
     = sparse_chapters_per_volume (config_geometry user)
  /\ saved_cache_chapters saved = cache_chapters user
  /\ saved_volume_index_mean_delta saved = volume_index_mean_delta user
  /\ saved_bytes_per_page saved = bytes_per_page (config_geometry user)
  /\ saved_sparse_sample_rate saved = sparse_sample_rate user
  /\ saved_nonce saved = nonce user.

(** What a configuration looks like once saved and parsed, with the given
    remapping. *)
Definition saved_form (config : configuration) (virtual physical : Z)
    : uds_configuration_8_02 :=
  {| saved_record_pages_per_chapter :=
       record_pages_per_chapter (config_geometry config);
     saved_chapters_per_volume := chapters_per_volume (config_geometry config);
     saved_sparse_chapters_per_volume :=
       sparse_chapters_per_volume (config_geometry config);
     saved_cache_chapters := cache_chapters config;
     saved_volume_index_mean_delta := volume_index_mean_delta config;
     saved_bytes_per_page := bytes_per_page (config_geometry config);
     saved_sparse_sample_rate := sparse_sample_rate config;
     saved_nonce := nonce config;
     saved_remapped_virtual := virtual;
     saved_remapped_physical := physical |}.

(** The payloads of the two formats, as the on-disk layout gives them. *)
Definition payload_06_02 (config : configuration) : list byte :=
  le_split 4 (record_pages_per_chapter (config_geometry config))
  ++ le_split 4 (chapters_per_volume (config_geometry config))
  ++ le_split 4 (sparse_chapters_per_volume (config_geometry config))
  ++ le_split 4 (cache_chapters config)
  ++ le_split 4 0
  ++ le_split 4 (volume_index_mean_delta config)
  ++ le_split 4 (bytes_per_page (config_geometry config))
  ++ le_split 4 (sparse_sample_rate config)
  ++ le_split 8 (nonce config).

Definition payload_08_02 (config : configuration) : list byte :=
  payload_06_02 config
  ++ le_split 8 (remapped_virtual (config_geometry config))
  ++ le_split 8 (remapped_physical (config_geometry config)).

(** A failing buffer computation answers an error code. *)
Definition fails_with_error {A : Type} (m : buffered A) : Prop :=
  forall b e, m b = inl e -> e <> UDS_SUCCESS.

End Config.

(** ** How the configuration code uses its buffers and readers *)

Module BufferUse.

Import coqutil.Byte coqutil.Word.LittleEndianList.
Import Config.

(** [m] reads the content of a buffer to its end and needs it to be [n]
    bytes long: with fewer bytes it runs out of content, with more it
    finds bytes left over. *)
Definition takes_exactly {A : Type} (n : nat) (m : buffered A) : Prop :=
  forall b : buffer,
    match m b with
    | inr (_, b') =>
        content_length b = n /\ content_length b' = O
        /\ buf_data b' = buf_data b
    | inl e =>
        content_length b <> n
        /\ e = (if (content_length b <? n)%nat then UDS_BUFFER_ERROR
                else UDS_CORRUPT_COMPONENT)
    end.

(** [m] fills the space of a buffer to its end and needs it to be [n]
    bytes: with less space a put fails, with more the final check does. *)
Definition fills_exactly (n : nat) (m : buffered unit) : Prop :=
  forall b : buffer,
    match m b with
    | inr (_, b') =>
        available_space b = n /\ available_space b' = O
        /\ buf_start b' = buf_start b
        /\ buf_end b' = (buf_end b + n)%nat
    | inl e =>
        available_space b <> n
        /\ e = (if (available_space b <? n)%nat then UDS_BUFFER_ERROR
                else UDS_ASSERTION_FAILED)
    end.

(** The saved fields hold values of their on-disk widths. *)
Definition well_typed_saved (saved : uds_configuration_8_02) : Prop :=
  is_u32 (saved_record_pages_per_chapter saved)
  /\ is_u32 (saved_chapters_per_volume saved)
  /\ is_u32 (saved_sparse_chapters_per_volume saved)
  /\ is_u32 (saved_cache_chapters saved)
  /\ is_u32 (saved_volume_index_mean_delta saved)
  /\ is_u32 (saved_bytes_per_page saved)
  /\ is_u32 (saved_sparse_sample_rate saved)
  /\ is_u64 (saved_nonce saved)
  /\ is_u64 (saved_remapped_virtual saved)
  /\ is_u64 (saved_remapped_physical saved).

(** A step that takes [n] bytes off the front of the content. *)
Definition reads {A : Type} (n : nat) (P : A -> Prop) (m : buffered A)
    : Prop :=
  forall b : buffer,
    ((content_length b < n)%nat -> m b = inl UDS_BUFFER_ERROR)
    /\ ((n <= content_length b)%nat ->
        exists x b',
          m b = inr (x, b') /\ P x
          /\ content_length b' = (content_length b - n)%nat
          /\ buf_data b' = buf_data b).

(** What a decoder that takes exactly [n] bytes answers satisfies [Q]. *)
Definition decodes {A : Type} (n : nat) (Q : A -> Prop) (m : buffered A)
    : Prop :=
  takes_exactly n m /\ forall b x b', m b = inr (x, b') -> Q x.

(** A put of [n] bytes. *)
Definition writes (n : nat) (m : buffered unit) : Prop :=
  forall b : buffer,
    ((available_space b < n)%nat -> m b = inl UDS_BUFFER_ERROR)
    /\ ((n <= available_space b)%nat ->
        exists b',
          m b = inr (tt, b')
          /\ available_space b' = (available_space b - n)%nat
          /\ buf_start b' = buf_start b
          /\ buf_end b' = (buf_end b + n)%nat).

(** The shapes of a version string followed by its payload. *)
Definition saved_block (version payload : list byte) : Prop :=
  (version = INDEX_CONFIG_VERSION_6_02
   /\ length payload = sizeof_uds_configuration_6_02)
  \/ (version = INDEX_CONFIG_VERSION_8_02
      /\ length payload = sizeof_uds_configuration_8_02).

End BufferUse.

(** ** The sizes of a new configuration (config.c) *)

Module ConfigSizes.

Definition DEFAULT_VOLUME_READ_THREADS : Z := 2.
Definition MAX_VOLUME_READ_THREADS : Z := 16.

(** *** compute_memory_sizes

    uds.h and geometry.h are not among the sources: the memory size codes
    and the default chapter and page counts they define are parameters
    here.  [mem_gb] is a [uds_memory_config_size_t]; the three results are
    [unsigned int].  [None] stands for the return of [-EINVAL], which
    leaves the three results unwritten. *)
Section MemorySizes.

Variables
  (UDS_MEMORY_CONFIG_256MB UDS_MEMORY_CONFIG_512MB UDS_MEMORY_CONFIG_768MB
   UDS_MEMORY_CONFIG_MAX UDS_MEMORY_CONFIG_REDUCED
   UDS_MEMORY_CONFIG_REDUCED_MAX UDS_MEMORY_CONFIG_REDUCED_256MB
   UDS_MEMORY_CONFIG_REDUCED_512MB UDS_MEMORY_CONFIG_REDUCED_768MB
   DEFAULT_CHAPTERS_PER_VOLUME SMALL_RECORD_PAGES_PER_CHAPTER
   DEFAULT_RECORD_PAGES_PER_CHAPTER : Z).

(** The chain of tests on [mem_gb]: the reduced chapters, the base
    chapters and the record pages per chapter. *)
Definition memory_size_class (mem_gb : Z) : option (Z * Z * Z) :=
  if mem_gb =? UDS_MEMORY_CONFIG_256MB then
    Some (0, u32 DEFAULT_CHAPTERS_PER_VOLUME,
          u32 SMALL_RECORD_PAGES_PER_CHAPTER)
  else if mem_gb =? UDS_MEMORY_CONFIG_512MB then
    Some (0, u32 DEFAULT_CHAPTERS_PER_VOLUME,
          u32 (2 * SMALL_RECORD_PAGES_PER_CHAPTER))
  else if mem_gb =? UDS_MEMORY_CONFIG_768MB then
    Some (0, u32 DEFAULT_CHAPTERS_PER_VOLUME,
          u32 (3 * SMALL_RECORD_PAGES_PER_CHAPTER))
  else if (1 <=? mem_gb) && (mem_gb <=? UDS_MEMORY_CONFIG_MAX) then
    Some (0, u32 (mem_gb * DEFAULT_CHAPTERS_PER_VOLUME),
          u32 DEFAULT_RECORD_PAGES_PER_CHAPTER)
  else if mem_gb =? UDS_MEMORY_CONFIG_REDUCED_256MB then
    Some (1, u32 DEFAULT_CHAPTERS_PER_VOLUME,
          u32 SMALL_RECORD_PAGES_PER_CHAPTER)
  else if mem_gb =? UDS_MEMORY_CONFIG_REDUCED_512MB then
    Some (1, u32 DEFAULT_CHAPTERS_PER_VOLUME,
          u32 (2 * SMALL_RECORD_PAGES_PER_CHAPTER))
  else if mem_gb =? UDS_MEMORY_CONFIG_REDUCED_768MB then
    Some (1, u32 DEFAULT_CHAPTERS_PER_VOLUME,
          u32 (3 * SMALL_RECORD_PAGES_PER_CHAPTER))
  else if (1 + UDS_MEMORY_CONFIG_REDUCED <=? mem_gb)
          && (mem_gb <=? UDS_MEMORY_CONFIG_REDUCED_MAX) then
    Some (1,
          u32 ((mem_gb - UDS_MEMORY_CONFIG_REDUCED)
               * DEFAULT_CHAPTERS_PER_VOLUME),
          u32 DEFAULT_RECORD_PAGES_PER_CHAPTER)
  else None.

(** The results are chapters per volume, record pages per chapter and
    sparse chapters per volume. *)
Definition compute_memory_sizes (mem_gb : Z) (sparse : bool)
    : option (Z * Z * Z) :=
  '(reduced_chapters, base_chapters, record_pages_per_chapter) ←
    memory_size_class mem_gb;
  let '(sparse_chapters_per_volume, base_chapters) :=
    if sparse
    then (u32 (9 * base_chapters + base_chapters / 2),
          u32 (base_chapters * 10))
    else (0, base_chapters) in
  Some (u32 (base_chapters - reduced_chapters), record_pages_per_chapter,
        sparse_chapters_per_volume).

End MemorySizes.

(** *** normalize_zone_count

    [num_cores] is what [uds_get_num_cores()] answers and [MAX_ZONES] the
    constant of that name; neither is among the sources.  All are
    [unsigned int]. *)
Definition normalize_zone_count (num_cores MAX_ZONES : Z) (requested : Z)
    : Z :=
  let zone_count := requested in
  let zone_count :=
    if zone_count =? 0 then num_cores / 2 else zone_count in
  let zone_count := if zone_count <? 1 then 1 else zone_count in
  let zone_count :=
    if MAX_ZONES <? zone_count then MAX_ZONES else zone_count in
  zone_count.

(** *** normalize_read_threads *)
Definition normalize_read_threads (requested : Z) : Z :=
  let read_threads := requested in
  let read_threads :=
    if read_threads <? 1 then DEFAULT_VOLUME_READ_THREADS
    else read_threads in
  let read_threads :=
    if MAX_VOLUME_READ_THREADS <? read_threads
    then MAX_VOLUME_READ_THREADS else read_threads in
  read_threads.

End ConfigSizes.

(** ** Dump options (kernel/dump.c) *)

Module Dump.

Import Stdlib.Strings.Ascii.

(** [enum dumpOptions]. *)
Definition SHOW_ALBIREO_QUEUE : Z := 0.
Definition SHOW_BIO_ACK_QUEUE : Z := 1.
Definition SHOW_BIO_QUEUE : Z := 2.
Definition SHOW_CPU_QUEUES : Z := 3.
Definition SHOW_REQUEST_QUEUE : Z := 4.
Definition SHOW_VIO_POOL : Z := 5.
Definition SHOW_VDO_STATUS : Z := 6.
Definition SKIP_DEFAULT : Z := 7.

(** [enum dump_option_flags]. *)
Definition FLAG_SHOW_ALBIREO_QUEUE : Z := Z.shiftl 1 SHOW_ALBIREO_QUEUE.
Definition FLAG_SHOW_BIO_ACK_QUEUE : Z := Z.shiftl 1 SHOW_BIO_ACK_QUEUE.
Definition FLAG_SHOW_BIO_QUEUE : Z := Z.shiftl 1 SHOW_BIO_QUEUE.
Definition FLAG_SHOW_CPU_QUEUES : Z := Z.shiftl 1 SHOW_CPU_QUEUES.
Definition FLAG_SHOW_REQUEST_QUEUE : Z := Z.shiftl 1 SHOW_REQUEST_QUEUE.
Definition FLAG_SHOW_VIO_POOL : Z := Z.shiftl 1 SHOW_VIO_POOL.
Definition FLAG_SHOW_VDO_STATUS : Z := Z.shiftl 1 SHOW_VDO_STATUS.
Definition FLAG_SKIP_DEFAULT : Z := Z.shiftl 1 SKIP_DEFAULT.

Definition FLAGS_ALL_POOLS : Z := FLAG_SHOW_VIO_POOL.
Definition FLAGS_ALL_QUEUES : Z :=
  Z.lor FLAG_SHOW_REQUEST_QUEUE
    (Z.lor FLAG_SHOW_ALBIREO_QUEUE
       (Z.lor FLAG_SHOW_BIO_ACK_QUEUE
          (Z.lor FLAG_SHOW_BIO_QUEUE FLAG_SHOW_CPU_QUEUES))).
Definition FLAGS_ALL_THREADS : Z := FLAGS_ALL_QUEUES.
Definition DEFAULT_DUMP_FLAGS : Z :=
  Z.lor FLAGS_ALL_THREADS FLAG_SHOW_VDO_STATUS.

(** [~0] as an [unsigned int]. *)
Definition ALL_FLAGS : Z := 2 ^ 32 - 1.

(** [EINVAL] of the kernel's errno-base.h. *)
Definition EINVAL : Z := 22.

(** *** is_arg_string

    [strncasecmp(arg, thisOption, strlen(thisOption)) == 0]: the characters
    are compared after [tolower], at most [n] of them, and the comparison
    stops where both strings end.  A string here is what lies before the
    terminating NUL. *)
Definition tolower (c : ascii) : ascii :=
  let n := nat_of_ascii c in
  if (65 <=? n)%nat && (n <=? 90)%nat then ascii_of_nat (n + 32) else c.

Fixpoint strncasecmp_is_zero (s1 s2 : string) (n : nat) {struct n} : bool :=
  match n with
  | O => true
  | S n' =>
      match s1, s2 with
      | EmptyString, EmptyString => true
      | String c1 r1, String c2 r2 =>
          if Ascii.eqb (tolower c1) (tolower c2)
          then strncasecmp_is_zero r1 r2 n'
          else false
      | _, _ => false
      end
  end.

Definition is_arg_string (arg thisOption : string) : bool :=
  strncasecmp_is_zero arg thisOption (String.length thisOption).

(** *** parse_dump_options *)

Definition option_names : list (string * Z) :=
  [ ("dedupe"%string, Z.lor FLAG_SKIP_DEFAULT FLAG_SHOW_ALBIREO_QUEUE);
    ("dedupeq"%string, Z.lor FLAG_SKIP_DEFAULT FLAG_SHOW_ALBIREO_QUEUE);
    ("kvdodedupeq"%string, Z.lor FLAG_SKIP_DEFAULT FLAG_SHOW_ALBIREO_QUEUE);
    ("bioack"%string, Z.lor FLAG_SKIP_DEFAULT FLAG_SHOW_BIO_ACK_QUEUE);
    ("kvdobioackq"%string, Z.lor FLAG_SKIP_DEFAULT FLAG_SHOW_BIO_ACK_QUEUE);
    ("bioackq"%string, Z.lor FLAG_SKIP_DEFAULT FLAG_SHOW_BIO_ACK_QUEUE);
    ("bio"%string, Z.lor FLAG_SKIP_DEFAULT FLAG_SHOW_BIO_QUEUE);
    ("kvdobioq"%string, Z.lor FLAG_SKIP_DEFAULT FLAG_SHOW_BIO_QUEUE);
    ("bioq"%string, Z.lor FLAG_SKIP_DEFAULT FLAG_SHOW_BIO_QUEUE);
    ("cpu"%string, Z.lor FLAG_SKIP_DEFAULT FLAG_SHOW_CPU_QUEUES);
    ("kvdocpuq"%string, Z.lor FLAG_SKIP_DEFAULT FLAG_SHOW_CPU_QUEUES);
    ("cpuq"%string, Z.lor FLAG_SKIP_DEFAULT FLAG_SHOW_CPU_QUEUES);
    ("request"%string, Z.lor FLAG_SKIP_DEFAULT FLAG_SHOW_REQUEST_QUEUE);
    ("kvdoreqq"%string, Z.lor FLAG_SKIP_DEFAULT FLAG_SHOW_REQUEST_QUEUE);
    ("reqq"%string, Z.lor FLAG_SKIP_DEFAULT FLAG_SHOW_REQUEST_QUEUE);
    ("viopool"%string, Z.lor FLAG_SKIP_DEFAULT FLAG_SHOW_VIO_POOL);
    ("vdo"%string, Z.lor FLAG_SKIP_DEFAULT FLAG_SHOW_VDO_STATUS);
    ("pools"%string, Z.lor FLAG_SKIP_DEFAULT FLAGS_ALL_POOLS);
    ("queues"%string, Z.lor FLAG_SKIP_DEFAULT FLAGS_ALL_QUEUES);
    ("threads"%string, Z.lor FLAG_SKIP_DEFAULT FLAGS_ALL_THREADS);
    ("default"%string, Z.lor FLAG_SKIP_DEFAULT DEFAULT_DUMP_FLAGS);
    ("all"%string, ALL_FLAGS) ].

(** The inner loop: the flags of the first entry the argument matches;
    [None] when [j] reaches [COUNT_OF(option_names)]. *)
Fixpoint find_option (names : list (string * Z)) (arg : string) : option Z :=
  match names with
  | [] => None
  | (name, flags) :: rest =>
      if is_arg_string arg name then Some flags else find_option rest arg
  end.

(** The outer loop over [argv[1]] to [argv[argc - 1]]: the flags gathered
    and [options_okay]. *)
Fixpoint gather_options (args : list string) (dump_options_requested : Z)
    (options_okay : bool) : Z * bool :=
  match args with
  | [] => (dump_options_requested, options_okay)
  | arg :: rest =>
      match find_option option_names arg with
      | Some flags =>
          gather_options rest (Z.lor dump_options_requested flags)
            options_okay
      | None => gather_options rest dump_options_requested false
      end
  end.

(** The result and what is written through
    [dump_options_requested_ptr]; [argc] is the length of [argv]. *)
Definition parse_dump_options (argv : list string) : Z * option Z :=
  let '(dump_options_requested, options_okay) :=
    gather_options (drop 1 argv) 0 true in
  if negb options_okay then (- EINVAL, None)
  else
    let dump_options_requested :=
      if Z.land dump_options_requested FLAG_SKIP_DEFAULT =? 0
      then Z.lor dump_options_requested DEFAULT_DUMP_FLAGS
      else dump_options_requested in
    (0, Some dump_options_requested).

(** The characters of a string after [tolower]. *)
Fixpoint lowered (s : string) : string :=
  match s with
  | EmptyString => EmptyString
  | String c r => String (tolower c) (lowered r)
  end.

(** The flags of all the options, or-ed together. *)
Definition union_of_flags (flags : list Z) : Z := foldr Z.lor 0 flags.

End Dump.

(** ** Metadata extents (extent.c) and the start of a vdo (vdoInit.c) *)

Module Extent.

(** What happens to the memory an extent is made of. *)
Inductive extent_event : Set :=
| AllocateExtent
| VioCreated (index : nat) (data_offset : Z)
| FreeVio (index : nat)
| DestroyEnqueueable
| FreeExtent.

Section Extent.

(** [VDO_BLOCK_SIZE] of constants.h and the completions of completion.c,
    which are not among the sources: the type of a completion and the three
    functions the extent calls on its own. *)
Variable VDO_BLOCK_SIZE : Z.
Variable vdo_completion : Type.
Variable reset_completion : vdo_completion -> vdo_completion.
Variable set_completion_result : vdo_completion -> status -> vdo_completion.
Variable finish_completion : vdo_completion -> status -> vdo_completion.

(** [struct vdo_extent], the fields used here: the completion, the number
    of vios and the number of completed vios, both 64 bits wide. *)
Record vdo_extent : Type := {
  completion : vdo_completion;
  count : Z;
  complete_count : Z
}.

(** *** free_extent

    The frees of an extent with [count] vios. *)
Definition free_extent (count : nat) : list extent_event :=
  (FreeVio <$> seq 0 count) ++ [DestroyEnqueueable; FreeExtent].

(** *** create_extent

    [create_metadata_vio i] is what [layer->createMetadataVIO] answers for
    the vio of index [i]; the loop runs while [extent->count] is below
    [block_count], [remaining] being the difference. *)
Fixpoint create_vios (create_metadata_vio : nat -> status) (remaining : nat)
    (count : nat) : status * nat * list extent_event :=
  match remaining with
  | O => (VDO_SUCCESS, count, [])
  | S remaining' =>
      let result := create_metadata_vio count in
      if decide (result <> VDO_SUCCESS) then (result, count, [])
      else
        let '(result', count', events) :=
          create_vios create_metadata_vio remaining' (S count) in
        (result', count',
         VioCreated count (Z.of_nat count * VDO_BLOCK_SIZE) :: events)
  end.

(** The result, the extent written through [extent_ptr] and the events.
    [is_metadata_vio_type] is what the predicate of that name answers,
    [allocate] what [ALLOCATE_EXTENDED] returns, [initialize] and
    [initialized] what [initialize_enqueueable_completion] returns and the
    completion it leaves.  The loop starts from the [count] of the memory as
    allocated, which is zeroed. *)
Definition create_extent (is_metadata_vio_type : bool)
    (allocate initialize : status) (initialized : vdo_completion)
    (create_metadata_vio : nat -> status) (block_count : nat)
    : status * option vdo_extent * list extent_event :=
  let result := ASSERT is_metadata_vio_type in
  if decide (result <> VDO_SUCCESS) then (result, None, [])
  else if decide (allocate <> VDO_SUCCESS) then (allocate, None, [])
  else if decide (initialize <> VDO_SUCCESS)
  then (initialize, None, [AllocateExtent; FreeExtent])
  else
    let '(result, count, events) :=
      create_vios create_metadata_vio block_count 0 in
    if decide (result <> VDO_SUCCESS)
    then (result, None, AllocateExtent :: events ++ free_extent count)
    else
      (VDO_SUCCESS,
       Some {| completion := initialized; count := Z.of_nat count;
               complete_count := 0 |},
       AllocateExtent :: events).

(** *** launchMetadataExtent

    The vios launched are listed with the block each one is sent to. *)
Definition launchMetadataExtent (extent : vdo_extent) (start_block : Z)
    (blocks : Z) : vdo_extent * list (nat * Z) :=
  let extent :=
    {| completion := reset_completion (completion extent);
       count := count extent; complete_count := complete_count extent |} in
  if blocks >? count extent
  then
    ({| completion := finish_completion (completion extent) VDO_OUT_OF_RANGE;
        count := count extent; complete_count := complete_count extent |},
     [])
  else
    ({| completion := completion extent; count := count extent;
        complete_count := u64 (count extent - blocks) |},
     (fun i => (i, u64 (start_block + Z.of_nat i)))
       <$> seq 0 (Z.to_nat blocks)).

(** *** handle_vio_completion

    [result] is the result of the vio that has completed. *)
Definition handle_vio_completion (extent : vdo_extent) (result : status)
    : vdo_extent :=
  let extent :=
    {| completion := completion extent; count := count extent;
       complete_count := u64 (complete_count extent + 1) |} in
  if negb (complete_count extent =? count extent)
  then
    {| completion := set_completion_result (completion extent) result;
       count := count extent; complete_count := complete_count extent |}
  else
    {| completion := finish_completion (completion extent) result;
       count := count extent; complete_count := complete_count extent |}.

(** The extent after its vios have completed with the given results, in
    that order. *)
Definition handle_vio_completions (extent : vdo_extent)
    (results : list status) : vdo_extent :=
  foldl handle_vio_completion extent results.

End Extent.

Arguments completion {_} _.
Arguments count {_} _.
Arguments complete_count {_} _.
Arguments create_extent VDO_BLOCK_SIZE {vdo_completion}.
Arguments launchMetadataExtent {vdo_completion}.
Arguments handle_vio_completion {vdo_completion}.
Arguments handle_vio_completions {vdo_completion}.

(** The vios created and the vios freed, in order, and whether the memory
    of the extent itself is held at the end. *)
Definition vios_created (events : list extent_event) : list nat :=
  omap (fun e => match e with VioCreated i _ => Some i | _ => None end)
       events.

Definition vios_freed (events : list extent_event) : list nat :=
  omap (fun e => match e with FreeVio i => Some i | _ => None end) events.

Fixpoint extent_held (events : list extent_event) (held : bool) : bool :=
  match events with
  | [] => held
  | AllocateExtent :: rest => extent_held rest true
  | FreeExtent :: rest => extent_held rest false
  | _ :: rest => extent_held rest held
  end.

End Extent.

Module VdoInit.

(** What [initialize_vdo] does to the objects it is given. *)
Inductive init_event : Set :=
| KobjectInit (directory : nat)
| KobjectAdd (directory : nat)
| KobjectPut (directory : nat)
| ReleaseVdoInstance
| FreeLayer.

Definition vdo_directory : nat := 0.
Definition work_queue_directory : nat := 1.

(** *** initialize_vdo_kobjects

    [add_vdo_directory] and [add_work_queue_directory] are what the two
    calls of [kobject_add] return, [int]s; the results are the return
    value, the reason written if any, and the events. *)
Definition initialize_vdo_kobjects (add_vdo_directory : Z)
    (add_work_queue_directory : Z)
    : Z * option String.string * list init_event :=
  let result := add_vdo_directory in
  if negb (result =? 0) then
    (result, Some "Cannot add sysfs node"%string,
     [KobjectInit vdo_directory; KobjectAdd vdo_directory;
      KobjectPut vdo_directory])
  else
    let result := add_work_queue_directory in
    if negb (result =? 0) then
      (result, Some "Cannot add sysfs node"%string,
       [KobjectInit vdo_directory; KobjectAdd vdo_directory;
        KobjectInit work_queue_directory; KobjectAdd work_queue_directory;
        KobjectPut work_queue_directory; KobjectPut vdo_directory])
    else
      (0, None,
       [KobjectInit vdo_directory; KobjectAdd vdo_directory;
        KobjectInit work_queue_directory; KobjectAdd work_queue_directory]).

(** *** initialize_vdo

    [read_geometry_block] is what the call of that name returns;
    [VDO_SUCCESS] is 0. *)
Definition initialize_vdo (read_geometry_block : Z)
    (add_vdo_directory add_work_queue_directory : Z)
    : Z * option String.string * list init_event :=
  let result := read_geometry_block in
  if negb (result =? 0) then
    (result, Some "Could not load geometry block"%string,
     [ReleaseVdoInstance; FreeLayer])
  else
    let '(result, reason, events) :=
      initialize_vdo_kobjects add_vdo_directory add_work_queue_directory in
    if negb (result =? 0)
    then (result, reason, events ++ [ReleaseVdoInstance; FreeLayer])
    else (0, reason, events).

(** The initialisations of a directory less the puts of it. *)
Fixpoint references_held (events : list init_event) (directory : nat)
    : Z :=
  match events with
  | [] => 0
  | KobjectInit d :: rest =>
      (if decide (d = directory) then 1 else 0)
      + references_held rest directory
  | KobjectPut d :: rest =>
      (if decide (d = directory) then -1 else 0)
      + references_held rest directory
  | _ :: rest => references_held rest directory
  end.

End VdoInit.

(** ** Concrete states

    A depot of three slabs of four data blocks each, starting at block 1;
    slabs 0 and 1 belong to zone 0, slab 2 to zone 1. *)

Module Examples.

Import BlockAllocator RefCountsModel AllocatingVio Config.

Definition full_slab : vdo_slab ref_counts :=
  {| slab_number := 0; allocator := 0;
     reference_counts :=
       {| slab_origin := 1;
          counters := [Count 1; Count 1; Count 2; Count 1];
          search_cursor := 0 |};
     journal_blank := false; journal_requires_scrubbing := false;
     priority := 0; unrecovered := false; resuming := false |}.

Definition used_slab : vdo_slab ref_counts :=
  {| slab_number := 1; allocator := 0;
     reference_counts :=
       {| slab_origin := 5;
          counters := [Free; Free; Count 1; Free];
          search_cursor := 0 |};
     journal_blank := false; journal_requires_scrubbing := false;
     priority := 0; unrecovered := false; resuming := false |}.

Definition nearly_full_slab : vdo_slab ref_counts :=
  {| slab_number := 1; allocator := 0;
     reference_counts :=
       {| slab_origin := 5;
          counters := [Count 1; Free; Count 1; Count 3];
          search_cursor := 0 |};
     journal_blank := false; journal_requires_scrubbing := false;
     priority := 0; unrecovered := false; resuming := false |}.

Definition other_zone_slab : vdo_slab ref_counts :=
  {| slab_number := 2; allocator := 1;
     reference_counts :=
       {| slab_origin := 9;
          counters := [Free; Free; Free; Free];
          search_cursor := 0 |};
     journal_blank := true; journal_requires_scrubbing := false;
     priority := 0; unrecovered := false; resuming := false |}.

Definition example_summary : list slab_summary_entry :=
  [ {| tail_block_offset := 0; load_ref_counts := false;
       summary_is_clean := true; fullness_hint := 0 |};
    {| tail_block_offset := 1; load_ref_counts := true;
       summary_is_clean := false; fullness_hint := 3 |};
    {| tail_block_offset := 0; load_ref_counts := false;
       summary_is_clean := true; fullness_hint := 4 |} ].

Definition example_depot (data_blocks : Z) (load : slab_depot_load_type)
    : slab_depot ref_counts :=
  {| data_blocks := data_blocks; origin := 1; slab_size_shift := 2;
     load_type := load;
     slabs := [full_slab; used_slab; other_zone_slab] |}.

Definition new_allocator (data_blocks : Z) (load : slab_depot_load_type)
    : block_allocator ref_counts :=
  {| depot := example_depot data_blocks load;
     zone_number := 0; slab_count := 2; last_slab := 1;
     allocated_blocks := 8; open_slab := None;
     prioritized_slabs := make_priority_table 0;
     scrubber := {| high_priority_slabs := []; scrubber_slabs := [] |};
     summary := example_summary;
     unopened_slab_priority := 0;
     statistics := {| slabs_opened := 0; slabs_reopened := 0 |};
     read_only_notifier := None |}.

(** The allocator as constructed, before any slab is queued. *)
Definition example_allocator : block_allocator ref_counts :=
  allocate_components (new_allocator 4 VDO_SLAB_DEPOT_NORMAL_LOAD).


(** A depot whose slabs claim more free blocks than a slab has. *)
Definition inconsistent_allocator : block_allocator ref_counts :=
  allocate_components (new_allocator 2 VDO_SLAB_DEPOT_NORMAL_LOAD).

(** The allocator at work: slab 1 queued, the full slab 0 open. *)
Definition running_allocator : block_allocator ref_counts :=
  match vdo_queue_slab example_allocator 1 with
  | Some a => set_open_slab a (Some O)
  | None => example_allocator
  end.

Definition example_status (n : nat) : slab_status :=
  {| status_slab_number := n; is_clean := true; emptiness := 5 |}.

(** Two zones that are both out of space and have nothing to scrub. *)
#[export] Instance exhausted_zones : PhysicalZones unit := {|
  physical_zone_count := 2;
  allocate_vdo_block := fun w z => (VDO_NO_SPACE, None, w);
  enqueue_for_clean_vdo_slab := fun w z => (VDO_NO_SPACE, w);
  attempt_vdo_physical_zone_pbn_lock := fun w z pbn =>
    (VDO_SUCCESS,
     {| holder_count := 0; has_provisional_reference := false |}, w)
|}.

Definition fresh_vio : allocating_vio :=
  {| zone := 0; allocation := 0; allocation_attempts := 0;
     wait_for_clean_slab := false; allocation_lock := None |}.

Definition example_configuration : configuration :=
  {| config_geometry :=
       {| bytes_per_page := 32768; record_pages_per_chapter := 256;
          chapters_per_volume := 1024; sparse_chapters_per_volume := 0;
          remapped_virtual := 57005; remapped_physical := 48879 |};
     cache_chapters := 7; volume_index_mean_delta := 4096;
     sparse_sample_rate := 0; nonce := 81985529216486895 |}.

(** A configuration with other sizes and another nonce than the example,
    its page size being [2^32]. *)
Definition oversized_page_configuration : configuration :=
  {| config_geometry :=
       {| bytes_per_page := 2 ^ 32; record_pages_per_chapter := 1;
          chapters_per_volume := 1; sparse_chapters_per_volume := 0;
          remapped_virtual := 0; remapped_physical := 0 |};
     cache_chapters := 1; volume_index_mean_delta := 1;
     sparse_sample_rate := 0; nonce := 1 |}.

End Examples.

Module ZoneExamples.

Import AllocatingVio.

(** Two zones of which only the second has a free block, block 4096,
    which nobody has locked. *)
#[export] Instance second_zone_has_space : PhysicalZones unit := {|
  physical_zone_count := 2;
  allocate_vdo_block := fun w z =>
    if (z =? 1)%nat then (VDO_SUCCESS, Some 4096, w)
    else (VDO_NO_SPACE, None, w);
  enqueue_for_clean_vdo_slab := fun w z => (VDO_NO_SPACE, w);
  attempt_vdo_physical_zone_pbn_lock := fun w z pbn =>
    (VDO_SUCCESS,
     {| holder_count := 0; has_provisional_reference := false |}, w)
|}.

End ZoneExamples.

(** * Properties *)

(** ** The priority table *)

Module PriorityTableFacts.

Lemma dequeue_buckets_spec (bs : list (list nat)) :
  match dequeue_buckets bs with
  | Some (i, e, bs') =>
      exists b, bs !! i = Some (e :: b) /\ bs' = <[i := b]> bs
        /\ forall (j : nat) (b' : list nat),
             (i < j)%nat -> bs !! j = Some b' -> b' = []
  | None => forall (j : nat) (b' : list nat), bs !! j = Some b' -> b' = []
  end.
Proof.
  induction bs as [| b rest IH]; simpl.
  - intros j b' H. by rewrite lookup_nil in H.
  - destruct (dequeue_buckets rest) as [[[i e] rest'] |].
    + destruct IH as (b0 & Hl & -> & Hmax). exists b0. simpl.
      repeat split; [done |].
      intros [| j] b' Hlt Hj; [lia |]. simpl in Hj.
      eapply Hmax; [| done]. lia.
    + destruct b as [| e b'].
      * intros [| j] b' Hj; simpl in Hj; [by inversion Hj | by eapply IH].
      * exists b'. simpl. repeat split; [].
        intros [| j] b'' Hlt Hj; [lia |]. simpl in Hj. by eapply IH.
Qed.


Lemma priority_table_dequeue_highest (table : priority_table) (m : nat)
    (table' : priority_table) :
  priority_table_dequeue table = (Some m, table') ->
  highest_priority_entry table m.
Proof.
  unfold priority_table_dequeue.
  pose proof (dequeue_buckets_spec (buckets table)) as S.
  destruct (dequeue_buckets (buckets table)) as [[[i e] bs'] |]; [| done].
  intros [= -> <-]. destruct S as (b & Hl & _ & Hmax). by exists i, b.
Qed.


End PriorityTableFacts.

(** ** The block allocator *)

Module BlockAllocatorFacts.

Import BlockAllocator PriorityTableFacts.

(** *** Slab priorities *)

Section PriorityPolicy.

Context {RC : Type} `{!RefCounts RC}.

Lemma free_blocks_range (slab : vdo_slab RC) :
  0 <= get_slab_free_block_count slab < 2 ^ 64.
Proof. apply unreferenced_block_count_range. Qed.

Lemma log_base_two_pos (n : Z) : 0 < n -> log_base_two n = Z.log2 n.
Proof.
  intros H. unfold log_base_two. destruct (Z.eqb_spec n 0); [lia | done].
Qed.

Lemma log2_u64_bound (n : Z) : 0 < n < 2 ^ 64 -> 0 <= Z.log2 n <= 63.
Proof.
  intros [Hpos Hlt]. split; [apply Z.log2_nonneg |].
  assert (Z.log2 n < 64); [| lia].
  apply Z.log2_lt_pow2; lia.
Qed.

Lemma log_base_two_range (n : Z) :
  0 <= n < 2 ^ 64 -> -1 <= log_base_two n <= 63.
Proof.
  intros H. unfold log_base_two. destruct (Z.eqb_spec n 0); [lia |].
  pose proof (log2_u64_bound n). lia.
Qed.

Lemma u32_small (z : Z) : 0 <= z < 2 ^ 32 -> u32 z = z.
Proof. intros H. unfold u32. apply Z.mod_small. exact H. Qed.

(** The priority of an opened slab with free blocks, without the machine
    arithmetic. *)
Lemma calculate_slab_priority_opened (a : block_allocator RC)
    (slab : vdo_slab RC) :
  get_slab_free_block_count slab <> 0 ->
  journal_blank slab = false ->
  calculate_slab_priority a slab =
    let p := 1 + Z.log2 (get_slab_free_block_count slab) in
    if p <? unopened_slab_priority a then p else p + 1.
Proof.
  intros HF Hblank. unfold calculate_slab_priority, vdo_is_slab_journal_blank.
  pose proof (free_blocks_range slab) as HR.
  destruct (Z.eqb_spec (get_slab_free_block_count slab) 0); [done |].
  rewrite Hblank, log_base_two_pos by lia.
  pose proof (log2_u64_bound (get_slab_free_block_count slab)) as HL.
  rewrite u32_small by lia. cbv zeta.
  destruct (_ <? _); [done |]. apply u32_small. lia.
Qed.

(** C2.  The queue priority of a slab with [F] free blocks under an
    unopened-slab priority [U]: 0 when [F] is 0; [U] when the slab's journal
    is blank; otherwise, with [k] the floor of the binary logarithm of [F]
    (that is, [2^k <= F < 2^(k+1)]) and [p = 1 + k], it is [p] when [p < U]
    and [p + 1] when [p >= U]. *)
Theorem calculate_slab_priority_policy (a : block_allocator RC)
    (slab : vdo_slab RC) :
  let F := get_slab_free_block_count slab in
  let U := unopened_slab_priority a in
  (F = 0 -> calculate_slab_priority a slab = 0)
  /\ (F <> 0 -> journal_blank slab = true ->
      calculate_slab_priority a slab = U)
  /\ (F <> 0 -> journal_blank slab = false ->
      forall k, 0 <= k -> 2 ^ k <= F < 2 ^ (k + 1) ->
      let p := 1 + k in
      (p < U -> calculate_slab_priority a slab = p)
      /\ (U <= p -> calculate_slab_priority a slab = p + 1)).
Proof.
  intros F U. repeat split.
  - intros HF. unfold calculate_slab_priority. fold F. by rewrite HF.
  - intros HF Hblank. unfold calculate_slab_priority, vdo_is_slab_journal_blank.
    fold F. destruct (Z.eqb_spec F 0); [done |]. by rewrite Hblank.
  - intros Hp. rewrite calculate_slab_priority_opened by done. fold F U.
    rewrite (Z.log2_unique F k) by (done || lia). cbv zeta.
    destruct (Z.ltb_spec (1 + k) U); [done | lia].
  - intros Hp. rewrite calculate_slab_priority_opened by done. fold F U.
    rewrite (Z.log2_unique F k) by (done || lia). cbv zeta.
    destruct (Z.ltb_spec (1 + k) U); [lia | done].
Qed.

(** C3.  In an allocator as [allocate_components] sets it up for slabs of
    [D] data blocks ([U = 1 + log2(D * 3 / 4)], table built for
    [max_priority = 2 + log2 D]), every opened slab with [0 < F <= D] free
    blocks has a priority within [1, max_priority] that is never [U]; slabs
    in the same binary order of magnitude share a priority, and a larger
    order of magnitude gives a strictly larger priority: the difference is
    that of the logarithms, plus one when the [U] bucket lies between. *)
Theorem slab_priority_range_and_monotonicity (a0 : block_allocator RC)
    (s1 s2 : vdo_slab RC) :
  let a := allocate_components a0 in
  let D := data_blocks (depot a) in
  let U := unopened_slab_priority a in
  let F1 := get_slab_free_block_count s1 in
  let F2 := get_slab_free_block_count s2 in
  is_u64 D ->
  0 < F1 <= D -> journal_blank s1 = false ->
  0 < F2 <= D -> journal_blank s2 = false ->
  (D * 3 < 2 ^ 64 -> U = 1 + log_base_two (D * 3 / 4))
  /\ max_priority (prioritized_slabs a) = 2 + Z.log2 D
  /\ 1 <= calculate_slab_priority a s1 <= max_priority (prioritized_slabs a)
  /\ calculate_slab_priority a s1 <> U
  /\ (Z.log2 F1 = Z.log2 F2 ->
      calculate_slab_priority a s1 = calculate_slab_priority a s2)
  /\ (Z.log2 F1 < Z.log2 F2 ->
      calculate_slab_priority a s1 < calculate_slab_priority a s2
      /\ calculate_slab_priority a s2 - calculate_slab_priority a s1
         = Z.log2 F2 - Z.log2 F1
           + (if (1 + Z.log2 F1 <? U) && (U <=? 1 + Z.log2 F2)
              then 1 else 0)).
Proof.
  intros a D U F1 F2 HD H1 Hb1 H2 Hb2.
  assert (HDa : data_blocks (depot a0) = D) by done.
  assert (HU : U = u32 (1 + log_base_two (u64 (D * 3) / 4))).
  { subst U a. unfold allocate_components. simpl. by rewrite HDa. }
  assert (HM : max_priority (prioritized_slabs a) = 2 + Z.log2 D).
  { subst a. unfold allocate_components. simpl. rewrite HDa.
    rewrite log_base_two_pos by lia.
    pose proof (log2_u64_bound D). apply u32_small.
    unfold is_u64 in HD. lia. }
  rewrite HM.
  rewrite !calculate_slab_priority_opened by (done || (fold F1 F2; lia)).
  fold F1 F2 U. cbv zeta.
  assert (Z.log2 F1 <= Z.log2 D) by (apply Z.log2_le_mono; lia).
  assert (0 <= Z.log2 F1) by apply Z.log2_nonneg.
  split; [| split; [done |]].
  { intros Hno. rewrite HU. unfold u64.
    rewrite (Z.mod_small (D * 3)) by (unfold is_u64 in HD; lia).
    apply u32_small.
    assert (0 <= D * 3 / 4 < 2 ^ 64).
    { split; [apply Z.div_pos; lia |]. apply Z.div_lt_upper_bound; lia. }
    pose proof (log_base_two_range (D * 3 / 4)). lia. }
  destruct (Z.ltb_spec (1 + Z.log2 F1) U), (Z.ltb_spec (1 + Z.log2 F2) U),
    (Z.leb_spec U (1 + Z.log2 F2)); simpl; repeat split; lia.
Qed.

End PriorityPolicy.

(** On the example depot ([D = 4], [U = 2]): a full slab, a slab never
    opened, a slab with one free block and a slab with three. *)
Lemma calculate_slab_priority_policy_witness :
  calculate_slab_priority Examples.example_allocator Examples.full_slab = 0
  /\ calculate_slab_priority Examples.example_allocator
       Examples.other_zone_slab = 2
  /\ calculate_slab_priority Examples.example_allocator
       Examples.nearly_full_slab = 1
  /\ calculate_slab_priority Examples.example_allocator Examples.used_slab
     = 3.
Proof.
  split; [| split; [| split]].
  - apply (calculate_slab_priority_policy Examples.example_allocator
             Examples.full_slab).
    reflexivity.
  - apply (calculate_slab_priority_policy Examples.example_allocator
             Examples.other_zone_slab); [discriminate | reflexivity].
  - apply (calculate_slab_priority_policy Examples.example_allocator
             Examples.nearly_full_slab) with (k := 0);
      [discriminate | reflexivity | lia | split; [discriminate | reflexivity]
      | reflexivity].
  - change 3 with (1 + 1 + 1).
    apply (calculate_slab_priority_policy Examples.example_allocator
             Examples.used_slab) with (k := 1);
      [discriminate | reflexivity | lia | split; [discriminate | reflexivity]
      | discriminate].
Defined.

Lemma slab_priority_range_and_monotonicity_witness :
  1 <= calculate_slab_priority Examples.example_allocator
         Examples.nearly_full_slab <= 4
  /\ calculate_slab_priority Examples.example_allocator
       Examples.nearly_full_slab <> 2
  /\ calculate_slab_priority Examples.example_allocator
       Examples.nearly_full_slab
     < calculate_slab_priority Examples.example_allocator Examples.used_slab
  /\ calculate_slab_priority Examples.example_allocator Examples.used_slab
     - calculate_slab_priority Examples.example_allocator
         Examples.nearly_full_slab
     = 2.
Proof.
  destruct (slab_priority_range_and_monotonicity
              (Examples.new_allocator 4 VDO_SLAB_DEPOT_NORMAL_LOAD)
              Examples.nearly_full_slab Examples.used_slab)
    as (_ & Hmax & Hrange & HU & _ & Hmono).
  - split; [discriminate | reflexivity].
  - split; [reflexivity | discriminate].
  - reflexivity.
  - split; [reflexivity | discriminate].
  - reflexivity.
  - destruct (Hmono ltac:(reflexivity)) as [Hlt Hdiff].
    split; [exact Hrange |]. split; [exact HU |]. split; [exact Hlt |].
    exact Hdiff.
Defined.

(** *** Allocation *)

Section Allocation.

Context {RC : Type} `{!RefCounts RC} `{!SlabOps RC}.

Lemma get_slab_put_slab (a : block_allocator RC) (n : nat)
    (slab slab' : vdo_slab RC) :
  get_slab a n = Some slab -> get_slab (put_slab a n slab') n = Some slab'.
Proof.
  unfold get_slab, put_slab. simpl. intros H.
  apply list_lookup_insert_eq. by eapply lookup_lt_Some.
Qed.

(** An attempt on the open slab leaves the open slab and the priority table
    as they are, and writes a block number exactly when it succeeds. *)
Lemma allocate_slab_block_on_open_slab (a a1 : block_allocator RC) (n : nat)
    (result : status) (pbn : option Z) :
  open_slab a = Some n ->
  allocate_slab_block a n = Some (result, pbn, a1) ->
  open_slab a1 = Some n
  /\ prioritized_slabs a1 = prioritized_slabs a
  /\ (result = VDO_SUCCESS <-> is_Some pbn).
Proof.
  intros Hopen. unfold allocate_slab_block.
  destruct (get_slab a n) as [slab |] eqn:Hslab; [| done]. simpl.
  destruct (vdo_allocate_unreferenced_block (reference_counts slab))
    as [[r p] rc].
  destruct (decide (r <> VDO_SUCCESS)) as [Hr | Hr].
  - intros [= <- <- <-]. simpl. split; [done | split; [done |]].
    split; [done | by intros [? ?]].
  - unfold vdo_adjust_free_block_count.
    rewrite (get_slab_put_slab a n slab) by done. simpl.
    rewrite Hopen. rewrite decide_True by done. simpl.
    intros [= <- <- <-]. simpl. split; [done | split; [done |]].
    split; [by eexists | intros _; by destruct r].
Qed.

(** Opening the next slab: the head of the highest non-empty bucket
    becomes the open slab and is tried once; an empty table leaves nothing
    to open. *)
Lemma open_next_slab_and_allocate_spec (a : block_allocator RC) :
  match priority_table_dequeue (prioritized_slabs a) with
  | (Some m, table) =>
      highest_priority_entry (prioritized_slabs a) m
      /\ exists a3 : block_allocator RC,
           prioritized_slabs a3 = table
           /\ open_slab a3 = Some m
           /\ open_next_slab_and_allocate a = allocate_slab_block a3 m
  | (None, _) => open_next_slab_and_allocate a = None
  end.
Proof.
  unfold open_next_slab_and_allocate.
  destruct (priority_table_dequeue (prioritized_slabs a))
    as [[m |] table] eqn:Hd; [| done].
  split; [by eapply priority_table_dequeue_highest |]. simpl.
  set (a1 := set_open_slab (set_prioritized_slabs a table) (Some m)).
  destruct (get_slab a1 m) as [slab |] eqn:Hslab; simpl.
  - destruct (vdo_open_slab slab _) as [slab' stats].
    exists (set_statistics (put_slab a1 m slab') stats). by repeat split.
  - exists a1. repeat split. unfold allocate_slab_block. by rewrite Hslab.
Qed.





End Allocation.


(** With the reference counters of the spec, whose search fails with
    [VDO_NO_SPACE] only, an allocation answers a block or
    [VDO_NO_SPACE]. *)
Lemma allocate_slab_block_model_results
    (a a' : block_allocator RefCountsModel.ref_counts) (n : nat)
    (r : status) (p : option Z) :
  allocate_slab_block a n = Some (r, p, a') ->
  r = VDO_SUCCESS \/ r = VDO_NO_SPACE.
Proof.
  unfold allocate_slab_block.
  destruct (get_slab a n) as [slab |]; [| done]. simpl.
  unfold RefCountsModel.allocate_unreferenced.
  destruct (RefCountsModel.search_free (reference_counts slab)); simpl.
  - destruct (vdo_adjust_free_block_count _ n false); [| done]. simpl.
    intros [= <- _ _]. by left.
  - intros [= <- _ _]. by right.
Qed.

Lemma vdo_allocate_block_model_results
    (a a' : block_allocator RefCountsModel.ref_counts) (r : status)
    (p : option Z) :
  vdo_allocate_block a = Some (r, p, a') ->
  (r = VDO_SUCCESS /\ is_Some p) \/ (r = VDO_NO_SPACE /\ p = None).
Proof.
  assert (Hone : forall a3 m,
            open_slab a3 = Some m ->
            allocate_slab_block a3 m = Some (r, p, a') ->
            (r = VDO_SUCCESS /\ is_Some p) \/ (r = VDO_NO_SPACE /\ p = None)).
  { intros a3 m Ho Hr.
    destruct (allocate_slab_block_on_open_slab a3 a' m r p Ho Hr)
      as (_ & _ & Hiff).
    destruct (allocate_slab_block_model_results a3 a' m r p Hr) as [-> | ->].
    - left. split; [done |]. by apply Hiff.
    - right. split; [done |]. destruct p as [z |]; [| done].
      assert (VDO_NO_SPACE = VDO_SUCCESS) by (apply Hiff; by eexists).
      discriminate. }
  assert (Hnext : forall a2,
            open_next_slab_and_allocate a2 = Some (r, p, a') ->
            (r = VDO_SUCCESS /\ is_Some p) \/ (r = VDO_NO_SPACE /\ p = None)).
  { intros a2 Hr. pose proof (open_next_slab_and_allocate_spec a2) as Hs.
    destruct (priority_table_dequeue (prioritized_slabs a2))
      as [[m |] table]; [| congruence].
    destruct Hs as (_ & a3 & _ & Ho & Heq). rewrite Heq in Hr.
    by eapply Hone. }
  unfold vdo_allocate_block.
  destruct (open_slab a) as [n |] eqn:Hopen; [| apply Hnext].
  destruct (allocate_slab_block a n) as [[[r1 p1] a1] |] eqn:Hfirst;
    [| done]. simpl.
  destruct (bool_decide (r1 = VDO_SUCCESS) || bool_decide (r1 <> VDO_NO_SPACE)).
  - intros [= -> -> ->]. by eapply Hone.
  - destruct (prioritize_slab a1 n) as [a2 |]; [| done]. apply Hnext.
Qed.

(** *** Queueing a slab *)

Section Queueing.

Context {RC : Type} `{!RefCounts RC}.

(** C10.  A slab whose free block count exceeds the depot's data blocks per
    slab is not queued: [vdo_queue_slab] enters read-only mode (with the
    failed assertion as the error) and returns with the priority table, the
    scrubber, the allocated-blocks counter and the depot as they were.
    Hence a call that changes the priority table or the scrubber was made
    on a slab with [free_blocks <= data_blocks]. *)
Theorem vdo_queue_slab_checks_free_block_count (a : block_allocator RC)
    (n : nat) (slab : vdo_slab RC) :
  get_slab a n = Some slab ->
  (data_blocks (depot a) < get_slab_free_block_count slab ->
   vdo_queue_slab a n
   = Some (set_read_only_notifier a
             (vdo_enter_read_only_mode (read_only_notifier a)
                UDS_ASSERTION_FAILED))
   /\ forall a' : block_allocator RC,
        vdo_queue_slab a n = Some a' ->
        is_Some (read_only_notifier a')
        /\ prioritized_slabs a' = prioritized_slabs a
        /\ scrubber a' = scrubber a
        /\ allocated_blocks a' = allocated_blocks a
        /\ depot a' = depot a)
  /\ (forall a' : block_allocator RC,
        vdo_queue_slab a n = Some a' ->
        prioritized_slabs a' <> prioritized_slabs a
        \/ scrubber a' <> scrubber a ->
        get_slab_free_block_count slab <= data_blocks (depot a)).
Proof.
  intros Hslab.
  assert (Hbad : data_blocks (depot a) < get_slab_free_block_count slab ->
          vdo_queue_slab a n
          = Some (set_read_only_notifier a
                    (vdo_enter_read_only_mode (read_only_notifier a)
                       UDS_ASSERTION_FAILED))).
  { intros Hgt. unfold vdo_queue_slab. rewrite Hslab. simpl.
    destruct (Z.leb_spec (get_slab_free_block_count slab)
                (data_blocks (depot a))); [lia | done]. }
  split.
  - intros Hgt. split; [by apply Hbad |].
    intros a'. rewrite Hbad by done. intros [= <-]. simpl.
    repeat split. by destruct (read_only_notifier a).
  - intros a' Hq Hchanged.
    destruct (Z.le_gt_cases (get_slab_free_block_count slab)
                (data_blocks (depot a))) as [| Hgt]; [done |].
    rewrite Hbad in Hq by done. injection Hq as <-. simpl in Hchanged.
    by destruct Hchanged.
Qed.

End Queueing.

(** Slab 1 has three free blocks: too many for a depot of two data blocks
    per slab, fine for one of four. *)
Lemma vdo_queue_slab_checks_free_block_count_witness :
  (exists a' : block_allocator RefCountsModel.ref_counts,
     vdo_queue_slab Examples.inconsistent_allocator 1 = Some a'
     /\ read_only_notifier a' = Some UDS_ASSERTION_FAILED
     /\ prioritized_slabs a'
        = prioritized_slabs Examples.inconsistent_allocator)
  /\ get_slab_free_block_count Examples.used_slab
     <= data_blocks (depot Examples.example_allocator).
Proof.
  destruct (vdo_queue_slab_checks_free_block_count
              Examples.inconsistent_allocator 1 Examples.used_slab eq_refl)
    as [Hbad _].
  destruct (vdo_queue_slab_checks_free_block_count
              Examples.example_allocator 1 Examples.used_slab eq_refl)
    as [_ Hgood].
  split.
  - destruct (Hbad ltac:(reflexivity)) as [Heq Hframe].
    eexists. split; [exact Heq |]. split; reflexivity.
  - eapply Hgood; [reflexivity |]. left. discriminate.
Defined.

(** *** Releasing a reference *)

Section Release.

Context {RC : Type} `{!SlabOps RC}.

(** C7.  Releasing the zero block changes nothing: the state returned is
    the state given, whatever a reference update would do.  Releasing any
    other block issues one reference update: the operation of type
    [VDO_JOURNAL_DATA_DECREMENT] on that block, with no lock, on the slab
    [vdo_get_slab] finds for it and with no journal point; the state
    returned is the one that update leaves.  For a block inside the depot
    the slab is the one whose block range contains it, looked up without
    touching the state. *)
Theorem vdo_release_block_reference_ignores_zero_block
    (a : block_allocator RC) :
  vdo_release_block_reference a VDO_ZERO_BLOCK = a
  /\ (forall pbn : Z,
        pbn <> VDO_ZERO_BLOCK ->
        vdo_release_block_reference a pbn
        = (vdo_modify_slab_reference_count (vdo_get_slab a pbn).2
             (vdo_get_slab a pbn).1 None
             {| op_type := VDO_JOURNAL_DATA_DECREMENT; op_pbn := pbn;
                op_lock := None |}).2)
  /\ (forall pbn : Z,
        pbn <> VDO_ZERO_BLOCK ->
        0 <= slab_size_shift (depot a) ->
        origin (depot a) <= pbn ->
        pbn < origin (depot a)
              + Z.of_nat (length (slabs (depot a)))
                * 2 ^ slab_size_shift (depot a) ->
        exists n : nat,
          (n < length (slabs (depot a)))%nat
          /\ origin (depot a) + Z.of_nat n * 2 ^ slab_size_shift (depot a)
             <= pbn
             < origin (depot a)
               + (Z.of_nat n + 1) * 2 ^ slab_size_shift (depot a)
          /\ vdo_release_block_reference a pbn
             = (vdo_modify_slab_reference_count a (Some n) None
                  {| op_type := VDO_JOURNAL_DATA_DECREMENT; op_pbn := pbn;
                     op_lock := None |}).2).
Proof.
  split; [done |]. split.
  - intros pbn Hnz. unfold vdo_release_block_reference.
    destruct (Z.eqb_spec pbn VDO_ZERO_BLOCK); [done |].
    destruct (vdo_get_slab a pbn) as [slab a1]. simpl.
    by destruct (vdo_modify_slab_reference_count a1 slab None _).
  - intros pbn Hnz Hshift Hlo Hhi.
    set (sz := 2 ^ slab_size_shift (depot a)) in *.
    assert (Hsz : 0 < sz) by (apply Z.pow_pos_nonneg; lia).
    set (q := (pbn - origin (depot a)) / sz).
    assert (Hq : 0 <= q < Z.of_nat (length (slabs (depot a)))).
    { subst q. split; [apply Z.div_pos; lia |].
      apply Z.div_lt_upper_bound; lia. }
    assert (Hshr : Z.shiftr (pbn - origin (depot a))
                     (slab_size_shift (depot a)) = q).
    { by rewrite Z.shiftr_div_pow2. }
    exists (Z.to_nat q). split; [lia |]. split.
    + rewrite Z2Nat.id by lia. subst q.
      pose proof (Z.mul_div_le (pbn - origin (depot a)) sz Hsz).
      pose proof (Z.mul_succ_div_gt (pbn - origin (depot a)) sz Hsz). lia.
    + unfold vdo_release_block_reference, vdo_get_slab.
      destruct (Z.eqb_spec pbn VDO_ZERO_BLOCK); [done |].
      rewrite Hshr.
      destruct (Z.ltb_spec pbn (origin (depot a))); [lia |].
      destruct (Z.leb_spec (Z.of_nat (length (slabs (depot a)))) q); [lia |].
      simpl.
      by destruct (vdo_modify_slab_reference_count a _ None _).
Qed.

End Release.

(** Block 7 is the third block of slab 1 and holds one reference; releasing
    it frees the block and takes one off the allocated blocks. *)
Lemma vdo_release_block_reference_ignores_zero_block_witness :
  vdo_release_block_reference Examples.running_allocator 0
  = Examples.running_allocator
  /\ (exists n : nat,
        1 + Z.of_nat n * 4 <= 7 < 1 + (Z.of_nat n + 1) * 4
        /\ vdo_release_block_reference Examples.running_allocator 7
           = (vdo_modify_slab_reference_count Examples.running_allocator
                (Some n) None
                {| op_type := VDO_JOURNAL_DATA_DECREMENT; op_pbn := 7;
                   op_lock := None |}).2)
  /\ allocated_blocks
       (vdo_release_block_reference Examples.running_allocator 7)
     = allocated_blocks Examples.running_allocator - 1.
Proof.
  destruct (vdo_release_block_reference_ignores_zero_block
              Examples.running_allocator) as (Hzero & _ & Hin).
  split; [exact Hzero |]. split; [| reflexivity].
  destruct (Hin 7) as (n & Hn & Hrange & Heq).
  - discriminate.
  - discriminate.
  - discriminate.
  - reflexivity.
  - exists n. split; [exact Hrange | exact Heq].
Defined.

(** *** The order of slabs at load *)

Lemma ranks_above_lexicographic (info1 info2 : slab_status) :
  ranks_above info1 info2 <->
  (is_clean info1 = true /\ is_clean info2 = false)
  \/ (is_clean info1 = is_clean info2
      /\ emptiness info2 < emptiness info1)
  \/ (is_clean info1 = is_clean info2
      /\ emptiness info1 = emptiness info2
      /\ (status_slab_number info1 < status_slab_number info2)%nat).
Proof.
  unfold ranks_above, compare_slab_statuses.
  destruct (is_clean info1), (is_clean info2); simpl;
    destruct (Z.eqb_spec (emptiness info1) (emptiness info2)); simpl;
    destruct (Z.ltb_spec (emptiness info2) (emptiness info1));
    destruct (Nat.ltb_spec (status_slab_number info1)
                (status_slab_number info2));
    (split;
     [ intros E; try discriminate; try lia;
       first [ left; split; (done || lia)
             | right; left; split; (done || lia)
             | right; right; split; [done | split; (done || lia)] ]
     | intros [[? ?] | [[? ?] | (? & ? & ?)]];
       try discriminate; try lia; done ]).
Qed.

Lemma compare_slab_statuses_never_zero (info1 info2 : slab_status) :
  compare_slab_statuses info1 info2 = 1
  \/ compare_slab_statuses info1 info2 = -1.
Proof.
  unfold compare_slab_statuses.
  repeat match goal with |- context [if ?c then _ else _] => destruct c end;
    auto.
Qed.

#[local] Instance ranks_above_transitive : Transitive ranks_above.
Proof.
  intros x y z. rewrite !ranks_above_lexicographic.
  intros Hxy Hyz.
  destruct (is_clean x), (is_clean y), (is_clean z);
    intuition (try discriminate; try lia).
Qed.

#[local] Instance ranks_above_antisymmetric : AntiSymm (=) ranks_above.
Proof.
  intros x y. rewrite !ranks_above_lexicographic.
  intros Hxy Hyx.
  destruct (is_clean x), (is_clean y);
    intuition (try discriminate; try lia).
Qed.

Lemma ranks_above_total (info1 info2 : slab_status) :
  status_slab_number info1 <> status_slab_number info2 ->
  ranks_above info1 info2 \/ ranks_above info2 info1.
Proof.
  intros Hne. rewrite !ranks_above_lexicographic.
  destruct (is_clean info1), (is_clean info2);
    destruct (Z.lt_total (emptiness info1) (emptiness info2)) as [| [|]];
    destruct (Nat.lt_total (status_slab_number info1)
                (status_slab_number info2)) as [| [|]];
    intuition (try discriminate; try lia).
Qed.

(** A pop hands out an element that ranks above all that stay. *)
Lemma extract_max_greatest (x : slab_status) (rest : list slab_status) :
  NoDup (status_slab_number <$> x :: rest) ->
  let '(m, r) := extract_max compare_slab_statuses x rest in
  m :: r ≡ₚ x :: rest /\ Forall (ranks_above m) r.
Proof.
  revert x. induction rest as [| y rest IH]; intros x Hnd; simpl.
  { by split. }
  assert (Hxy : status_slab_number x <> status_slab_number y).
  { rewrite !fmap_cons in Hnd. apply NoDup_cons in Hnd as [Hx _].
    intros E. apply Hx. rewrite E. left. }
  assert (Hndx : NoDup (status_slab_number <$> x :: rest)).
  { rewrite !fmap_cons in Hnd |- *. apply NoDup_cons in Hnd as [Hx Hnd].
    apply NoDup_cons in Hnd as [Hy Hnd]. apply NoDup_cons. split; [| done].
    intros Hin. apply Hx. by right. }
  assert (Hndy : NoDup (status_slab_number <$> y :: rest)).
  { rewrite !fmap_cons in Hnd |- *. by apply NoDup_cons in Hnd as [_ Hnd]. }
  destruct (Z.ltb_spec 0 (compare_slab_statuses y x)) as [Hgt | Hle].
  - assert (Hyx : ranks_above y x).
    { destruct (compare_slab_statuses_never_zero y x) as [E | E];
        [done | lia]. }
    specialize (IH y Hndy).
    destruct (extract_max compare_slab_statuses y rest) as [m r].
    destruct IH as [Hperm Hall]. split.
    + etrans; [apply Permutation_swap |]. by apply Permutation_skip.
    + constructor; [| done].
      assert (Hin : y ∈ m :: r) by (rewrite Hperm; left).
      apply elem_of_cons in Hin as [-> | Hin]; [done |].
      rewrite Forall_forall in Hall. by transitivity y; [apply Hall |].
  - assert (Hxy' : ranks_above x y).
    { destruct (ranks_above_total x y Hxy) as [| Hyx]; [done |].
      unfold ranks_above in Hyx. lia. }
    specialize (IH x Hndx).
    destruct (extract_max compare_slab_statuses x rest) as [m r].
    destruct IH as [Hperm Hall]. split.
    + etrans; [apply Permutation_swap |].
      etrans; [apply Permutation_skip, Hperm |]. apply Permutation_swap.
    + constructor; [| done].
      assert (Hin : x ∈ m :: r) by (rewrite Hperm; left).
      apply elem_of_cons in Hin as [-> | Hin]; [done |].
      rewrite Forall_forall in Hall. by transitivity x; [apply Hall |].
Qed.

(** Popping a heap empty lists its statuses from the highest rank down. *)
Lemma pop_all_sorted (count : nat) (heap : list slab_status) :
  NoDup (status_slab_number <$> heap) ->
  (length heap <= count)%nat ->
  pop_all compare_slab_statuses count heap ≡ₚ heap
  /\ StronglySorted ranks_above (pop_all compare_slab_statuses count heap).
Proof.
  revert heap. induction count as [| count IH]; intros heap Hnd Hlen.
  { destruct heap; [| simpl in Hlen; lia]. simpl.
    split; [done | constructor]. }
  destruct heap as [| x rest]; [simpl; split; [done | constructor] |]. simpl.
  pose proof (extract_max_greatest x rest Hnd) as Hmax.
  destruct (extract_max compare_slab_statuses x rest) as [m r].
  destruct Hmax as [Hperm Hall].
  assert (Hndr : NoDup (status_slab_number <$> r)).
  { assert (Hp : status_slab_number <$> m :: r
                 ≡ₚ status_slab_number <$> x :: rest)
      by (by rewrite Hperm).
    rewrite <- Hp in Hnd. rewrite fmap_cons in Hnd.
    by apply NoDup_cons in Hnd as [_ ?]. }
  assert (Hlenr : (length r <= count)%nat).
  { apply Permutation_length in Hperm. simpl in *. lia. }
  destruct (IH r Hndr Hlenr) as [Hp Hs]. split.
  - etrans; [apply Permutation_skip, Hp | done].
  - constructor; [done |].
    apply Forall_forall. intros z Hz. rewrite Forall_forall in Hall.
    apply Hall. by eapply elem_of_Permutation_proper.
Qed.

Lemma imap_slab_numbers {A : Type} (f : nat -> A -> slab_status)
    (l : list A) (k : nat) :
  (forall i e, status_slab_number (f i e) = (k + i)%nat) ->
  status_slab_number <$> imap f l = seq k (length l).
Proof.
  revert f k. induction l as [| x l IH]; intros f k Hf; [done |].
  simpl. rewrite Hf, Nat.add_0_r. f_equal.
  apply IH. intros i e. simpl. rewrite Hf. lia.
Qed.

Lemma summarized_slab_statuses_numbers (summary : list slab_summary_entry)
    (slab_count : nat) :
  status_slab_number <$> vdo_get_summarized_slab_statuses summary slab_count
  = seq 0 (length (take slab_count summary)).
Proof. unfold vdo_get_summarized_slab_statuses. by apply imap_slab_numbers. Qed.

Lemma ranks_above_sorted (l : list slab_status) :
  StronglySorted ranks_above l ->
  StronglySorted LoadOrder.processed_before l.
Proof.
  induction 1 as [| x l Hl IH Hall]; constructor; [done |].
  eapply Forall_impl; [exact Hall |].
  intros y Hxy. by apply ranks_above_lexicographic in Hxy.
Qed.

Section Order.

Context {RC : Type} `{!RefCounts RC}.

(** C4, as amended.  Prepare-to-allocate puts the statuses of all
    [slab_count] slabs in a max-heap and handles them in pop order.  That
    order lists every status once, and each status in it comes before all
    later ones in the order of the load: clean before dirty, then larger
    emptiness first, then the LOWER slab number first.  The comparator
    answers 1 exactly for a status that comes before the other in that
    order and -1 otherwise, never 0; on equal cleanliness and emptiness it
    decides by the slab number alone.  So the order does not depend on how
    the heap arranged the statuses. *)
Theorem slab_processing_order_deterministic (a : block_allocator RC) :
  let slab_count := length (slabs (depot a)) in
  let statuses := vdo_get_summarized_slab_statuses (summary a) slab_count in
  let order := slab_processing_order a in
  vdo_prepare_slabs_for_allocation a
  = prepare_slabs (set_allocated_blocks a (get_data_block_count a)) order
  /\ order ≡ₚ statuses
  /\ ((slab_count <= length (summary a))%nat -> length order = slab_count)
  /\ StronglySorted LoadOrder.processed_before order
  /\ (forall info1 info2 : slab_status,
        (LoadOrder.processed_before info1 info2 ->
         compare_slab_statuses info1 info2 = 1)
        /\ (~ LoadOrder.processed_before info1 info2 ->
            compare_slab_statuses info1 info2 = -1)
        /\ compare_slab_statuses info1 info2 <> 0
        /\ (is_clean info1 = is_clean info2 ->
            emptiness info1 = emptiness info2 ->
            (compare_slab_statuses info1 info2 = 1 <->
             (status_slab_number info1 < status_slab_number info2)%nat)))
  /\ (forall heap : list slab_status,
        heap ≡ₚ statuses ->
        pop_all compare_slab_statuses (length heap) heap = order).
Proof.
  intros slab_count statuses order.
  assert (Hnd : NoDup (status_slab_number <$> statuses)).
  { subst statuses. rewrite summarized_slab_statuses_numbers.
    apply NoDup_seq. }
  assert (Hlen : (length statuses <= slab_count)%nat).
  { subst statuses. unfold vdo_get_summarized_slab_statuses.
    rewrite length_imap, length_take. lia. }
  destruct (pop_all_sorted slab_count statuses Hnd Hlen) as [Hperm Hsorted].
  split; [done |]. split; [done |]. split.
  { intros Hsum. apply Permutation_length in Hperm.
    change (length order = length statuses) in Hperm.
    rewrite Hperm. subst statuses. unfold vdo_get_summarized_slab_statuses.
    rewrite length_imap, length_take. lia. }
  split.
  { by apply ranks_above_sorted. }
  split.
  { intros info1 info2.
    pose proof (ranks_above_lexicographic info1 info2) as Hlex.
    unfold ranks_above in Hlex.
    fold (LoadOrder.processed_before info1 info2) in Hlex.
    split; [by apply Hlex |]. split.
    { intros Hnot.
      destruct (compare_slab_statuses_never_zero info1 info2) as [E | E];
        [| done].
      by apply Hlex in E. }
    split.
    { destruct (compare_slab_statuses_never_zero info1 info2) as [-> | ->];
        lia. }
    intros Hc He. rewrite Hlex. unfold LoadOrder.processed_before. split.
    - intros [[H1 H2] | [[_ H] | (_ & _ & H)]]; [congruence | lia | done].
    - intros H. right. right. done. }
  intros heap Hheap.
  assert (Hndh : NoDup (status_slab_number <$> heap)).
  { eapply NoDup_Permutation_proper; [| exact Hnd].
    by apply fmap_Permutation. }
  destruct (pop_all_sorted (length heap) heap Hndh (Nat.le_refl _))
    as [Hperm' Hsorted'].
  apply (StronglySorted_unique ranks_above); [done | done |].
  etrans; [exact Hperm' |]. etrans; [exact Hheap |]. by symmetry.
Qed.

End Order.

(** Two clean slabs with the same emptiness: the code hands out slab 1
    before slab 2, a comparator descending in the slab number would hand out
    slab 2 first. *)
Lemma slab_number_tie_break_is_not_descending :
  compare_slab_statuses (Examples.example_status 1)
    (Examples.example_status 2) = 1
  /\ spec_compare_slab_statuses (Examples.example_status 1)
       (Examples.example_status 2) = -1
  /\ pop_all compare_slab_statuses 2
       [Examples.example_status 1; Examples.example_status 2]
     = [Examples.example_status 1; Examples.example_status 2]
  /\ pop_all spec_compare_slab_statuses 2
       [Examples.example_status 1; Examples.example_status 2]
     = [Examples.example_status 2; Examples.example_status 1].
Proof. repeat split. Qed.

(** The example depot: whatever way round the heap holds the three
    statuses, the clean slabs come first, the emptier one (slab 2) ahead,
    and the dirty slab 1 last. *)
Lemma slab_processing_order_deterministic_witness :
  status_slab_number
    <$> pop_all compare_slab_statuses 3
          (reverse (vdo_get_summarized_slab_statuses
                      Examples.example_summary 3))
  = [2; 0; 1]%nat
  /\ (compare_slab_statuses (Examples.example_status 1)
        (Examples.example_status 2) = 1
      <-> (1 < 2)%nat).
Proof.
  destruct (slab_processing_order_deterministic Examples.example_allocator)
    as (_ & _ & _ & _ & Hcmp & Hdet).
  split.
  - pose proof (Hdet (reverse (vdo_get_summarized_slab_statuses
                                 Examples.example_summary 3))
                  (reverse_Permutation _)) as Hpop.
    change (pop_all compare_slab_statuses 3
              (reverse (vdo_get_summarized_slab_statuses
                          Examples.example_summary 3))
            = slab_processing_order Examples.example_allocator) in Hpop.
    rewrite Hpop. reflexivity.
  - apply (Hcmp (Examples.example_status 1) (Examples.example_status 2));
      reflexivity.
Defined.

(** *** Queueing or scrubbing at load *)

Section Prepare.

Context {RC : Type} `{!RefCounts RC}.



End Prepare.



End BlockAllocatorFacts.

(** ** The allocation queue *)

Module AllocatorInvariantsFacts.

Import BlockAllocator PriorityTableFacts BlockAllocatorFacts.
Import AllocatorInvariants.

(** *** The entries of a priority table *)

Lemma queued_entries (table : priority_table) (n : nat) :
  queued table n <-> n ∈ queue_entries table.
Proof.
  unfold queued, queued_at, queue_entries. rewrite list_elem_of_join. split.
  - intros (p & b & Hb & Hn). exists b. split; [done |].
    by eapply list_elem_of_lookup_2.
  - intros (b & Hn & Hb). apply list_elem_of_lookup_1 in Hb as [p Hp].
    by exists p, b.
Qed.

Lemma join_alter_snoc (bs : list (list nat)) (i n : nat) :
  (i < length bs)%nat ->
  mjoin (alter (fun b => b ++ [n]) i bs) ≡ₚ n :: mjoin bs.
Proof.
  revert i. induction bs as [| b bs IH]; intros i Hi; [simpl in Hi; lia |].
  destruct i as [| i]; simpl.
  - rewrite <- app_assoc. simpl. symmetry. apply Permutation_middle.
  - assert (Hi' : (i < length bs)%nat) by (simpl in Hi; lia).
    etrans; [apply Permutation_app_head, (IH i Hi') |].
    symmetry. apply Permutation_middle.
Qed.

Lemma alter_out_of_range {A : Type} (f : A -> A) (l : list A) (i : nat) :
  (length l <= i)%nat -> alter f i l = l.
Proof.
  revert i. induction l as [| x l IH]; intros i Hi; [done |].
  destruct i as [| i]; simpl in *; [lia |]. f_equal. apply IH. lia.
Qed.

Lemma queued_at_enqueue (table : priority_table) (p : Z) (n m q : nat) :
  queued_at (priority_table_enqueue table p n) m q
  <-> queued_at table m q
      \/ (m = n /\ q = Z.to_nat p
          /\ (Z.to_nat p < length (buckets table))%nat).
Proof.
  unfold queued_at, priority_table_enqueue. cbn [buckets].
  split.
  - intros (b & Hb & Hm). rewrite list_lookup_alter in Hb.
    destruct (decide (Z.to_nat p = q)) as [<- | Hne].
    + destruct (buckets table !! Z.to_nat p) as [b0 |] eqn:E; [| done].
      injection Hb as <-. apply elem_of_app in Hm as [Hm | Hm].
      * left. by exists b0.
      * right. apply list_elem_of_singleton in Hm.
        split; [done |]. split; [done |]. by eapply lookup_lt_Some.
    + left. by exists b.
  - intros [(b & Hb & Hm) | (-> & -> & Hlt)].
    + rewrite list_lookup_alter.
      destruct (decide (Z.to_nat p = q)) as [<- | Hne].
      * exists (b ++ [n]). rewrite Hb. split; [done |].
        apply elem_of_app. by left.
      * by exists b.
    + destruct (lookup_lt_is_Some_2 _ _ Hlt) as [b Hb].
      exists (b ++ [n]). rewrite list_lookup_alter, Hb.
      rewrite decide_True by done. split; [done |].
      apply elem_of_app. right. by apply list_elem_of_singleton.
Qed.

Lemma NoDup_enqueue (table : priority_table) (p : Z) (n : nat) :
  NoDup (queue_entries table) -> ~ queued table n ->
  NoDup (queue_entries (priority_table_enqueue table p n)).
Proof.
  intros Hnd Hn. unfold queue_entries, priority_table_enqueue. cbn [buckets].
  destruct (Nat.lt_ge_cases (Z.to_nat p) (length (buckets table))) as [H | H].
  - rewrite join_alter_snoc by done. apply NoDup_cons. split; [| done].
    intros Hin. apply Hn. by apply queued_entries.
  - by rewrite alter_out_of_range.
Qed.

Lemma lookup_map {A B : Type} (f : A -> B) (l : list A) (i : nat) :
  map f l !! i = f <$> l !! i.
Proof.
  revert i. induction l as [| x l IH]; intros [| i]; simpl; done.
Qed.

Lemma join_map_filter (P : nat -> Prop) `{!forall x, Decision (P x)}
    (bs : list (list nat)) :
  mjoin (map (filter P) bs) = filter P (mjoin bs).
Proof.
  induction bs as [| b bs IH]; [done |]. simpl.
  by rewrite filter_app, IH.
Qed.

Lemma queued_at_remove (table : priority_table) (n m q : nat) :
  queued_at (priority_table_remove table n) m q
  <-> queued_at table m q /\ m <> n.
Proof.
  unfold queued_at, priority_table_remove. cbn [buckets].
  rewrite lookup_map. split.
  - intros (b & Hb & Hm).
    destruct (buckets table !! q) as [b0 |]; [| done].
    injection Hb as <-. apply list_elem_of_filter in Hm as [Hne Hm].
    split; [by exists b0 | done].
  - intros [(b & Hb & Hm) Hne]. exists (filter (fun e => e <> n) b).
    rewrite Hb. split; [done |]. by apply list_elem_of_filter.
Qed.

Lemma NoDup_remove (table : priority_table) (n : nat) :
  NoDup (queue_entries table) ->
  NoDup (queue_entries (priority_table_remove table n)).
Proof.
  intros Hnd. unfold queue_entries, priority_table_remove. cbn [buckets].
  rewrite join_map_filter. by apply NoDup_filter.
Qed.

Lemma priority_table_dequeue_entries (table table' : priority_table)
    (e : nat) :
  priority_table_dequeue table = (Some e, table') ->
  queue_entries table ≡ₚ e :: queue_entries table'
  /\ (forall m q, queued_at table' m q -> queued_at table m q)
  /\ max_priority table' = max_priority table
  /\ length (buckets table') = length (buckets table).
Proof.
  unfold priority_table_dequeue.
  pose proof (dequeue_buckets_spec (buckets table)) as S.
  destruct (dequeue_buckets (buckets table)) as [[[i e0] bs'] |]; [| done].
  intros [= -> <-]. destruct S as (b & Hl & -> & _).
  unfold queue_entries, queued_at. cbn [buckets max_priority].
  assert (Hi : (i < length (buckets table))%nat) by (by eapply lookup_lt_Some).
  split; [| split; [| split]].
  - rewrite <- (take_drop_middle (buckets table) i (e :: b)) at 1 by done.
    rewrite insert_take_drop by done.
    rewrite !join_app. simpl. symmetry. apply Permutation_middle.
  - intros m q (b0 & Hb0 & Hm).
    destruct (decide (i = q)) as [<- | Hne].
    + rewrite list_lookup_insert_eq in Hb0 by done. injection Hb0 as <-.
      exists (e :: b). split; [done | by right].
    + rewrite list_lookup_insert_ne in Hb0 by done. by exists b0.
  - done.
  - by rewrite length_insert.
Qed.

(** *** The allocation queue stays consistent *)

Section Consistency.

Context {RC : Type} `{!RefCounts RC} `{!SlabOps RC}.

Lemma calculate_slab_priority_nonneg (a : block_allocator RC)
    (slab : vdo_slab RC) :
  0 <= unopened_slab_priority a -> 0 <= calculate_slab_priority a slab.
Proof.
  intros HU. unfold calculate_slab_priority, u32.
  repeat case_match; try lia; by apply Z.mod_pos_bound.
Qed.

Lemma prioritize_slab_consistent (a a' : block_allocator RC) (n : nat) :
  0 <= unopened_slab_priority a ->
  NoDup (queue_entries (prioritized_slabs a)) ->
  priorities_recorded a ->
  ~ queued (prioritized_slabs a) n ->
  prioritize_slab a n = Some a' ->
  0 <= unopened_slab_priority a'
  /\ NoDup (queue_entries (prioritized_slabs a'))
  /\ priorities_recorded a'
  /\ open_slab a' = open_slab a
  /\ (forall m, queued (prioritized_slabs a') m ->
                queued (prioritized_slabs a) m \/ m = n).
Proof.
  intros HU Hnd Hrec Hn. unfold prioritize_slab.
  destruct (get_slab a n) as [slab |] eqn:Hslab; [| done].
  cbn [mbind option_bind]. intros [= <-].
  cbn [unopened_slab_priority set_prioritized_slabs put_slab set_slabs
       prioritized_slabs open_slab].
  split; [done |]. split; [by apply NoDup_enqueue |].
  split; [| split; [done |]].
  - intros m q Hq. apply queued_at_enqueue in Hq as [Hq | (-> & -> & Hlt)].
    + destruct (Hrec m q Hq) as (slab0 & Hm & Hp). exists slab0.
      split; [| done]. unfold get_slab in *.
      cbn [depot slabs set_prioritized_slabs put_slab set_slabs].
      rewrite list_lookup_insert_ne; [done |].
      intros ->. apply Hn. by exists q.
    + exists (set_priority slab (calculate_slab_priority a slab)). split.
      * unfold get_slab in *.
        cbn [depot slabs set_prioritized_slabs put_slab set_slabs].
        rewrite list_lookup_insert_eq; [done |]. by eapply lookup_lt_Some.
      * cbn [priority set_priority].
        pose proof (calculate_slab_priority_nonneg a slab HU). lia.
  - intros m [q Hq]. apply queued_at_enqueue in Hq as [Hq | (-> & _)].
    + left. by exists q.
    + by right.
Qed.

(** Writing back a slab whose priority has not changed, or one that is not
    queued, keeps the priorities recorded. *)
Lemma priorities_recorded_put_slab (a : block_allocator RC) (n : nat)
    (slab' : vdo_slab RC) :
  (~ queued (prioritized_slabs a) n
   \/ exists slab, get_slab a n = Some slab /\ priority slab' = priority slab) ->
  priorities_recorded a -> priorities_recorded (put_slab a n slab').
Proof.
  intros Hn Hrec m q Hq.
  change (prioritized_slabs (put_slab a n slab')) with (prioritized_slabs a)
    in Hq.
  destruct (Hrec m q Hq) as (slab0 & Hm & Hp).
  unfold get_slab, put_slab in *. cbn [depot slabs set_slabs].
  destruct (decide (n = m)) as [-> | Hne].
  - exists slab'. split.
    + rewrite list_lookup_insert_eq; [done |]. by eapply lookup_lt_Some.
    + destruct Hn as [Hn | (slab & Hs & Hp')].
      * exfalso. apply Hn. by exists q.
      * rewrite Hp'. congruence.
  - exists slab0. by rewrite list_lookup_insert_ne.
Qed.

Lemma vdo_adjust_free_block_count_consistent (a a' : block_allocator RC)
    (n : nat) (increment : bool) :
  queue_consistent a ->
  vdo_adjust_free_block_count a n increment = Some a' ->
  queue_consistent a'.
Proof.
  intros (HU & Hnd & Hrec & Hopen). unfold vdo_adjust_free_block_count.
  destruct (get_slab a n) as [slab |] eqn:Hslab; [| done].
  cbn [mbind option_bind].
  set (a1 := set_allocated_blocks a _).
  assert (H1 : queue_consistent a1) by done.
  destruct (decide (Some n = open_slab a1)) as [Ho | Ho]; [by intros [= <-] |].
  destruct (priority slab =? calculate_slab_priority a1 slab);
    [by intros [= <-] |].
  intros Hp.
  apply prioritize_slab_consistent in Hp as (HU' & Hnd' & Hrec' & Hopen' & Hq).
  - split; [done |]. split; [done |]. split; [done |].
    intros m Hm Hqm. rewrite Hopen' in Hm.
    apply Hq in Hqm as [[q Hqm] | ->].
    + apply queued_at_remove in Hqm as [Hqm _].
      apply (Hopen m Hm). by exists q.
    + by apply Ho.
  - done.
  - cbn [prioritized_slabs set_prioritized_slabs]. by apply NoDup_remove.
  - intros m q Hq.
    cbn [prioritized_slabs set_prioritized_slabs] in Hq.
    apply queued_at_remove in Hq as [Hq _]. by apply Hrec.
  - cbn [prioritized_slabs set_prioritized_slabs].
    intros [q Hq]. by apply queued_at_remove in Hq as [_ Hq].
Qed.

Lemma allocate_slab_block_consistent (a a' : block_allocator RC) (n : nat)
    (result : status) (pbn : option Z) :
  queue_consistent a ->
  allocate_slab_block a n = Some (result, pbn, a') ->
  queue_consistent a'.
Proof.
  intros (HU & Hnd & Hrec & Hopen). unfold allocate_slab_block.
  destruct (get_slab a n) as [slab |] eqn:Hslab; [| done].
  cbn [mbind option_bind].
  destruct (vdo_allocate_unreferenced_block (reference_counts slab))
    as [[r p] rc].
  set (a1 := put_slab a n (set_reference_counts slab rc)).
  assert (H1 : queue_consistent a1).
  { split; [done |]. split; [done |]. split; [| done].
    apply priorities_recorded_put_slab; [| done]. right. by exists slab. }
  destruct (decide (r <> VDO_SUCCESS)); [by intros [= <- <- <-] |].
  destruct (vdo_adjust_free_block_count a1 n false) as [a2 |] eqn:Hadj;
    [| done].
  cbn [mbind option_bind]. intros [= <- <- <-].
  by eapply vdo_adjust_free_block_count_consistent.
Qed.

Lemma open_next_slab_and_allocate_consistent (a a' : block_allocator RC)
    (result : status) (pbn : option Z) :
  0 <= unopened_slab_priority a ->
  NoDup (queue_entries (prioritized_slabs a)) ->
  priorities_recorded a ->
  open_next_slab_and_allocate a = Some (result, pbn, a') ->
  queue_consistent a'.
Proof.
  intros HU Hnd Hrec. unfold open_next_slab_and_allocate.
  destruct (priority_table_dequeue (prioritized_slabs a))
    as [[m |] table] eqn:Hd; [| done].
  cbn [mbind option_bind].
  apply priority_table_dequeue_entries in Hd as (Hperm & Hsub & _).
  rewrite Hperm in Hnd. apply NoDup_cons in Hnd as [Hm Hnd].
  set (a1 := set_open_slab (set_prioritized_slabs a table) (Some m)).
  destruct (get_slab a1 m) as [slab |] eqn:Hslab; [| done].
  cbn [mbind option_bind].
  destruct (vdo_open_slab slab (statistics a1)) as [slab' stats].
  apply allocate_slab_block_consistent.
  assert (Hnq : ~ queued table m) by (by rewrite queued_entries).
  split; [done |]. split; [done |]. split.
  - change (priorities_recorded (put_slab a1 m slab')).
    apply priorities_recorded_put_slab; [by left |].
    intros k q Hq. apply Hrec. by apply Hsub.
  - intros k [= <-]. done.
Qed.

Lemma vdo_allocate_block_consistent (a a' : block_allocator RC)
    (result : status) (pbn : option Z) :
  queue_consistent a ->
  vdo_allocate_block a = Some (result, pbn, a') ->
  queue_consistent a'.
Proof.
  intros Ha. unfold vdo_allocate_block.
  destruct (open_slab a) as [n |] eqn:Hopen.
  - destruct (allocate_slab_block a n) as [[[r p] a1] |] eqn:Halloc; [| done].
    cbn [mbind option_bind].
    pose proof (allocate_slab_block_consistent _ _ _ _ _ Ha Halloc) as H1.
    destruct (bool_decide (r = VDO_SUCCESS) || bool_decide (r <> VDO_NO_SPACE));
      [by intros [= <- <- <-] |].
    destruct (prioritize_slab a1 n) as [a2 |] eqn:Hp; [| done].
    cbn [mbind option_bind].
    destruct H1 as (HU & Hnd & Hrec & Ho).
    destruct (allocate_slab_block_on_open_slab a a1 n r p Hopen Halloc)
      as (Hopen1 & _).
    apply prioritize_slab_consistent in Hp as (HU' & Hnd' & Hrec' & _);
      [| done | done | done | by apply Ho].
    by apply open_next_slab_and_allocate_consistent.
  - destruct Ha as (HU & Hnd & Hrec & _).
    by apply open_next_slab_and_allocate_consistent.
Qed.

Lemma vdo_queue_slab_consistent (a a' : block_allocator RC) (n : nat) :
  queue_consistent a ->
  ~ queued (prioritized_slabs a) n ->
  open_slab a <> Some n ->
  vdo_queue_slab a n = Some a' ->
  queue_consistent a'.
Proof.
  intros (HU & Hnd & Hrec & Hopen) Hn Ho. unfold vdo_queue_slab.
  destruct (get_slab a n) as [slab |] eqn:Hslab; [| done].
  cbn [mbind option_bind].
  destruct (decide (_ <> VDO_SUCCESS)); [by intros [= <-] |].
  destruct (vdo_is_unrecovered_slab slab); [by intros [= <-] |].
  set (a1 := if negb (vdo_is_slab_resuming slab) then _ else a).
  assert (H1 : unopened_slab_priority a1 = unopened_slab_priority a
                /\ prioritized_slabs a1 = prioritized_slabs a
                /\ depot a1 = depot a
                /\ open_slab a1 = open_slab a).
  { subst a1. destruct (vdo_is_slab_resuming slab); cbn [negb]; [done |].
    by destruct (vdo_is_slab_journal_blank slab). }
  destruct H1 as (E1 & E2 & E3 & E4).
  intros Hp.
  apply prioritize_slab_consistent in Hp as (HU' & Hnd' & Hrec' & Hopen' & Hq).
  - split; [done |]. split; [done |]. split; [done |].
    intros m Hm Hqm. rewrite Hopen', E4 in Hm.
    apply Hq in Hqm as [Hqm | ->].
    + rewrite E2 in Hqm. by apply (Hopen m).
    + by apply Ho.
  - by rewrite E1.
  - by rewrite E2.
  - intros m q Hq. rewrite E2 in Hq. unfold get_slab. rewrite E3.
    by apply Hrec.
  - by rewrite E2.
Qed.

Lemma allocate_components_consistent (a0 : block_allocator RC) :
  open_slab a0 = None -> queue_consistent (allocate_components a0).
Proof.
  intros Hopen. unfold allocate_components.
  assert (Hnone : forall (mp : Z) n q, ~ queued_at (make_priority_table mp) n q).
  { intros mp n q (b & Hb & Hn). unfold make_priority_table in Hb.
    cbn [buckets] in Hb. apply lookup_replicate in Hb as [-> _].
    by apply elem_of_nil in Hn. }
  split; [| split; [| split]].
  - cbn [unopened_slab_priority set_unopened_slab_priority]. unfold u32.
    by apply Z.mod_pos_bound.
  - cbn. unfold queue_entries, make_priority_table. cbn [buckets].
    rewrite join_nil_2; [constructor |]. apply Forall_replicate. done.
  - intros n q Hq. cbn in Hq. by apply Hnone in Hq.
  - cbn. by rewrite Hopen.
Qed.

(** Between calls the allocation queue is consistent: no slab is queued
    twice, each queued slab records the priority of the bucket it is in,
    and the open slab is not queued.  Allocating a block, adjusting the
    free block count of a slab and queueing a slab that is neither queued
    nor open keep it so, whatever opening a slab does to that slab; that
    [allocate_components] sets the queue up so is
    [allocate_components_consistent]. *)
Theorem allocator_keeps_queue_consistent (a : block_allocator RC) :
  queue_consistent a ->
  (forall result pbn a',
     vdo_allocate_block a = Some (result, pbn, a') -> queue_consistent a')
  /\ (forall n increment a',
        vdo_adjust_free_block_count a n increment = Some a' ->
        queue_consistent a')
  /\ (forall n a',
        ~ queued (prioritized_slabs a) n -> open_slab a <> Some n ->
        vdo_queue_slab a n = Some a' -> queue_consistent a').
Proof.
  intros Ha. split; [| split].
  - intros result pbn a'. by apply vdo_allocate_block_consistent.
  - intros n increment a'. by apply vdo_adjust_free_block_count_consistent.
  - intros n a'. by apply vdo_queue_slab_consistent.
Qed.

End Consistency.

(** *** Priorities fit the table *)

Section Fits.

Context {RC : Type} `{!RefCounts RC}.

Lemma unopened_slab_priority_bound (D : Z) :
  is_u64 D -> 0 < D ->
  0 <= u32 (1 + log_base_two (u64 (D * 3) / 4)) <= 2 + Z.log2 D.
Proof.
  intros HD Hpos. unfold is_u64 in HD.
  set (x := u64 (D * 3) / 4).
  assert (Hx : 0 <= x < 2 ^ 62).
  { subst x. unfold u64.
    pose proof (Z.mod_pos_bound (D * 3) (2 ^ 64) ltac:(lia)) as Hm.
    split; [apply Z.div_pos; lia |]. apply Z.div_lt_upper_bound; lia. }
  assert (HlogD : 0 <= Z.log2 D) by apply Z.log2_nonneg.
  assert (Hl : -1 <= log_base_two x <= 61 /\ log_base_two x <= 1 + Z.log2 D).
  { unfold log_base_two. destruct (Z.eqb_spec x 0) as [E | E]; [lia |].
    assert (Z.log2 x < 62) by (apply Z.log2_lt_pow2; lia).
    pose proof (Z.log2_nonneg x). split; [lia |].
    destruct (Z.lt_ge_cases (D * 3) (2 ^ 64)) as [Hs | Hb].
    - assert (x <= D).
      { subst x. unfold u64. rewrite Z.mod_small by lia.
        apply Z.div_le_upper_bound; lia. }
      assert (Z.log2 x <= Z.log2 D) by (by apply Z.log2_le_mono). lia.
    - assert (62 <= Z.log2 D) by (apply Z.log2_le_pow2; lia). lia. }
  rewrite u32_small by lia. lia.
Qed.

Lemma sized_by_components_spec (a : block_allocator RC) :
  sized_by_components a <->
  max_priority (prioritized_slabs a)
  = u32 (2 + log_base_two (data_blocks (depot a)))
  /\ length (buckets (prioritized_slabs a))
     = Z.to_nat (u32 (2 + log_base_two (data_blocks (depot a))) + 1)
  /\ unopened_slab_priority a
     = u32 (1 + log_base_two (u64 (data_blocks (depot a) * 3) / 4)).
Proof.
  unfold sized_by_components, allocate_components, make_priority_table.
  cbn. by rewrite length_replicate.
Qed.

(** In an allocator sized by [allocate_components] for slabs of [D] data
    blocks, every slab with at most [D] free blocks has a priority between
    0 and the table's [max_priority], and so a bucket to be queued in:
    also a full slab (priority 0) and a slab whose journal is blank (the
    unopened slab priority), and also when [D * 3] overflows 64 bits. *)
Theorem calculate_slab_priority_fits_table (a : block_allocator RC)
    (slab : vdo_slab RC) :
  sized_by_components a ->
  is_u64 (data_blocks (depot a)) ->
  get_slab_free_block_count slab <= data_blocks (depot a) ->
  0 <= calculate_slab_priority a slab <= max_priority (prioritized_slabs a)
  /\ (Z.to_nat (calculate_slab_priority a slab)
      < length (buckets (prioritized_slabs a)))%nat.
Proof.
  intros Hs HD HF. apply sized_by_components_spec in Hs as (Hmax & Hlen & HU).
  rewrite Hlen, Hmax.
  set (D := data_blocks (depot a)) in *.
  pose proof (free_blocks_range slab) as HR.
  assert (Hm : 0 <= u32 (2 + log_base_two D))
    by (unfold u32; by apply Z.mod_pos_bound).
  assert (Hgoal : 0 <= calculate_slab_priority a slab
                  <= u32 (2 + log_base_two D)); [| lia].
  destruct (Z.eq_dec (get_slab_free_block_count slab) 0) as [E | E].
  { unfold calculate_slab_priority. rewrite E. cbn. lia. }
  assert (HDpos : 0 < D) by lia.
  assert (Hmax' : u32 (2 + log_base_two D) = 2 + Z.log2 D).
  { rewrite log_base_two_pos by done. apply u32_small.
    pose proof (log2_u64_bound D). unfold is_u64 in HD. lia. }
  rewrite Hmax'.
  destruct (journal_blank slab) eqn:Hblank.
  - unfold calculate_slab_priority, vdo_is_slab_journal_blank.
    destruct (Z.eqb_spec (get_slab_free_block_count slab) 0); [done |].
    rewrite Hblank, HU. by apply unopened_slab_priority_bound.
  - rewrite calculate_slab_priority_opened by done. cbv zeta.
    assert (Z.log2 (get_slab_free_block_count slab) <= Z.log2 D)
      by (apply Z.log2_le_mono; lia).
    pose proof (Z.log2_nonneg (get_slab_free_block_count slab)).
    destruct (_ <? _); lia.
Qed.

End Fits.

(** *** Counting the allocated blocks *)

Section Accounting.

Context {RC : Type} `{!RefCounts RC} `{!SlabOps RC}.

Lemma prioritize_slab_frame (a a' : block_allocator RC) (n : nat) :
  prioritize_slab a n = Some a' ->
  allocated_blocks a' = allocated_blocks a /\ allocation_frame a a'.
Proof.
  unfold prioritize_slab.
  destruct (get_slab a n) as [slab |] eqn:Hslab; [| done].
  cbn [mbind option_bind]. intros [= <-].
  unfold allocation_frame. cbn. by rewrite length_insert.
Qed.

Lemma vdo_adjust_free_block_count_frame (a a' : block_allocator RC)
    (n : nat) (increment : bool) :
  vdo_adjust_free_block_count a n increment = Some a' ->
  allocated_blocks a'
  = u64 (allocated_blocks a + (if increment then -1 else 1))
  /\ allocation_frame a a'.
Proof.
  unfold vdo_adjust_free_block_count.
  destruct (get_slab a n) as [slab |] eqn:Hslab; [| done].
  cbn [mbind option_bind].
  destruct (decide _); [by intros [= <-] |].
  destruct (_ =? _); [by intros [= <-] |].
  intros Hp. apply prioritize_slab_frame in Hp as [Ha Hf]. split; [done |].
  exact Hf.
Qed.

Lemma allocate_slab_block_frame (a a' : block_allocator RC) (n : nat)
    (result : status) (pbn : option Z) :
  allocate_slab_block a n = Some (result, pbn, a') ->
  allocated_blocks a'
  = (if decide (result = VDO_SUCCESS) then u64 (allocated_blocks a + 1)
     else allocated_blocks a)
  /\ (result = VDO_SUCCESS <-> is_Some pbn)
  /\ allocation_frame a a'.
Proof.
  unfold allocate_slab_block.
  destruct (get_slab a n) as [slab |] eqn:Hslab; [| done].
  cbn [mbind option_bind].
  destruct (vdo_allocate_unreferenced_block (reference_counts slab))
    as [[r p] rc].
  destruct (decide (r <> VDO_SUCCESS)) as [Hr | Hr].
  - intros [= <- <- <-]. rewrite decide_False by done.
    split; [done |]. split; [split; [done | by intros [? ?]] |].
    unfold allocation_frame. cbn. by rewrite length_insert.
  - destruct (vdo_adjust_free_block_count _ n false) as [a2 |] eqn:Hadj;
      [| done].
    cbn [mbind option_bind]. intros [= <- <- <-].
    apply vdo_adjust_free_block_count_frame in Hadj as [Ha Hf].
    rewrite decide_True by done. split; [exact Ha |].
    split; [split; [by eexists | done] |].
    unfold allocation_frame in *. cbn in Hf. by rewrite length_insert in Hf.
Qed.

Lemma open_next_slab_and_allocate_frame (a a' : block_allocator RC)
    (result : status) (pbn : option Z) :
  open_next_slab_and_allocate a = Some (result, pbn, a') ->
  allocated_blocks a'
  = (if decide (result = VDO_SUCCESS) then u64 (allocated_blocks a + 1)
     else allocated_blocks a)
  /\ (result = VDO_SUCCESS <-> is_Some pbn)
  /\ allocation_frame a a'.
Proof.
  unfold open_next_slab_and_allocate.
  destruct (priority_table_dequeue (prioritized_slabs a)) as [[m |] table];
    [| done].
  cbn [mbind option_bind].
  destruct (get_slab _ m) as [slab |]; [| done]. cbn [mbind option_bind].
  destruct (vdo_open_slab slab _) as [slab' stats].
  intros Ha. apply allocate_slab_block_frame in Ha as (Ha & Hp & Hf).
  split; [exact Ha |]. split; [done |].
  unfold allocation_frame in *. cbn in Hf. by rewrite length_insert in Hf.
Qed.

(** The allocated block count follows the allocations: a call of
    [vdo_allocate_block] that succeeds adds one to it (modulo [2^64]) and
    writes a block number, a call that fails leaves it as it was and
    writes none, also when the call went on to the next slab.  Neither
    touches the scrubber, the read-only notifier, the summary or the
    geometry of the depot. *)
Theorem vdo_allocate_block_counts_the_block (a a' : block_allocator RC)
    (result : status) (pbn : option Z) :
  vdo_allocate_block a = Some (result, pbn, a') ->
  allocated_blocks a'
  = (if decide (result = VDO_SUCCESS) then u64 (allocated_blocks a + 1)
     else allocated_blocks a)
  /\ (result = VDO_SUCCESS <-> is_Some pbn)
  /\ allocation_frame a a'.
Proof.
  unfold vdo_allocate_block. destruct (open_slab a) as [n |].
  - destruct (allocate_slab_block a n) as [[[r p] a1] |] eqn:Halloc; [| done].
    cbn [mbind option_bind].
    apply allocate_slab_block_frame in Halloc as (Ha1 & Hp1 & Hf1).
    destruct (bool_decide (r = VDO_SUCCESS)) eqn:Es; cbn [orb].
    { by intros [= <- <- <-]. }
    destruct (bool_decide (r <> VDO_NO_SPACE)) eqn:En.
    { by intros [= <- <- <-]. }
    apply bool_decide_eq_false in Es.
    rewrite decide_False in Ha1 by done.
    destruct (prioritize_slab a1 n) as [a2 |] eqn:Hp; [| done].
    cbn [mbind option_bind].
    apply prioritize_slab_frame in Hp as [Ha2 Hf2].
    intros Hnext.
    apply open_next_slab_and_allocate_frame in Hnext as (Ha3 & Hp3 & Hf3).
    split; [by rewrite Ha3, Ha2, Ha1 |]. split; [done |].
    unfold allocation_frame in *.
    destruct Hf1 as (? & ? & ? & ? & ? & ? & ? & ?),
      Hf2 as (? & ? & ? & ? & ? & ? & ? & ?),
      Hf3 as (? & ? & ? & ? & ? & ? & ? & ?).
    repeat split; congruence.
  - apply open_next_slab_and_allocate_frame.
Qed.

End Accounting.

(** *** Preparing the slabs for allocation *)

Section Preparation.

Context {RC : Type} `{!RefCounts RC}.

Lemma sized_by_components_transfer (a a' : block_allocator RC) :
  max_priority (prioritized_slabs a') = max_priority (prioritized_slabs a) ->
  length (buckets (prioritized_slabs a'))
  = length (buckets (prioritized_slabs a)) ->
  unopened_slab_priority a' = unopened_slab_priority a ->
  data_blocks (depot a') = data_blocks (depot a) ->
  sized_by_components a -> sized_by_components a'.
Proof.
  intros E1 E2 E3 E4. rewrite !sized_by_components_spec.
  by rewrite E1, E2, E3, E4.
Qed.

Lemma in_scrubber_register (a a' : block_allocator RC) (n m : nat)
    (high_priority : bool) :
  scrubber a'
  = vdo_register_slab_for_scrubbing (scrubber a) n high_priority ->
  in_scrubber a' m <-> in_scrubber a m \/ m = n.
Proof.
  intros E. unfold in_scrubber, vdo_register_slab_for_scrubbing in *.
  rewrite E.
  destruct high_priority; cbn [high_priority_slabs scrubber_slabs];
    rewrite elem_of_app, list_elem_of_singleton; tauto.
Qed.

Lemma vdo_queue_slab_places (a a' : block_allocator RC) (n : nat)
    (slab : vdo_slab RC) :
  prepared a -> unplaced a n ->
  get_slab a n = Some slab ->
  vdo_queue_slab a n = Some a' ->
  prepared a'
  /\ others_kept a a' n
  /\ (get_slab_free_block_count slab <= data_blocks (depot a) ->
      placed_once a' n).
Proof.
  intros (Hcons & Hopen & Hsized & HD) [Hnq Hns] Hslab Hq.
  assert (Hcons' : queue_consistent a').
  { eapply vdo_queue_slab_consistent; [done | done | | done].
    by rewrite Hopen. }
  revert Hq. unfold vdo_queue_slab. rewrite Hslab. cbn [mbind option_bind].
  unfold ASSERT.
  destruct (Z.leb_spec (get_slab_free_block_count slab)
              (data_blocks (depot a))) as [HF | HF].
  2:{ rewrite decide_True by done. intros [= <-].
      split; [done |]. split; [| lia]. by repeat split. }
  rewrite decide_False by (by intros E; apply E).
  destruct (vdo_is_unrecovered_slab slab).
  { intros [= <-]. split; [done |]. split.
    - split; [done |]. split; [done |]. intros m Hm.
      split; [done |]. split; [done |].
      rewrite (in_scrubber_register a _ n m false) by done. tauto.
    - intros _. right. split; [| done].
      rewrite (in_scrubber_register a _ n n false) by done. by right. }
  set (a1 := if negb (vdo_is_slab_resuming slab) then _ else a).
  assert (H1 : unopened_slab_priority a1 = unopened_slab_priority a
                /\ prioritized_slabs a1 = prioritized_slabs a
                /\ depot a1 = depot a
                /\ open_slab a1 = open_slab a
                /\ scrubber a1 = scrubber a
                /\ zone_number a1 = zone_number a).
  { subst a1. destruct (vdo_is_slab_resuming slab); cbn [negb]; [done |].
    by destruct (vdo_is_slab_journal_blank slab). }
  destruct H1 as (E1 & E2 & E3 & E4 & E5 & E6).
  unfold prioritize_slab, get_slab. rewrite E3.
  fold (get_slab a n). rewrite Hslab. cbn [mbind option_bind].
  replace (calculate_slab_priority a1 slab)
    with (calculate_slab_priority a slab)
    by (unfold calculate_slab_priority; by rewrite E1).
  destruct (calculate_slab_priority_fits_table a slab Hsized HD HF)
    as [Hrange Hfits].
  intros [= <-].
  assert (Hqn : forall m,
            queued (set_prioritized_slabs
                      (put_slab a1 n
                         (set_priority slab (calculate_slab_priority a slab)))
                      (priority_table_enqueue (prioritized_slabs a1)
                         (calculate_slab_priority a slab) n)).(prioritized_slabs)
              m
            <-> queued (prioritized_slabs a) m \/ m = n).
  { intros m. cbn [prioritized_slabs set_prioritized_slabs]. rewrite E2.
    unfold queued. split.
    - intros [q Hq]. apply queued_at_enqueue in Hq as [Hq | (-> & _)];
        [left; by exists q | by right].
    - intros [[q Hq] | ->].
      + exists q. apply queued_at_enqueue. by left.
      + eexists. apply queued_at_enqueue. right. done. }
  split; [| split].
  - split; [done |]. split; [by cbn; rewrite E4 |]. split; [| by cbn; rewrite E3].
    eapply sized_by_components_transfer; [| | | | exact Hsized]; cbn.
    + by rewrite E2.
    + by rewrite length_alter, E2.
    + done.
    + by rewrite E3.
  - split; [by cbn |]. split; [by cbn; rewrite E3 |]. intros m Hm.
    split; [| split].
    + unfold get_slab. cbn. rewrite E3. by rewrite list_lookup_insert_ne.
    + rewrite Hqn. split; [intros [? | ?]; [done | contradiction] | by left].
    + unfold in_scrubber. cbn. by rewrite E5.
  - intros _. left. split; [apply Hqn; by right |].
    unfold in_scrubber. cbn. by rewrite E5.
Qed.

Lemma prepare_slab_step (a a' : block_allocator RC)
    (current_slab_status : slab_status) :
  let n := status_slab_number current_slab_status in
  prepared a -> unplaced a n ->
  prepare_slab a current_slab_status = Some a' ->
  prepared a'
  /\ others_kept a a' n
  /\ exists slab,
       get_slab a n = Some slab
       /\ if decide (allocator slab = zone_number a)
          then get_slab_free_block_count slab <= data_blocks (depot a) ->
               placed_once a' n
          else get_slab a' n = Some slab /\ unplaced a' n.
Proof.
  intros n Hprep Hun. unfold prepare_slab. fold n.
  destruct (get_slab a n) as [slab |] eqn:Hslab; [| done].
  cbn [mbind option_bind].
  destruct (decide (allocator slab <> zone_number a)) as [Hf | Ho].
  { intros [= <-]. split; [done |]. split; [by repeat split |].
    exists slab. split; [done |]. by rewrite decide_False. }
  apply dec_stable in Ho.
  destruct (if decide (load_type (depot a) = VDO_SLAB_DEPOT_REBUILD_LOAD)
            then _ else _) as [[|] |]; cbn [mbind option_bind]; [| | done].
  - intros Hq.
    destruct (vdo_queue_slab_places a a' n slab Hprep Hun Hslab Hq)
      as (Hp' & Hk & Hplaced).
    split; [done |]. split; [done |]. exists slab. split; [done |].
    by rewrite decide_True.
  - intros [= <-].
    destruct Hprep as ((HU & Hnd & Hrec & Hopen') & Hopen & Hsized & HD).
    destruct Hun as [Hnq Hns].
    match goal with
    | |- context [vdo_register_slab_for_scrubbing _ n ?h] => set (high := h)
    end.
    split; [| split].
    + split; [| split; [done | split; [| done]]].
      * split; [done |]. split; [done |]. split; [| done].
        change (priorities_recorded
                  (put_slab a n (vdo_mark_slab_unrecovered slab))).
        apply priorities_recorded_put_slab; [by left | done].
      * by eapply sized_by_components_transfer; [| | | | exact Hsized].
    + split; [done |]. split; [done |]. intros m Hm.
      split; [| split; [done |]].
      * unfold get_slab. cbn. by rewrite list_lookup_insert_ne.
      * rewrite (in_scrubber_register a _ n m high) by done. tauto.
    + exists slab. split; [done |]. rewrite decide_True by done.
      intros _. right. split; [| done].
      rewrite (in_scrubber_register a _ n n high) by done. by right.
Qed.

Lemma prepare_slabs_places (order : list slab_status) :
  forall a a' : block_allocator RC,
    NoDup (status_slab_number <$> order) ->
    prepared a ->
    (forall n, n ∈ status_slab_number <$> order -> unplaced a n) ->
    prepare_slabs a order = Some a' ->
    prepared a'
    /\ zone_number a' = zone_number a
    /\ data_blocks (depot a') = data_blocks (depot a)
    /\ (forall m,
          m ∉ status_slab_number <$> order ->
          get_slab a' m = get_slab a m
          /\ (queued (prioritized_slabs a') m
              <-> queued (prioritized_slabs a) m)
          /\ (in_scrubber a' m <-> in_scrubber a m))
    /\ (forall n,
          n ∈ status_slab_number <$> order ->
          exists slab,
            get_slab a n = Some slab
            /\ if decide (allocator slab = zone_number a)
               then get_slab_free_block_count slab <= data_blocks (depot a) ->
                    placed_once a' n
               else get_slab a' n = Some slab /\ unplaced a' n).
Proof.
  induction order as [| cs order IH]; intros a a' Hnd Hprep Hun.
  { intros [= <-]. split; [done |]. split; [done |]. split; [done |].
    split; [done |]. intros n Hn. by apply elem_of_nil in Hn. }
  cbn [prepare_slabs].
  destruct (prepare_slab a cs) as [a1 |] eqn:Hstep; [| done].
  cbn [mbind option_bind]. intros Hrest.
  rewrite fmap_cons in Hnd. apply NoDup_cons in Hnd as [Hfresh Hnd].
  set (n := status_slab_number cs) in *.
  destruct (prepare_slab_step a a1 cs Hprep) as (Hp1 & (Hz1 & Hd1 & Hk1) & Hn1);
    [apply Hun; rewrite fmap_cons; by left | done |].
  fold n in Hk1, Hn1.
  assert (Hne : forall m, m ∈ status_slab_number <$> order -> m <> n)
    by (by intros m Hm ->).
  destruct (IH a1 a' Hnd Hp1) as (Hp' & Hz' & Hd' & Hout & Hin); [| done |].
  { intros m Hm. destruct (Hk1 m (Hne m Hm)) as (_ & Hq & Hs).
    destruct (Hun m) as [Hnq Hns]; [rewrite fmap_cons; by right |].
    split; tauto. }
  subst n.
  split; [done |]. split; [congruence |]. split; [congruence |]. split.
  - intros m Hm. rewrite fmap_cons in Hm. apply not_elem_of_cons in Hm as [Hmn Hm].
    destruct (Hout m Hm) as (E1 & E2 & E3), (Hk1 m Hmn) as (F1 & F2 & F3).
    split; [congruence |]. split; tauto.
  - intros k Hk. rewrite fmap_cons in Hk. apply elem_of_cons in Hk as [-> | Hk].
    + destruct Hn1 as (slab & Hslab & Hcase). exists slab. split; [done |].
      destruct (Hout _ Hfresh) as (E1 & E2 & E3).
      destruct (decide (allocator slab = zone_number a)).
      * intros HF. specialize (Hcase HF). unfold placed_once in *. tauto.
      * destruct Hcase as [Hs [Hq Hsc]]. split; [congruence |].
        unfold unplaced. tauto.
    + destruct (Hin k Hk) as (slab & Hslab & Hcase).
      destruct (Hk1 k (Hne k Hk)) as (F1 & _).
      exists slab. split; [congruence |]. by rewrite <- Hz1, <- Hd1.
Qed.

Lemma allocate_components_prepared (a0 : block_allocator RC) :
  open_slab a0 = None -> is_u64 (data_blocks (depot a0)) ->
  let a := allocate_components a0 in
  prepared (set_allocated_blocks a (get_data_block_count a))
  /\ forall n, unplaced (set_allocated_blocks a (get_data_block_count a)) n.
Proof.
  intros Hopen HD a. split.
  - split; [exact (allocate_components_consistent a0 Hopen) |].
    split; [exact Hopen |]. split; [| exact HD].
    apply sized_by_components_spec. cbn. by rewrite length_replicate.
  - intros n. split.
    + intros [q (b & Hb & Hn)]. cbn in Hb.
      apply lookup_replicate in Hb as [-> _]. by apply elem_of_nil in Hn.
    + intros [Hn | Hn]; cbn in Hn; by apply elem_of_nil in Hn.
Qed.

Lemma slab_processing_order_numbers (a : block_allocator RC) (n : nat) :
  NoDup (status_slab_number <$> slab_processing_order a)
  /\ (n ∈ status_slab_number <$> slab_processing_order a
      <-> (n < length (slabs (depot a)))%nat
          /\ (n < length (summary a))%nat).
Proof.
  unfold slab_processing_order.
  set (slab_count := length (slabs (depot a))).
  set (statuses := vdo_get_summarized_slab_statuses (summary a) slab_count).
  assert (Hnum : status_slab_number <$> statuses
                 = seq 0 (length (take slab_count (summary a))))
    by apply summarized_slab_statuses_numbers.
  assert (Hnd : NoDup (status_slab_number <$> statuses))
    by (rewrite Hnum; apply NoDup_seq).
  assert (Hlen : (length statuses <= slab_count)%nat).
  { subst statuses. unfold vdo_get_summarized_slab_statuses.
    rewrite length_imap, length_take. lia. }
  destruct (pop_all_sorted slab_count statuses Hnd Hlen) as [Hperm _].
  assert (Hp : status_slab_number <$> pop_all compare_slab_statuses slab_count
                                        statuses
               ≡ₚ status_slab_number <$> statuses)
    by (by apply fmap_Permutation).
  split.
  - eapply NoDup_Permutation_proper; [exact Hp | exact Hnd].
  - rewrite Hp, Hnum, elem_of_seq, length_take. lia.
Qed.

Lemma vdo_prepare_slabs_for_allocation_places (a0 a' : block_allocator RC) :
  let a := allocate_components a0 in
  open_slab a0 = None ->
  is_u64 (data_blocks (depot a0)) ->
  vdo_prepare_slabs_for_allocation a = Some a' ->
  prepared a'
  /\ forall (n : nat) (slab : vdo_slab RC),
       get_slab a n = Some slab ->
       if decide ((n < length (summary a))%nat
                  /\ allocator slab = zone_number a)
       then get_slab_free_block_count slab <= data_blocks (depot a) ->
            placed_once a' n
       else get_slab a' n = Some slab /\ unplaced a' n.
Proof.
  intros a Hopen HD. unfold vdo_prepare_slabs_for_allocation. intros Hprep.
  destruct (allocate_components_prepared a0 Hopen HD) as [Hp Hun].
  fold a in Hp, Hun.
  apply prepare_slabs_places in Hprep as (Hp' & Hz & Hd & Hout & Hin);
    [| apply slab_processing_order_numbers; exact O | done | by intros n _].
  split; [done |]. intros n slab Hslab.
  assert (Hn : (n < length (slabs (depot a)))%nat)
    by (by eapply lookup_lt_Some).
  destruct (decide ((n < length (summary a))%nat)) as [Hsum | Hsum].
  - destruct (Hin n) as (slab' & Hslab' & Hcase).
    { by apply slab_processing_order_numbers. }
    assert (slab' = slab) as -> by (unfold get_slab in *; cbn in *; congruence).
    cbn [zone_number set_allocated_blocks depot] in Hcase.
    destruct (decide (allocator slab = zone_number a)) as [Ho | Ho].
    + by rewrite decide_True.
    + rewrite decide_False by tauto. done.
  - rewrite decide_False by tauto.
    destruct (Hout n) as (E1 & E2 & E3).
    { rewrite (proj2 (slab_processing_order_numbers a n)). tauto. }
    split; [by rewrite E1 |]. destruct (Hun n) as [Hq Hs].
    unfold unplaced. tauto.
Qed.

(** Preparing a freshly constructed allocator for allocation places every
    slab of its zone that the summary covers and whose free block count is
    within a slab's data blocks in exactly one of the two queues: the
    priority table or the scrubber.  It leaves the queue consistent and no
    slab open. *)
Theorem prepare_places_every_slab_of_the_zone (a0 a' : block_allocator RC)
    (n : nat) (slab : vdo_slab RC) :
  let a := allocate_components a0 in
  open_slab a0 = None ->
  is_u64 (data_blocks (depot a0)) ->
  vdo_prepare_slabs_for_allocation a = Some a' ->
  get_slab a n = Some slab ->
  allocator slab = zone_number a ->
  (n < length (summary a))%nat ->
  get_slab_free_block_count slab <= data_blocks (depot a) ->
  placed_once a' n /\ queue_consistent a' /\ open_slab a' = None.
Proof.
  intros a Hopen HD Hprep Hslab Hown Hsum HF.
  destruct (vdo_prepare_slabs_for_allocation_places a0 a' Hopen HD Hprep)
    as ((Hcons & Hopen' & _) & Hplaces).
  specialize (Hplaces n slab Hslab). rewrite decide_True in Hplaces by done.
  split; [by apply Hplaces | done].
Qed.

(** Preparing an allocator for allocation leaves the slabs of the other
    zones, and the slabs the summary does not cover, exactly as they were
    and in neither queue. *)
Theorem prepare_leaves_other_zones_alone (a0 a' : block_allocator RC)
    (n : nat) (slab : vdo_slab RC) :
  let a := allocate_components a0 in
  open_slab a0 = None ->
  is_u64 (data_blocks (depot a0)) ->
  vdo_prepare_slabs_for_allocation a = Some a' ->
  get_slab a n = Some slab ->
  allocator slab <> zone_number a \/ (length (summary a) <= n)%nat ->
  get_slab a' n = Some slab /\ unplaced a' n.
Proof.
  intros a Hopen HD Hprep Hslab Hother.
  destruct (vdo_prepare_slabs_for_allocation_places a0 a' Hopen HD Hprep)
    as (_ & Hplaces).
  specialize (Hplaces n slab Hslab). subst a.
  rewrite decide_False in Hplaces; [done |].
  intros [? ?]. destruct Hother; [done | lia].
Qed.

End Preparation.

(** *** On the example depot *)

Lemma example_data_blocks_is_u64 :
  is_u64 (data_blocks
            (depot (Examples.new_allocator 4 VDO_SLAB_DEPOT_NORMAL_LOAD))).
Proof. unfold is_u64. simpl. lia. Qed.

(** The slab with three free blocks out of four has priority 3 in a table
    of five buckets. *)
Lemma calculate_slab_priority_fits_table_witness :
  0 <= calculate_slab_priority Examples.example_allocator Examples.used_slab
    <= 4
  /\ (Z.to_nat
        (calculate_slab_priority Examples.example_allocator
           Examples.used_slab) < 5)%nat.
Proof.
  apply (calculate_slab_priority_fits_table Examples.example_allocator
           Examples.used_slab).
  - repeat split; reflexivity.
  - exact example_data_blocks_is_u64.
  - vm_compute. discriminate.
Defined.

(** Queueing slab 1 in the freshly constructed example allocator. *)
Lemma allocator_keeps_queue_consistent_witness :
  exists a' : block_allocator RefCountsModel.ref_counts,
    vdo_queue_slab Examples.example_allocator 1 = Some a'
    /\ queue_consistent a'.
Proof.
  destruct (allocator_keeps_queue_consistent Examples.example_allocator
              (allocate_components_consistent
                 (Examples.new_allocator 4 VDO_SLAB_DEPOT_NORMAL_LOAD)
                 eq_refl)) as (_ & _ & Hq).
  assert (E : exists a',
            vdo_queue_slab Examples.example_allocator 1 = Some a')
    by (vm_compute; eexists; reflexivity).
  destruct E as [a' E]. exists a'. split; [exact E |].
  eapply Hq; [| discriminate | exact E].
  destruct (allocate_components_prepared
              (Examples.new_allocator 4 VDO_SLAB_DEPOT_NORMAL_LOAD)
              eq_refl example_data_blocks_is_u64) as [_ Hun].
  destruct (Hun 1%nat) as [Hnq _]. exact Hnq.
Defined.

(** The open slab 0 is full, slab 1 is opened and gives block 5. *)
Lemma vdo_allocate_block_counts_the_block_witness :
  exists a' : block_allocator RefCountsModel.ref_counts,
    vdo_allocate_block Examples.running_allocator
    = Some (VDO_SUCCESS, Some 5, a')
    /\ allocated_blocks a'
       = u64 (allocated_blocks Examples.running_allocator + 1).
Proof.
  assert (E : exists a',
            vdo_allocate_block Examples.running_allocator
            = Some (VDO_SUCCESS, Some 5, a'))
    by (vm_compute; eexists; reflexivity).
  destruct E as [a' E]. exists a'. split; [exact E |].
  by destruct (vdo_allocate_block_counts_the_block _ _ _ _ E) as (Ha & _).
Defined.

(** Slabs 0 and 1 of the example depot belong to zone 0. *)
Lemma prepare_places_every_slab_of_the_zone_witness :
  exists a' : block_allocator RefCountsModel.ref_counts,
    vdo_prepare_slabs_for_allocation Examples.example_allocator = Some a'
    /\ placed_once a' 0 /\ placed_once a' 1.
Proof.
  assert (E : exists a',
            vdo_prepare_slabs_for_allocation Examples.example_allocator
            = Some a')
    by (vm_compute; eexists; reflexivity).
  destruct E as [a' E]. exists a'. split; [exact E |]. split.
  - apply (prepare_places_every_slab_of_the_zone
             (Examples.new_allocator 4 VDO_SLAB_DEPOT_NORMAL_LOAD) a' 0
             Examples.full_slab eq_refl example_data_blocks_is_u64 E
             eq_refl eq_refl).
    + simpl. lia.
    + vm_compute. discriminate.
  - apply (prepare_places_every_slab_of_the_zone
             (Examples.new_allocator 4 VDO_SLAB_DEPOT_NORMAL_LOAD) a' 1
             Examples.used_slab eq_refl example_data_blocks_is_u64 E
             eq_refl eq_refl).
    + simpl. lia.
    + vm_compute. discriminate.
Defined.

(** Slab 2 of the example depot belongs to zone 1. *)
Lemma prepare_leaves_other_zones_alone_witness :
  exists a' : block_allocator RefCountsModel.ref_counts,
    vdo_prepare_slabs_for_allocation Examples.example_allocator = Some a'
    /\ get_slab a' 2 = Some Examples.other_zone_slab
    /\ unplaced a' 2.
Proof.
  assert (E : exists a',
            vdo_prepare_slabs_for_allocation Examples.example_allocator
            = Some a')
    by (vm_compute; eexists; reflexivity).
  destruct E as [a' E]. exists a'. split; [exact E |].
  apply (prepare_leaves_other_zones_alone
           (Examples.new_allocator 4 VDO_SLAB_DEPOT_NORMAL_LOAD) a' 2
           Examples.other_zone_slab eq_refl example_data_blocks_is_u64 E
           eq_refl).
  left. discriminate.
Defined.

End AllocatorInvariantsFacts.

(** ** Allocating vios *)

Module AllocatingVioFacts.

Import AllocatingVio.

Section ZoneSearch.

Context {W : Type} `{!PhysicalZones W}.

Lemma allocate_block_in_zone_no_space (fuel : nat) (w w1 : W)
    (vio : allocating_vio) :
  allocate_vdo_block w (zone vio) = (VDO_NO_SPACE, None, w1) ->
  allocate_block_in_zone (S fuel) w vio
  = let '(o, calls) :=
      try_next_zone (allocate_block_in_zone fuel) w1
        (set_attempts vio (wait_for_clean_slab vio)
           (allocation_attempts vio + 1)) in
    (o, Allocate (zone vio) :: calls).
Proof. intros Hw1. simpl. by rewrite Hw1. Qed.

Lemma try_next_zone_searching
    (launch : W -> allocating_vio -> outcome W * list zone_call) (w : W)
    (vio : allocating_vio) :
  wait_for_clean_slab vio = false ->
  allocation_attempts vio < physical_zone_count ->
  try_next_zone launch w vio
  = launch w (set_zone vio (next_zone_number (zone vio))).
Proof.
  intros Hwait Hlt. unfold try_next_zone, should_try_next_zone, has_zones_to_try.
  rewrite Hwait. destruct (Z.ltb_spec (allocation_attempts vio) physical_zone_count); [| lia].
  simpl. by destruct (launch _ _).
Qed.

Lemma try_next_zone_waiting_no_space
    (launch : W -> allocating_vio -> outcome W * list zone_call) (w w1 : W)
    (vio : allocating_vio) :
  wait_for_clean_slab vio = true ->
  enqueue_for_clean_vdo_slab w (zone vio) = (VDO_NO_SPACE, w1) ->
  try_next_zone launch w vio
  = if allocation_attempts vio <? physical_zone_count
    then
      let '(o, rest) :=
        launch w1 (set_zone vio (next_zone_number (zone vio))) in
      (o, EnqueueForCleanSlab (zone vio) :: rest)
    else (Completed VDO_SUCCESS vio w1, [EnqueueForCleanSlab (zone vio)]).
Proof.
  intros Hwait Hw1. unfold try_next_zone, should_try_next_zone, has_zones_to_try.
  rewrite Hwait. simpl. rewrite Hw1. simpl.
  by destruct (allocation_attempts vio <? physical_zone_count).
Qed.

(** Once every zone has been tried, the vio turns to the scrubber of the
    zone it is in. *)
Lemma try_next_zone_all_zones_tried
    (launch : W -> allocating_vio -> outcome W * list zone_call) (w : W)
    (vio : allocating_vio) :
  wait_for_clean_slab vio = false ->
  physical_zone_count <= allocation_attempts vio ->
  try_next_zone launch w vio
  = let vio1 := set_attempts vio true 1 in
    let '(result, w1) := enqueue_for_clean_vdo_slab w (zone vio) in
    let calls := [EnqueueForCleanSlab (zone vio)] in
    if decide (result = VDO_SUCCESS) then (WaitingForCleanSlab vio1 w1, calls)
    else if bool_decide (result <> VDO_NO_SPACE)
            || negb (1 <? physical_zone_count)
    then (Completed (finish_allocation vio1 result) vio1 w1, calls)
    else
      let '(o, rest) :=
        launch w1 (set_zone vio1 (next_zone_number (zone vio))) in
      (o, calls ++ rest).
Proof.
  intros Hwait Hge. unfold try_next_zone, should_try_next_zone, has_zones_to_try.
  rewrite Hwait. destruct (Z.ltb_spec (allocation_attempts vio) physical_zone_count); [lia |].
  simpl. destruct (enqueue_for_clean_vdo_slab w (zone vio)) as [result w1].
  destruct (decide (result = VDO_SUCCESS)); [done |].
  by destruct (bool_decide (result <> VDO_NO_SPACE) || negb (1 <? physical_zone_count)).
Qed.

Lemma search_phase (j : nat) :
  every_zone_out_of_space ->
  forall (fuel : nat) (w : W) (vio : allocating_vio),
    wait_for_clean_slab vio = false ->
    allocation_attempts vio + Z.of_nat (S j) = physical_zone_count ->
    exists w',
      allocate_block_in_zone (S j + fuel) w vio
      = let '(o, calls) :=
          try_next_zone (allocate_block_in_zone fuel) w'
            {| zone := zone_after (zone vio) j;
               allocation := allocation vio;
               allocation_attempts := physical_zone_count;
               wait_for_clean_slab := false;
               allocation_lock := allocation_lock vio |} in
        (o, (Allocate <$> zones_from (zone vio) (S j)) ++ calls).
Proof.
  intros Hfull. induction j as [| j IH]; intros fuel w vio Hwait Hatt;
    destruct (Hfull w (zone vio)) as [w1 Hw1].
  - exists w1. change (1 + fuel)%nat with (S fuel).
    rewrite (allocate_block_in_zone_no_space fuel w w1) by done.
    unfold set_attempts. rewrite Hwait.
    replace (allocation_attempts vio + 1) with physical_zone_count by lia.
    by destruct (try_next_zone _ _ _).
  - change (S (S j) + fuel)%nat with (S (S j + fuel)).
    rewrite (allocate_block_in_zone_no_space _ w w1) by done.
    rewrite try_next_zone_searching by (simpl; (done || lia)).
    match goal with
    | |- context [allocate_block_in_zone _ w1 ?v] => set (vio' := v)
    end.
    destruct (IH fuel w1 vio') as [w' Hw']; [done | subst vio'; simpl; lia |].
    exists w'. rewrite Hw'. subst vio'. simpl.
    by destruct (try_next_zone _ _ _).
Qed.

Lemma wait_phase (j : nat) :
  every_zone_out_of_space ->
  every_scrubber_answers VDO_NO_SPACE ->
  forall (fuel : nat) (w : W) (vio : allocating_vio),
    wait_for_clean_slab vio = true ->
    allocation_attempts vio + Z.of_nat (S j) = physical_zone_count ->
    exists w',
      allocate_block_in_zone (S j + fuel) w vio
      = (Completed VDO_SUCCESS
           {| zone := zone_after (zone vio) j;
              allocation := allocation vio;
              allocation_attempts := physical_zone_count;
              wait_for_clean_slab := true;
              allocation_lock := allocation_lock vio |} w',
         flat_map (fun z => [Allocate z; EnqueueForCleanSlab z])
           (zones_from (zone vio) (S j))).
Proof.
  intros Hfull Hscrub. induction j as [| j IH]; intros fuel w vio Hwait Hatt;
    destruct (Hfull w (zone vio)) as [w1 Hw1];
    destruct (Hscrub w1 (zone vio)) as [w2 Hw2].
  - exists w2. change (1 + fuel)%nat with (S fuel).
    rewrite (allocate_block_in_zone_no_space fuel w w1) by done.
    rewrite (try_next_zone_waiting_no_space _ w1 w2) by done.
    cbn [set_attempts allocation_attempts].
    destruct (Z.ltb_spec (allocation_attempts vio + 1) physical_zone_count);
      [lia |].
    rewrite Hwait.
    by replace (allocation_attempts vio + 1) with physical_zone_count by lia.
  - change (S (S j) + fuel)%nat with (S (S j + fuel)).
    rewrite (allocate_block_in_zone_no_space _ w w1) by done.
    rewrite (try_next_zone_waiting_no_space _ w1 w2) by done.
    cbn [set_attempts allocation_attempts].
    destruct (Z.ltb_spec (allocation_attempts vio + 1) physical_zone_count);
      [| lia].
    match goal with
    | |- context [allocate_block_in_zone _ w2 ?v] => set (vio' := v)
    end.
    destruct (IH fuel w2 vio') as [w' Hw']; [done | subst vio'; simpl; lia |].
    exists w'. rewrite Hw'. subst vio'. by simpl.
Qed.


(** A round over the zones, in the steps of [try_next_zone]. *)
Lemma allocation_round_trip (w : W)
    (vio : allocating_vio) (first_zone : nat) (extra : nat) :
  0 < physical_zone_count ->
  wait_for_clean_slab vio = false ->
  every_zone_out_of_space ->
  let n := Z.to_nat physical_zone_count in
  let last_zone := zone_after first_zone (n - 1) in
  let searched := Allocate <$> zones_from first_zone n in
  (every_scrubber_answers VDO_SUCCESS ->
   exists (w' : W) (vio' : allocating_vio),
     vio_allocate_data_block (n + extra) w vio first_zone
     = (WaitingForCleanSlab vio' w',
        searched ++ [EnqueueForCleanSlab last_zone])
     /\ zone vio' = last_zone
     /\ wait_for_clean_slab vio' = true)
  /\ (every_scrubber_answers VDO_NO_SPACE ->
      exists (w' : W) (vio' : allocating_vio),
        vio_allocate_data_block (n + (n - 1) + extra) w vio first_zone
        = (Completed VDO_SUCCESS vio' w',
           searched ++ [EnqueueForCleanSlab last_zone]
           ++ flat_map (fun z => [Allocate z; EnqueueForCleanSlab z])
                (zones_from (next_zone_number last_zone) (n - 1)))
        /\ allocation vio' = BlockAllocator.VDO_ZERO_BLOCK).
Proof.
  intros Hpos Hwait Hfull n last_zone searched.
  assert (Hn : n = S (n - 1)) by lia.
  unfold vio_allocate_data_block. rewrite Hwait.
  set (vio0 := set_zone _ first_zone).
  assert (Hsearch : forall fuel, exists w',
            allocate_block_in_zone (n + fuel) w vio0
            = let '(o, calls) :=
                try_next_zone (allocate_block_in_zone fuel) w'
                  {| zone := last_zone;
                     allocation := BlockAllocator.VDO_ZERO_BLOCK;
                     allocation_attempts := physical_zone_count;
                     wait_for_clean_slab := false;
                     allocation_lock := allocation_lock vio |} in
              (o, searched ++ calls)).
  { intros fuel. subst searched. rewrite Hn.
    destruct (search_phase (n - 1) Hfull fuel w vio0) as [w' Hw'];
      [done | subst vio0; simpl; lia |].
    exists w'. by rewrite Hw'. }
  split; intros Hscrub.
  - destruct (Hsearch extra) as [w1 ->].
    rewrite try_next_zone_all_zones_tried by (simpl; (done || lia)).
    cbn [zone]. destruct (Hscrub w1 last_zone) as [w2 ->].
    rewrite decide_True by done. by eexists _, _.
  - replace (n + (n - 1) + extra)%nat with (n + (n - 1 + extra))%nat by lia.
    destruct (Hsearch (n - 1 + extra)%nat) as [w1 ->].
    rewrite try_next_zone_all_zones_tried by (simpl; (done || lia)).
    cbn [zone]. destruct (Hscrub w1 last_zone) as [w2 ->].
    rewrite decide_False by done.
    rewrite bool_decide_eq_false_2 by (by intros E; apply E).
    destruct (Z.ltb_spec 1 physical_zone_count) as [Hmany | Hone]; cbn [negb orb].
    + assert (Hn2 : (n - 1 = S (n - 2))%nat) by lia.
      rewrite Hn2.
      match goal with
      | |- context [allocate_block_in_zone _ w2 ?v] => set (vio1 := v)
      end.
      destruct (wait_phase (n - 2) Hfull Hscrub extra w2 vio1) as [w' Hw'];
        [done | subst vio1; simpl; lia |].
      rewrite Hw'. eexists _, _. split; [reflexivity | done].
    + assert (Hn1 : (n - 1 = 0)%nat) by lia. rewrite Hn1.
      eexists _, _. split; [reflexivity | done].
Qed.


Lemma next_zone_number_mod (z : nat) :
  0 < physical_zone_count ->
  next_zone_number z
  = (if decide (z + 1 = Z.to_nat physical_zone_count)%nat then O
     else (z + 1)%nat).
Proof.
  intros Hpos. unfold next_zone_number. cbv zeta.
  destruct (Z.eqb_spec (Z.of_nat (z + 1)) physical_zone_count) as [E | E].
  - rewrite decide_True; [done | lia].
  - rewrite decide_False; [done | lia].
Qed.

Lemma next_zone_number_wraps (z : nat) :
  0 < physical_zone_count ->
  (z < Z.to_nat physical_zone_count)%nat ->
  next_zone_number z = ((z + 1) mod Z.to_nat physical_zone_count)%nat.
Proof.
  intros Hpos Hz. rewrite next_zone_number_mod by done.
  destruct (decide (z + 1 = Z.to_nat physical_zone_count)%nat) as [E | E].
  - rewrite E. by rewrite Nat.Div0.mod_same.
  - rewrite Nat.mod_small; [done | lia].
Qed.

Lemma zones_in_turn_cons (n first k : nat) :
  AllocationLaunches.zones_in_turn n first (S k)
  = (first mod n)%nat
    :: AllocationLaunches.zones_in_turn n ((first + 1) mod n) k.
Proof.
  unfold AllocationLaunches.zones_in_turn. cbn [seq fmap list_fmap].
  rewrite Nat.add_0_r. f_equal. rewrite <- fmap_S_seq, <- list_fmap_compose.
  apply list_fmap_ext. intros _ j _. cbn.
  rewrite Nat.Div0.add_mod_idemp_l. f_equal. lia.
Qed.

Lemma zones_from_in_turn (k : nat) :
  0 < physical_zone_count ->
  forall z : nat,
    (z < Z.to_nat physical_zone_count)%nat ->
    zones_from z k
    = AllocationLaunches.zones_in_turn (Z.to_nat physical_zone_count) z k.
Proof.
  intros Hpos. induction k as [| k IH]; intros z Hz; [done |].
  cbn [zones_from]. rewrite zones_in_turn_cons.
  rewrite (Nat.mod_small z) by done. f_equal.
  rewrite next_zone_number_wraps by done. apply IH.
  apply Nat.mod_upper_bound. lia.
Qed.

Lemma zone_after_wraps (k : nat) :
  0 < physical_zone_count ->
  forall z : nat,
    (z < Z.to_nat physical_zone_count)%nat ->
    zone_after z k = ((z + k) mod Z.to_nat physical_zone_count)%nat.
Proof.
  intros Hpos. induction k as [| k IH]; intros z Hz.
  - cbn. rewrite Nat.add_0_r. by rewrite Nat.mod_small.
  - cbn [zone_after]. rewrite next_zone_number_wraps by done.
    rewrite IH by (apply Nat.mod_upper_bound; lia).
    rewrite Nat.Div0.add_mod_idemp_l. f_equal. lia.
Qed.

Lemma zones_in_turn_covers (n first z : nat) :
  (first < n)%nat -> (z < n)%nat ->
  z ∈ AllocationLaunches.zones_in_turn n first n.
Proof.
  intros Hf Hz. unfold AllocationLaunches.zones_in_turn.
  apply list_elem_of_fmap.
  destruct (decide (first <= z)%nat) as [Hle | Hgt].
  - exists (z - first)%nat. split.
    + replace (first + (z - first))%nat with z by lia.
      by rewrite Nat.mod_small.
    + apply elem_of_seq. lia.
  - exists (z + n - first)%nat. split.
    + replace (first + (z + n - first))%nat with (z + 1 * n)%nat by lia.
      rewrite Nat.Div0.mod_add. by rewrite Nat.mod_small.
    + apply elem_of_seq. lia.
Qed.

(** C6, as amended.  While every zone answers [VDO_NO_SPACE], a vio that
    starts in zone [first_zone] of [n] tries the allocators of the zones
    [first_zone], [first_zone + 1], ... one after the other, zone 0
    following zone [n - 1]: [n] attempts, in which every zone is tried.
    Once all [n] zones have been tried it turns to the scrubber of the zone
    it is in, the last one tried.  If the scrubber takes it as a waiter, the
    vio waits there.  If every scrubber answers [VDO_NO_SPACE], the vio goes
    round the other [n - 1] zones once more, from [first_zone] on, trying
    the allocator and then the scrubber of each, and its completion is then
    continued with [VDO_SUCCESS], not [VDO_NO_SPACE], the allocation still
    being the zero block: [finish_allocation] does not treat no space as an
    error. *)
Theorem allocation_tries_every_zone_then_scrubber (w : W)
    (vio : allocating_vio) (first_zone : nat) (extra : nat) :
  0 < physical_zone_count ->
  Z.of_nat first_zone < physical_zone_count ->
  wait_for_clean_slab vio = false ->
  every_zone_out_of_space ->
  let n := Z.to_nat physical_zone_count in
  let last_zone := ((first_zone + (n - 1)) mod n)%nat in
  let searched :=
    Allocate <$> AllocationLaunches.zones_in_turn n first_zone n in
  length searched = n
  /\ (forall z : nat, (z < n)%nat -> Allocate z ∈ searched)
  /\ (every_scrubber_answers VDO_SUCCESS ->
      exists (w' : W) (vio' : allocating_vio),
        vio_allocate_data_block (n + extra) w vio first_zone
        = (WaitingForCleanSlab vio' w',
           searched ++ [EnqueueForCleanSlab last_zone])
        /\ zone vio' = last_zone
        /\ wait_for_clean_slab vio' = true)
  /\ (every_scrubber_answers VDO_NO_SPACE ->
      exists (w' : W) (vio' : allocating_vio),
        vio_allocate_data_block (n + (n - 1) + extra) w vio first_zone
        = (Completed VDO_SUCCESS vio' w',
           searched ++ [EnqueueForCleanSlab last_zone]
           ++ flat_map (fun z => [Allocate z; EnqueueForCleanSlab z])
                (AllocationLaunches.zones_in_turn n first_zone (n - 1)))
        /\ allocation vio' = BlockAllocator.VDO_ZERO_BLOCK).
Proof.
  intros Hpos Hfirst Hwait Hfull n last_zone searched.
  assert (Hf : (first_zone < n)%nat) by lia.
  assert (Hlast : zone_after first_zone (n - 1) = last_zone)
    by (by apply zone_after_wraps).
  assert (Hsearched : Allocate <$> zones_from first_zone n = searched)
    by (subst searched; by rewrite zones_from_in_turn).
  assert (Hagain : zones_from (next_zone_number last_zone) (n - 1)
                   = AllocationLaunches.zones_in_turn n first_zone (n - 1)).
  { assert (Hnext : next_zone_number last_zone = first_zone).
    { rewrite next_zone_number_wraps
        by (done || (apply Nat.mod_upper_bound; lia)).
      subst last_zone. rewrite Nat.Div0.add_mod_idemp_l.
      replace (first_zone + (n - 1) + 1)%nat with (first_zone + 1 * n)%nat
        by lia.
      rewrite Nat.Div0.mod_add. by rewrite Nat.mod_small. }
    rewrite Hnext. by apply zones_from_in_turn. }
  destruct (allocation_round_trip w vio first_zone extra Hpos Hwait Hfull)
    as [Hwaits Hdone].
  cbv zeta in Hwaits, Hdone. fold n in Hwaits, Hdone.
  rewrite Hlast, Hsearched in Hwaits, Hdone. rewrite Hagain in Hdone.
  split.
  { subst searched. unfold AllocationLaunches.zones_in_turn.
    by rewrite !length_fmap, length_seq. }
  split.
  { intros z Hz. subst searched. apply list_elem_of_fmap.
    exists z. split; [done |]. by apply zones_in_turn_covers. }
  split; [exact Hwaits | exact Hdone].
Qed.

End ZoneSearch.

#[local] Existing Instance Examples.exhausted_zones.

(** Two exhausted zones with nothing to scrub: the completion is continued
    with [VDO_SUCCESS], never with [VDO_NO_SPACE]. *)
Lemma no_space_completes_with_success :
  vio_allocate_data_block 4 tt Examples.fresh_vio 0
  = (Completed VDO_SUCCESS
       {| zone := 0; allocation := 0; allocation_attempts := 2;
          wait_for_clean_slab := true; allocation_lock := None |} tt,
     [Allocate 0; Allocate 1; EnqueueForCleanSlab 1;
      Allocate 0; EnqueueForCleanSlab 0])
  /\ (forall vio' w',
        (vio_allocate_data_block 4 tt Examples.fresh_vio 0).1
        <> Completed VDO_NO_SPACE vio' w').
Proof. split; [reflexivity | intros vio' w'; vm_compute; discriminate]. Qed.

Lemma allocation_tries_every_zone_then_scrubber_witness :
  (Allocate 0%nat ∈ [Allocate 0%nat; Allocate 1%nat]
   /\ Allocate 1%nat ∈ [Allocate 0%nat; Allocate 1%nat])
  /\ exists (w' : unit) (vio' : allocating_vio),
       vio_allocate_data_block 3 tt Examples.fresh_vio 0
       = (Completed VDO_SUCCESS vio' w',
          [Allocate 0; Allocate 1; EnqueueForCleanSlab 1;
           Allocate 0; EnqueueForCleanSlab 0])
       /\ allocation vio' = 0.
Proof.
  assert (Hfull : every_zone_out_of_space (W := unit)).
  { intros w z. by exists w. }
  assert (Hscrub : every_scrubber_answers (W := unit) VDO_NO_SPACE).
  { intros w z. by exists w. }
  destruct (@allocation_tries_every_zone_then_scrubber unit
              Examples.exhausted_zones tt Examples.fresh_vio 0%nat 0%nat
              eq_refl eq_refl eq_refl Hfull) as (_ & Hall & _ & H).
  split.
  - split; [exact (Hall 0%nat ltac:(vm_compute; lia))
           | exact (Hall 1%nat ltac:(vm_compute; lia))].
  - exact (H Hscrub).
Defined.

(** *** How long an allocation takes *)

Import AllocationLaunches.

Section Bounds.

Context {W : Type} `{!PhysicalZones W}.

Lemma finish_allocation_not_no_space (vio : allocating_vio) (r : status) :
  finish_allocation vio r <> VDO_NO_SPACE.
Proof. unfold finish_allocation. by destruct (decide (r = VDO_NO_SPACE)). Qed.

Lemma launch_pair (p : outcome W * list zone_call) (calls : list zone_call) :
  (let '(o, rest) := p in (o, calls ++ rest)) = (p.1, calls ++ p.2).
Proof. by destruct p. Qed.

Lemma try_next_zone_cases
    (launch : W -> allocating_vio -> outcome W * list zone_call) (w : W)
    (vio : allocating_vio) :
  (exists vio1 w1 calls,
     try_next_zone launch w vio
     = ((launch w1 vio1).1, calls ++ (launch w1 vio1).2)
     /\ (allocation_calls calls = 0)%nat
     /\ (S (launches_left vio1)
         <= launches_left
              (set_attempts vio (wait_for_clean_slab vio)
                 (allocation_attempts vio - 1)))%nat)
  \/ (exists vio1 w1 calls,
        try_next_zone launch w vio = (WaitingForCleanSlab vio1 w1, calls)
        /\ (allocation_calls calls = 0)%nat)
  \/ (exists r vio1 w1 calls,
        try_next_zone launch w vio = (Completed r vio1 w1, calls)
        /\ r <> VDO_NO_SPACE
        /\ (allocation_calls calls = 0)%nat).
Proof.
  unfold try_next_zone, should_try_next_zone, has_zones_to_try, launches_left.
  destruct (wait_for_clean_slab vio) eqn:Hwait; cbn [negb andb].
  - destruct (enqueue_for_clean_vdo_slab w (zone vio)) as [result w1].
    destruct (decide (result = VDO_SUCCESS)).
    { right; left. by eexists _, _, _. }
    destruct (bool_decide (result <> VDO_NO_SPACE)) eqn:Hr; cbn [orb].
    { right; right. eexists _, _, _, _. split; [done |].
      split; [apply finish_allocation_not_no_space | done]. }
    destruct (Z.ltb_spec (allocation_attempts vio) physical_zone_count);
      cbn [negb].
    + left. eexists _, _, _. split.
      { apply launch_pair. }
      split; [done |]. cbn. rewrite Hwait. lia.
    + right; right. eexists _, _, _, _. split; [done |].
      split; [apply finish_allocation_not_no_space | done].
  - destruct (Z.ltb_spec (allocation_attempts vio) physical_zone_count).
    + left. eexists _, _, []. split.
      { apply launch_pair. }
      split; [done |]. cbn. rewrite Hwait. lia.
    + cbn [zone set_attempts].
      destruct (enqueue_for_clean_vdo_slab w (zone vio)) as [result w1].
      destruct (decide (result = VDO_SUCCESS)).
      { right; left. by eexists _, _, _. }
      destruct (bool_decide (result <> VDO_NO_SPACE)) eqn:Hr; cbn [orb].
      { right; right. eexists _, _, _, _. split; [done |].
        split; [apply finish_allocation_not_no_space | done]. }
      change (allocation_attempts (set_attempts vio true 1)) with 1.
      destruct (Z.ltb_spec 1 physical_zone_count); cbn [negb].
      * left. eexists _, _, _. split.
        { apply launch_pair. }
        split; [done |]. cbn. lia.
      * right; right. eexists _, _, _, _. split; [done |].
        split; [apply finish_allocation_not_no_space | done].
Qed.

Lemma allocation_calls_app (l k : list zone_call) :
  allocation_calls (l ++ k) = (allocation_calls l + allocation_calls k)%nat.
Proof. induction l as [| [z | z] l IH]; cbn; by rewrite ?IH. Qed.

Lemma allocate_block_in_zone_bounds (fuel : nat) :
  forall (w : W) (vio : allocating_vio),
    (forall vio' w',
       (allocate_block_in_zone fuel w vio).1 <> Completed VDO_NO_SPACE vio' w')
    /\ (allocation_calls (allocate_block_in_zone fuel w vio).2
        <= launches_left vio)%nat
    /\ ((launches_left vio <= fuel)%nat ->
        (allocate_block_in_zone fuel w vio).1 <> StillRunning).
Proof.
  induction fuel as [| fuel IH]; intros w vio.
  { split; [done |]. split; [cbn; lia |].
    unfold launches_left. lia. }
  cbn [allocate_block_in_zone].
  destruct (allocate_vdo_block w _) as [[result pbn] w1].
  destruct (decide (result = VDO_NO_SPACE)) as [-> | Hr].
  - match goal with
    | |- context [try_next_zone _ w1 ?v] => set (vio2 := v)
    end.
    assert (Hleft : launches_left
                      (set_attempts vio2 (wait_for_clean_slab vio2)
                         (allocation_attempts vio2 - 1))
                    = launches_left vio).
    { subst vio2. unfold launches_left. destruct pbn; cbn;
        by replace (allocation_attempts vio + 1 - 1)
             with (allocation_attempts vio) by lia. }
    destruct (try_next_zone_cases (allocate_block_in_zone fuel) w1 vio2)
      as [(vio3 & w2 & calls & -> & Hc & Hm)
         | [(vio3 & w2 & calls & -> & Hc)
           | (r & vio3 & w2 & calls & -> & Hne & Hc)]];
      cbn [fst snd].
    + destruct (IH w2 vio3) as (Hns & Hcalls & Hrun).
      rewrite Hleft in Hm.
      split; [done |]. split.
      * change (allocation_calls (Allocate ?z :: ?l))
          with (S (allocation_calls l)).
        rewrite allocation_calls_app, Hc. lia.
      * intros Hfuel. apply Hrun. lia.
    + split; [done |]. split; [| done].
      change (allocation_calls (Allocate ?z :: ?l))
        with (S (allocation_calls l)).
      rewrite Hc. unfold launches_left. lia.
    + split; [intros vio' w' E; injection E as E _ _; by apply Hne |].
      split; [| done].
      change (allocation_calls (Allocate ?z :: ?l))
        with (S (allocation_calls l)).
      rewrite Hc. unfold launches_left. lia.
  - destruct (if decide (result = VDO_SUCCESS) then _ else _)
      as [[result' vio3] w2].
    cbn [fst snd]. split.
    { intros vio' w' E. injection E as E _ _.
      by apply (finish_allocation_not_no_space vio3 result'). }
    split; [| done]. cbn. unfold launches_left. lia.
Qed.

(** More launches than an allocation needs change nothing. *)
Lemma allocate_block_in_zone_fuel (fuel : nat) :
  forall (extra : nat) (w : W) (vio : allocating_vio),
    (allocate_block_in_zone fuel w vio).1 <> StillRunning ->
    allocate_block_in_zone (fuel + extra) w vio
    = allocate_block_in_zone fuel w vio.
Proof.
  induction fuel as [| fuel IH]; intros extra w vio; [done |].
  change (S fuel + extra)%nat with (S (fuel + extra)).
  cbn [allocate_block_in_zone].
  destruct (allocate_vdo_block w _) as [[result pbn] w1].
  destruct (decide (result = VDO_NO_SPACE)); [| done].
  unfold try_next_zone.
  destruct (should_try_next_zone w1 _) as [[[[| | r] vio1] w2] calls];
    [| done | done].
  intros Hrun. rewrite IH; [done |].
  intros E. apply Hrun.
  destruct (allocate_block_in_zone fuel w2 _) as [o rest].
  cbn in E. by subst o.
Qed.

(** An allocation is settled after at most [2 n - 1] launches of
    [allocate_block_in_zone], [n] being the number of physical zones: the
    vio has then completed or waits on a scrubber, whatever the zones
    answer, further launches change nothing, the allocators have been
    asked at most [2 n - 1] times, and the completion is never continued
    with [VDO_NO_SPACE]. *)
Theorem allocation_settles_within_two_rounds (w : W) (vio : allocating_vio)
    (first_zone : nat) (extra : nat) :
  let bound := Z.to_nat (2 * Z.max 1 physical_zone_count - 1) in
  let run := vio_allocate_data_block bound w vio first_zone in
  run.1 <> StillRunning
  /\ (forall vio' w', run.1 <> Completed VDO_NO_SPACE vio' w')
  /\ (allocation_calls run.2 <= bound)%nat
  /\ vio_allocate_data_block (bound + extra) w vio first_zone = run.
Proof.
  intros bound run. subst run. unfold vio_allocate_data_block.
  match goal with
  | |- context [allocate_block_in_zone _ w ?v] => set (vio0 := v)
  end.
  assert (Hleft : (launches_left vio0 <= bound)%nat).
  { subst vio0 bound. unfold launches_left. cbn.
    destruct (wait_for_clean_slab vio); lia. }
  destruct (allocate_block_in_zone_bounds bound w vio0) as (Hns & Hc & Hrun).
  split; [by apply Hrun |]. split; [done |]. split; [lia |].
  apply allocate_block_in_zone_fuel. by apply Hrun.
Qed.

End Bounds.


(** *** The zone an allocation comes from *)

Section FirstFit.

Context {W : Type} `{!PhysicalZones W}.

Lemma search_until_space (k : nat) :
  forall (fuel : nat) (w : W) (vio : allocating_vio) (pbn : Z),
    wait_for_clean_slab vio = false ->
    allocation_attempts vio + Z.of_nat k < physical_zone_count ->
    (forall (w : W) (z : nat),
       z ∈ zones_from (zone vio) k ->
       exists w', allocate_vdo_block w z = (VDO_NO_SPACE, None, w')) ->
    (forall w : W,
       exists w',
         allocate_vdo_block w (zone_after (zone vio) k)
         = (VDO_SUCCESS, Some pbn, w')) ->
    exists w1 : W,
      allocate_block_in_zone (S k + fuel) w vio
      = let '(result, vio2, w2) :=
          attempt_pbn_write_lock w1
            {| zone := zone_after (zone vio) k;
               allocation := pbn;
               allocation_attempts := allocation_attempts vio + Z.of_nat (S k);
               wait_for_clean_slab := false;
               allocation_lock := allocation_lock vio |} in
        (Completed (finish_allocation vio2 result) vio2 w2,
         Allocate <$> zones_from (zone vio) (S k)).
Proof.
  induction k as [| k IH]; intros fuel w vio pbn Hwait Hatt Hfull Hspace.
  - destruct (Hspace w) as [w1 Hw1]. exists w1.
    cbn [zone_after] in Hw1 |- *.
    change (1 + fuel)%nat with (S fuel). cbn [allocate_block_in_zone].
    cbn [zone set_attempts]. rewrite Hw1.
    rewrite decide_False by done. rewrite decide_True by done.
    unfold set_allocation. cbn. rewrite Hwait.
    by destruct (attempt_pbn_write_lock _ _) as [[result vio2] w2].
  - destruct (Hfull w (zone vio)) as [w1 Hw1]; [cbn; left |].
    change (S (S k) + fuel)%nat with (S (S k + fuel)).
    rewrite (allocate_block_in_zone_no_space _ w w1)
      by done.
    rewrite try_next_zone_searching
      by (simpl; (done || lia)).
    match goal with
    | |- context [allocate_block_in_zone _ w1 ?v] => set (vio' := v)
    end.
    destruct (IH fuel w1 vio' pbn) as [w' Hw'].
    + done.
    + subst vio'. cbn. lia.
    + intros w0 z Hz. apply Hfull. cbn. by right.
    + exact Hspace.
    + exists w'. rewrite Hw'. subst vio'.
      cbn [zone set_zone set_attempts allocation allocation_attempts
           allocation_lock zone_after].
      replace (allocation_attempts vio + 1 + Z.of_nat (S k))
        with (allocation_attempts vio + Z.of_nat (S (S k))) by lia.
      clear Hw'.
      by destruct (attempt_pbn_write_lock _ _) as [[result vio2] w2].
Qed.

(** A vio takes its block from the first zone, in the order it visits
    them, whose allocator has one: the zones before it are asked once each
    and no scrubber is.  The write lock is then attempted on that block.
    If the lock comes back free, the vio holds it with a provisional
    reference and completes with [VDO_SUCCESS]; if it is already held the
    vio completes with [VDO_LOCK_ERROR], and in every failure it keeps the
    block number without a lock for it. *)
Theorem allocation_takes_first_zone_with_space (w : W)
    (vio : allocating_vio) (first_zone : nat) (k : nat) (pbn : Z)
    (extra : nat) :
  wait_for_clean_slab vio = false ->
  Z.of_nat k < physical_zone_count ->
  (forall (w : W) (z : nat),
     z ∈ zones_from first_zone k ->
     exists w', allocate_vdo_block w z = (VDO_NO_SPACE, None, w')) ->
  (forall w : W,
     exists w',
       allocate_vdo_block w (zone_after first_zone k)
       = (VDO_SUCCESS, Some pbn, w')) ->
  exists (w1 w2 : W) (result : status) (lock : pbn_lock)
         (vio' : allocating_vio),
    attempt_vdo_physical_zone_pbn_lock w1 (zone_after first_zone k) pbn
    = (result, lock, w2)
    /\ vio_allocate_data_block (S k + extra) w vio first_zone
       = (Completed
            (if decide (result <> VDO_SUCCESS)
             then finish_allocation vio' result
             else if 0 <? holder_count lock then VDO_LOCK_ERROR
                  else VDO_SUCCESS)
            vio' w2,
          Allocate <$> zones_from first_zone (S k))
    /\ zone vio' = zone_after first_zone k
    /\ allocation vio' = pbn
    /\ allocation_lock vio'
       = (if decide (result <> VDO_SUCCESS) then allocation_lock vio
          else if 0 <? holder_count lock then allocation_lock vio
               else Some {| holder_count := holder_count lock + 1;
                            has_provisional_reference := true |}).
Proof.
  intros Hwait Hk Hfull Hspace. unfold vio_allocate_data_block.
  match goal with
  | |- context [allocate_block_in_zone _ w ?v] => set (vio0 := v)
  end.
  destruct (search_until_space k extra w vio0 pbn) as [w1 Hrun];
    [by subst vio0 | subst vio0; cbn; lia | done | done |].
  rewrite Hrun. subst vio0. cbn [zone set_zone allocation_lock set_allocation
    set_attempts allocation_attempts].
  unfold attempt_pbn_write_lock. cbn [zone allocation].
  destruct (attempt_vdo_physical_zone_pbn_lock w1 _ pbn)
    as [[result lock] w2] eqn:Hlock.
  exists w1, w2, result, lock.
  destruct (decide (result <> VDO_SUCCESS)).
  - eexists. split; [exact Hlock |]. split; [reflexivity |]. done.
  - destruct (0 <? holder_count lock).
    + eexists. split; [exact Hlock |]. split; [reflexivity |]. done.
    + eexists. split; [exact Hlock |]. split; [reflexivity |]. done.
Qed.

End FirstFit.

Lemma allocation_takes_first_zone_with_space_witness :
  exists (w1 w2 : unit) (result : status) (lock : pbn_lock)
         (vio' : allocating_vio),
    @attempt_vdo_physical_zone_pbn_lock unit
      ZoneExamples.second_zone_has_space w1 1%nat 4096 = (result, lock, w2)
    /\ @vio_allocate_data_block unit ZoneExamples.second_zone_has_space
         2 tt Examples.fresh_vio 0
       = (Completed
            (if decide (result <> VDO_SUCCESS)
             then finish_allocation vio' result
             else if 0 <? holder_count lock then VDO_LOCK_ERROR
                  else VDO_SUCCESS)
            vio' w2,
          [Allocate 0%nat; Allocate 1%nat])
    /\ zone vio' = 1%nat
    /\ allocation vio' = 4096
    /\ allocation_lock vio'
       = (if decide (result <> VDO_SUCCESS) then None
          else if 0 <? holder_count lock then None
               else Some {| holder_count := holder_count lock + 1;
                            has_provisional_reference := true |}).
Proof.
  refine (@allocation_takes_first_zone_with_space unit ZoneExamples.second_zone_has_space
            tt Examples.fresh_vio 0%nat 1%nat 4096 0%nat eq_refl eq_refl _ _).
  - intros w z Hz. exists w. cbn in Hz.
    apply list_elem_of_singleton in Hz. by subst z.
  - intros w. by exists w.
Defined.

End AllocatingVioFacts.

(** ** The index configuration block *)

Module ConfigFacts.

Import Config.
Import coqutil.Byte coqutil.Word.LittleEndianList.

Lemma are_matching_configurations_spec (saved : uds_configuration_8_02)
    (user : configuration) :
  are_matching_configurations saved user = true <-> fields_match saved user.
Proof.
  unfold are_matching_configurations, fields_match.
  repeat match goal with
  | |- context [?x =? ?y] => destruct (Z.eqb_spec x y)
  end; simpl; split; intros H; try done; try tauto; intuition congruence.
Qed.

Lemma fails_with_error_bind {A B : Type} (m : buffered A)
    (f : A -> buffered B) :
  fails_with_error m -> (forall x, fails_with_error (f x)) ->
  fails_with_error (m ≫= f).
Proof.
  intros Hm Hf b e. unfold mbind, buffered_bind.
  destruct (m b) as [e' | [x b']] eqn:E.
  - intros [= <-]. by eapply Hm.
  - apply Hf.
Qed.

Lemma fails_with_error_ret {A : Type} (x : A) :
  fails_with_error (mret x : buffered A).
Proof. by intros b e. Qed.

Lemma fails_with_error_get_bytes (n : nat) : fails_with_error (get_bytes n).
Proof.
  intros b e. unfold get_bytes. by destruct (_ <? _)%nat; intros [= <-].
Qed.

Lemma fails_with_error_assert (cond : buffer -> bool) (e : status) :
  e <> UDS_SUCCESS -> fails_with_error (assert_log_only cond e).
Proof.
  intros He b e'. unfold assert_log_only. by destruct (cond b); intros [= <-].
Qed.

Ltac fails_with_error :=
  repeat first
    [ apply fails_with_error_bind; [| intros ?]
    | apply fails_with_error_ret
    | apply fails_with_error_get_bytes
    | apply fails_with_error_assert; discriminate ].

Lemma decode_index_config_06_02_fails_with_error :
  fails_with_error decode_index_config_06_02.
Proof.
  unfold decode_index_config_06_02, get_uint32_le_from_buffer,
    get_uint64_le_from_buffer, skip_forward.
  fails_with_error.
Qed.

Lemma decode_index_config_08_02_fails_with_error :
  fails_with_error decode_index_config_08_02.
Proof.
  unfold decode_index_config_08_02, get_uint32_le_from_buffer,
    get_uint64_le_from_buffer, skip_forward.
  fails_with_error.
Qed.

Lemma read_and_decode_error (reader reader' : list byte) (size : nat)
    (decode : buffered uds_configuration_8_02) (e : status) :
  fails_with_error decode ->
  read_and_decode reader size decode = (inl e, reader') ->
  e <> UDS_SUCCESS.
Proof.
  intros Hd. unfold read_and_decode, read_from_buffered_reader.
  destruct (_ <? _)%nat; [by intros [= <- _] |].
  destruct (decode _) as [e' | [conf b]] eqn:E; [| done].
  intros [= <- _]. by eapply Hd.
Qed.

Lemma read_version_error (reader reader' : list byte) (e : status) :
  read_version reader = (inl e, reader') -> e <> UDS_SUCCESS.
Proof.
  unfold read_version, read_from_buffered_reader.
  destruct (_ <? _)%nat; [by intros [= <- _] |].
  destruct (bytes_eqb _ _).
  { apply read_and_decode_error, decode_index_config_06_02_fails_with_error. }
  destruct (bytes_eqb _ _).
  { apply read_and_decode_error, decode_index_config_08_02_fails_with_error. }
  by intros [= <- _].
Qed.

Lemma verify_magic (rest : list byte) :
  verify_buffered_data (INDEX_CONFIG_MAGIC ++ rest) INDEX_CONFIG_MAGIC
  = inr rest.
Proof. reflexivity. Qed.

(** C9.  Reading a saved configuration.  After the magic, a version string
    that is neither "06.02" nor "08.02" gives [UDS_CORRUPT_COMPONENT].  When
    the version parses into a saved configuration, any field that disagrees
    with the supplied configuration (record pages, chapters, sparse
    chapters, cache chapters, mean delta, bytes per page, sample rate,
    nonce) gives [UDS_NO_INDEX] and leaves the supplied configuration as it
    was; when all agree the result is success and the saved remapping is
    installed in the geometry.  Success is returned in no other case. *)
Theorem validate_config_contents_results (config : configuration) :
  (forall version rest : list byte,
     length version = INDEX_CONFIG_VERSION_LENGTH ->
     version <> INDEX_CONFIG_VERSION_6_02 ->
     version <> INDEX_CONFIG_VERSION_8_02 ->
     validate_config_contents (INDEX_CONFIG_MAGIC ++ version ++ rest) config
     = (UDS_CORRUPT_COMPONENT, config, rest))
  /\ (forall (reader reader1 reader2 : list byte)
        (saved : uds_configuration_8_02),
        verify_buffered_data reader INDEX_CONFIG_MAGIC = inr reader1 ->
        read_version reader1 = (inr saved, reader2) ->
        (~ fields_match saved config ->
         validate_config_contents reader config
         = (UDS_NO_INDEX, config, reader2))
        /\ (fields_match saved config ->
            validate_config_contents reader config
            = (UDS_SUCCESS,
               set_remapping config (saved_remapped_virtual saved)
                 (saved_remapped_physical saved),
               reader2)))
  /\ (forall (reader reader2 : list byte) (config' : configuration),
        validate_config_contents reader config
        = (UDS_SUCCESS, config', reader2) ->
        exists (reader1 : list byte) (saved : uds_configuration_8_02),
          verify_buffered_data reader INDEX_CONFIG_MAGIC = inr reader1
          /\ read_version reader1 = (inr saved, reader2)
          /\ fields_match saved config
          /\ remapped_virtual (config_geometry config')
             = saved_remapped_virtual saved
          /\ remapped_physical (config_geometry config')
             = saved_remapped_physical saved).
Proof.
  split; [| split].
  - intros version rest Hlen Hv6 Hv8.
    unfold validate_config_contents. rewrite verify_magic.
    unfold read_version, read_from_buffered_reader.
    rewrite length_app, Hlen.
    destruct (Nat.ltb_spec (INDEX_CONFIG_VERSION_LENGTH + length rest)
                INDEX_CONFIG_VERSION_LENGTH); [lia |].
    rewrite <- Hlen, take_app_length, drop_app_length.
    unfold bytes_eqb.
    rewrite !bool_decide_eq_false_2 by congruence. done.
  - intros reader reader1 reader2 saved Hmagic Hread.
    unfold validate_config_contents. rewrite Hmagic, Hread.
    split; intros Hm.
    + rewrite <- are_matching_configurations_spec in Hm.
      by destruct (are_matching_configurations saved config).
    + rewrite <- are_matching_configurations_spec in Hm. by rewrite Hm.
  - intros reader reader2 config'. unfold validate_config_contents.
    destruct (verify_buffered_data reader INDEX_CONFIG_MAGIC)
      as [e | reader1] eqn:Hmagic.
    { intros [= -> _ _]. revert Hmagic.
      unfold verify_buffered_data, read_from_buffered_reader.
      destruct (_ <? _)%nat; [done |]. by destruct (bytes_eqb _ _). }
    destruct (read_version reader1) as [[e | saved] r2] eqn:Hread.
    { intros [= -> _ _]. by apply read_version_error in Hread. }
    destruct (are_matching_configurations saved config) eqn:Hm; [| done].
    simpl. intros [= <- <-]. exists reader1, saved.
    by rewrite <- are_matching_configurations_spec.
Qed.

Lemma le_combine_4 (x : Z) (b0 b1 b2 b3 : byte) :
  [b0; b1; b2; b3] = le_split 4 x ->
  le_combine [b0; b1; b2; b3] = x mod 2 ^ 32.
Proof. intros ->. apply (le_combine_split 4). Qed.

Lemma le_combine_8 (x : Z) (b0 b1 b2 b3 b4 b5 b6 b7 : byte) :
  [b0; b1; b2; b3; b4; b5; b6; b7] = le_split 8 x ->
  le_combine [b0; b1; b2; b3; b4; b5; b6; b7] = x mod 2 ^ 64.
Proof. intros ->. apply (le_combine_split 8). Qed.

Lemma encode_index_config_06_02_payload (config : configuration) :
  encode_index_config_06_02 config (make_buffer sizeof_uds_configuration_6_02)
  = inr (tt, {| buf_data := payload_06_02 config; buf_start := 0;
                buf_end := 40 |}).
Proof. cbv -[byte.of_Z Z.shiftr]. reflexivity. Qed.

Lemma encode_index_config_08_02_payload (config : configuration) :
  encode_index_config_08_02 config (make_buffer sizeof_uds_configuration_8_02)
  = inr (tt, {| buf_data := payload_08_02 config; buf_start := 0;
                buf_end := 56 |}).
Proof. cbv -[byte.of_Z Z.shiftr]. reflexivity. Qed.

Lemma payload_06_02_length (config : configuration) :
  length (payload_06_02 config) = 40%nat.
Proof. reflexivity. Qed.

Lemma payload_08_02_length (config : configuration) :
  length (payload_08_02 config) = 56%nat.
Proof. reflexivity. Qed.

Lemma write_config_contents_bytes (writer : list byte)
    (config : configuration) (version : Z) :
  write_config_contents writer config version
  = (UDS_SUCCESS,
     writer ++ INDEX_CONFIG_MAGIC
     ++ (if version <? 4
         then INDEX_CONFIG_VERSION_6_02 ++ payload_06_02 config
         else INDEX_CONFIG_VERSION_8_02 ++ payload_08_02 config)).
Proof.
  unfold write_config_contents, write_to_buffered_writer.
  destruct (version <? 4).
  - rewrite encode_index_config_06_02_payload.
    unfold content_length, get_buffer_contents. cbn [buf_end buf_start buf_data].
    rewrite drop_0, (take_ge (payload_06_02 config)) by (rewrite payload_06_02_length; lia).
    by rewrite <- !app_assoc.
  - rewrite encode_index_config_08_02_payload.
    unfold content_length, get_buffer_contents. cbn [buf_end buf_start buf_data].
    rewrite drop_0, (take_ge (payload_08_02 config)) by (rewrite payload_08_02_length; lia).
    by rewrite <- !app_assoc.
Qed.

Lemma decode_index_config_06_02_payload (config : configuration) :
  well_typed_configuration config ->
  is_u32 (bytes_per_page (config_geometry config)) ->
  decode_index_config_06_02
    {| buf_data := payload_06_02 config; buf_start := 0; buf_end := 40 |}
  = inr (saved_form config 0 0,
         {| buf_data := payload_06_02 config; buf_start := 40;
            buf_end := 40 |}).
Proof.
  intros (_ & H1 & H2 & H3 & _ & _ & H4 & H5 & H6 & H7) H8.
  cbv -[byte.of_Z Z.shiftr le_combine Z.pow].
  rewrite !(le_combine_4 _ _ _ _ _ eq_refl), !(le_combine_8 _ _ _ _ _ _ _ _ _ eq_refl).
  unfold is_u32, is_u64 in *.
  rewrite !Z.mod_small by done. reflexivity.
Qed.

Lemma decode_index_config_08_02_payload (config : configuration) :
  well_typed_configuration config ->
  is_u32 (bytes_per_page (config_geometry config)) ->
  decode_index_config_08_02
    {| buf_data := payload_08_02 config; buf_start := 0; buf_end := 56 |}
  = inr (saved_form config (remapped_virtual (config_geometry config))
           (remapped_physical (config_geometry config)),
         {| buf_data := payload_08_02 config; buf_start := 56;
            buf_end := 56 |}).
Proof.
  intros (_ & H1 & H2 & H3 & H9 & H10 & H4 & H5 & H6 & H7) H8.
  cbv -[byte.of_Z Z.shiftr le_combine Z.pow].
  rewrite !(le_combine_4 _ _ _ _ _ eq_refl), !(le_combine_8 _ _ _ _ _ _ _ _ _ eq_refl).
  unfold is_u32, is_u64 in *.
  rewrite !Z.mod_small by done. reflexivity.
Qed.

Lemma read_from_buffered_reader_app (bs rest : list byte) (n : nat) :
  length bs = n ->
  read_from_buffered_reader (bs ++ rest) n = inr (bs, rest).
Proof.
  intros <-. unfold read_from_buffered_reader.
  rewrite length_app.
  destruct (Nat.ltb_spec (length bs + length rest) (length bs)); [lia |].
  by rewrite take_app_length, drop_app_length.
Qed.

Lemma read_and_decode_payload (payload rest : list byte) (size : nat)
    (decode : buffered uds_configuration_8_02)
    (saved : uds_configuration_8_02) (b : buffer) :
  length payload = size ->
  decode {| buf_data := payload; buf_start := 0; buf_end := size |}
  = inr (saved, b) ->
  read_and_decode (payload ++ rest) size decode = (inr saved, rest).
Proof.
  intros Hlen Hdecode. unfold read_and_decode.
  replace (buffer_length (make_buffer size)) with size
    by (unfold buffer_length, make_buffer; simpl; by rewrite length_replicate).
  rewrite read_from_buffered_reader_app by done.
  unfold clear_buffer, buffer_length. cbn [buf_data]. by rewrite Hlen, Hdecode.
Qed.

Lemma read_version_06_02 (config : configuration) (rest : list byte) :
  well_typed_configuration config ->
  is_u32 (bytes_per_page (config_geometry config)) ->
  read_version (INDEX_CONFIG_VERSION_6_02 ++ payload_06_02 config ++ rest)
  = (inr (saved_form config 0 0), rest).
Proof.
  intros Hwt Hpage. unfold read_version.
  rewrite read_from_buffered_reader_app by done.
  change (bytes_eqb INDEX_CONFIG_VERSION_6_02 INDEX_CONFIG_VERSION_6_02)
    with true. cbv iota.
  eapply read_and_decode_payload; [done |].
  by apply decode_index_config_06_02_payload.
Qed.

Lemma read_version_08_02 (config : configuration) (rest : list byte) :
  well_typed_configuration config ->
  is_u32 (bytes_per_page (config_geometry config)) ->
  read_version (INDEX_CONFIG_VERSION_8_02 ++ payload_08_02 config ++ rest)
  = (inr (saved_form config (remapped_virtual (config_geometry config))
            (remapped_physical (config_geometry config))), rest).
Proof.
  intros Hwt Hpage. unfold read_version.
  rewrite read_from_buffered_reader_app by done.
  change (bytes_eqb INDEX_CONFIG_VERSION_6_02 INDEX_CONFIG_VERSION_8_02)
    with false.
  change (bytes_eqb INDEX_CONFIG_VERSION_8_02 INDEX_CONFIG_VERSION_8_02)
    with true. cbv iota.
  eapply read_and_decode_payload; [done |].
  by apply decode_index_config_08_02_payload.
Qed.

Lemma saved_form_matches (config : configuration) (virtual physical : Z) :
  are_matching_configurations (saved_form config virtual physical) config
  = true.
Proof.
  unfold are_matching_configurations, saved_form. simpl.
  by rewrite !Z.eqb_refl.
Qed.

(** C8.  For a configuration whose fields hold values of their C types,
    [bytes_per_page] being within the 32 bits the configuration block gives
    it ([u32 bytes_per_page] in the layout; [make_configuration], the one
    place a configuration is made, passes [DEFAULT_BYTES_PER_PAGE]):
    written with a version below 4, the block carries the 06.02 format and
    reads back with both remap fields 0; written with version 4 or more, it
    carries the 08.02 format and reads back with both remap fields as they
    were; in both cases every other field reads back with the value
    written, and validation against the configuration written succeeds. *)
Theorem configuration_round_trip (config : configuration) (version : Z) :
  well_typed_configuration config ->
  is_u32 (bytes_per_page (config_geometry config)) ->
  let written := (write_config_contents [] config version).2 in
  (write_config_contents [] config version).1 = UDS_SUCCESS
  /\ (version < 4 ->
      written
      = INDEX_CONFIG_MAGIC ++ INDEX_CONFIG_VERSION_6_02
        ++ payload_06_02 config
      /\ read_version (drop INDEX_CONFIG_MAGIC_LENGTH written)
         = (inr (saved_form config 0 0), [])
      /\ validate_config_contents written config
         = (UDS_SUCCESS, set_remapping config 0 0, []))
  /\ (4 <= version ->
      written
      = INDEX_CONFIG_MAGIC ++ INDEX_CONFIG_VERSION_8_02
        ++ payload_08_02 config
      /\ read_version (drop INDEX_CONFIG_MAGIC_LENGTH written)
         = (inr (saved_form config
                   (remapped_virtual (config_geometry config))
                   (remapped_physical (config_geometry config))), [])
      /\ validate_config_contents written config
         = (UDS_SUCCESS, config, [])).
Proof.
  intros Hwt Hpage written. subst written.
  rewrite write_config_contents_bytes. cbn [fst snd]. rewrite app_nil_l.
  split; [done |]. split; intros Hv.
  - destruct (Z.ltb_spec version 4); [| lia].
    split; [done |].
    change (drop INDEX_CONFIG_MAGIC_LENGTH (INDEX_CONFIG_MAGIC ++ ?l)) with l.
    rewrite <- (app_nil_r (payload_06_02 config)).
    rewrite read_version_06_02 by done. split; [done |].
    unfold validate_config_contents. rewrite verify_magic.
    rewrite read_version_06_02 by done. by rewrite saved_form_matches.
  - destruct (Z.ltb_spec version 4); [lia |].
    split; [done |].
    change (drop INDEX_CONFIG_MAGIC_LENGTH (INDEX_CONFIG_MAGIC ++ ?l)) with l.
    rewrite <- (app_nil_r (payload_08_02 config)).
    rewrite read_version_08_02 by done. split; [done |].
    unfold validate_config_contents. rewrite verify_magic.
    rewrite read_version_08_02 by done. rewrite saved_form_matches.
    by destruct config as [[] ? ? ? ?].
Qed.

(** The configuration of scenario E4, written as version 3 and as
    version 4. *)
Lemma configuration_round_trip_witness :
  validate_config_contents
    (write_config_contents [] Examples.example_configuration 3).2
    Examples.example_configuration
  = (UDS_SUCCESS, set_remapping Examples.example_configuration 0 0, [])
  /\ read_version
       (drop INDEX_CONFIG_MAGIC_LENGTH
          (write_config_contents [] Examples.example_configuration 4).2)
     = (inr (saved_form Examples.example_configuration 57005 48879), []).
Proof.
  assert (Hwt : well_typed_configuration Examples.example_configuration).
  { unfold well_typed_configuration, is_size_t, is_u32, is_u64. simpl. lia. }
  assert (Hpage : is_u32 (bytes_per_page
                            (config_geometry Examples.example_configuration))).
  { unfold is_u32. simpl. lia. }
  split.
  - destruct (configuration_round_trip Examples.example_configuration 3
                Hwt Hpage) as (_ & Hold & _).
    destruct Hold as (_ & _ & Hvalid); [lia | exact Hvalid].
  - destruct (configuration_round_trip Examples.example_configuration 4
                Hwt Hpage) as (_ & _ & Hnew).
    destruct Hnew as (_ & Hread & _); [lia | exact Hread].
Defined.

(** An unknown version after the magic; the example configuration read
    back against itself, and against a configuration with another
    nonce. *)
Lemma validate_config_contents_results_witness :
  validate_config_contents
    (INDEX_CONFIG_MAGIC ++ list_byte_of_string "07.00" ++ [])
    Examples.example_configuration
  = (UDS_CORRUPT_COMPONENT, Examples.example_configuration, [])
  /\ (validate_config_contents
        (write_config_contents [] Examples.example_configuration 4).2
        Examples.example_configuration).1.1 = UDS_SUCCESS
  /\ (validate_config_contents
        (write_config_contents [] Examples.example_configuration 4).2
        Examples.oversized_page_configuration).1.1 = UDS_NO_INDEX.
Proof.
  split; [| split].
  - apply (validate_config_contents_results Examples.example_configuration);
      [reflexivity | discriminate | discriminate].
  - destruct (validate_config_contents_results
                Examples.example_configuration) as (_ & Hread & _).
    destruct (Hread (write_config_contents [] Examples.example_configuration
                       4).2
                _ [] (saved_form Examples.example_configuration 57005 48879)
                eq_refl) as [_ Hmatch].
    { vm_compute. reflexivity. }
    rewrite Hmatch; [reflexivity |]. by repeat split.
  - destruct (validate_config_contents_results
                Examples.oversized_page_configuration) as (_ & Hread & _).
    destruct (Hread (write_config_contents [] Examples.example_configuration
                       4).2
                _ [] (saved_form Examples.example_configuration 57005 48879)
                eq_refl) as [Hdiffer _].
    { vm_compute. reflexivity. }
    rewrite Hdiffer; [reflexivity |].
    intros (H & _). discriminate H.
Defined.

(** *** The sizes the decoders and encoders need *)

Import BufferUse.

Lemma reads_get_bytes (n : nat) :
  reads n (fun bs => (length bs <= n)%nat) (get_bytes n).
Proof.
  intros b. unfold get_bytes.
  destruct (Nat.ltb_spec (content_length b) n); split; try lia; try done.
  intros _. eexists _, _. split; [done |]. split.
  { rewrite length_take. lia. }
  unfold content_length. cbn. split; [lia | done].
Qed.

Lemma reads_bind_ret {A B : Type} (n : nat) (P : A -> Prop) (Q : B -> Prop)
    (m : buffered A) (g : A -> B) :
  reads n P m -> (forall x, P x -> Q (g x)) ->
  reads n Q (x ← m; mret (g x)).
Proof.
  intros Hm Hg b. destruct (Hm b) as [Hshort Hlong].
  unfold mbind, buffered_bind. split.
  - intros H. by rewrite Hshort.
  - intros H. destruct (Hlong H) as (x & b' & -> & HP & Hlen & Hdata).
    exists (g x), b'. repeat split; auto.
Qed.

Lemma le_combine_is_u32 (bs : list byte) :
  (length bs <= 4)%nat -> is_u32 (le_combine bs).
Proof.
  intros H. pose proof (le_combine_bound bs) as Hb. unfold is_u32.
  assert (2 ^ (8 * Z.of_nat (length bs)) <= 2 ^ 32)
    by (apply Z.pow_le_mono_r; lia).
  lia.
Qed.

Lemma le_combine_is_u64 (bs : list byte) :
  (length bs <= 8)%nat -> is_u64 (le_combine bs).
Proof.
  intros H. pose proof (le_combine_bound bs) as Hb. unfold is_u64.
  assert (2 ^ (8 * Z.of_nat (length bs)) <= 2 ^ 64)
    by (apply Z.pow_le_mono_r; lia).
  lia.
Qed.

Lemma reads_uint32 : reads 4 is_u32 get_uint32_le_from_buffer.
Proof.
  eapply reads_bind_ret; [apply reads_get_bytes |].
  apply le_combine_is_u32.
Qed.

Lemma reads_uint64 : reads 8 is_u64 get_uint64_le_from_buffer.
Proof.
  eapply reads_bind_ret; [apply reads_get_bytes |].
  apply le_combine_is_u64.
Qed.

Lemma reads_skip_forward (n : nat) :
  reads n (fun _ => True) (skip_forward n).
Proof. eapply reads_bind_ret; [apply reads_get_bytes | done]. Qed.

Lemma decodes_bind {A B : Type} (n k : nat) (P : A -> Prop) (Q : B -> Prop)
    (m : buffered A) (f : A -> buffered B) :
  reads n P m -> (forall x, P x -> decodes k Q (f x)) ->
  decodes (n + k) Q (x ← m; f x).
Proof.
  intros Hm Hf. split.
  - intros b. destruct (Hm b) as [Hshort Hlong].
    unfold mbind, buffered_bind.
    destruct (Nat.lt_ge_cases (content_length b) n) as [H | H].
    + rewrite Hshort by done. split; [lia |].
      by destruct (Nat.ltb_spec (content_length b) (n + k)); [| lia].
    + destruct (Hlong H) as (x & b' & -> & HP & Hlen & Hdata).
      destruct (Hf x HP) as [Hexact _]. specialize (Hexact b').
      destruct (f x b') as [e | [y b'']].
      * destruct Hexact as [Hne ->]. split; [lia |].
        destruct (Nat.ltb_spec (content_length b') k),
          (Nat.ltb_spec (content_length b) (n + k)); (done || lia).
      * destruct Hexact as (H1 & H2 & H3). repeat split; (lia || congruence).
  - intros b y b''. destruct (Hm b) as [Hshort Hlong].
    unfold mbind, buffered_bind.
    destruct (Nat.lt_ge_cases (content_length b) n) as [H | H].
    + by rewrite Hshort.
    + destruct (Hlong H) as (x & b' & -> & HP & _).
      destruct (Hf x HP) as [_ HQ]. apply HQ.
Qed.

Lemma decodes_end {A : Type} (Q : A -> Prop) (x : A) :
  Q x ->
  decodes 0 Q
    (_ ← assert_log_only (fun b => (content_length b =? 0)%nat)
           UDS_CORRUPT_COMPONENT;
     mret x).
Proof.
  intros HQ. split.
  - intros b. unfold mbind, buffered_bind, assert_log_only.
    destruct (Nat.eqb_spec (content_length b) 0) as [E | E]; cbn.
    + by rewrite E.
    + split; [done |]. by destruct (Nat.ltb_spec (content_length b) 0); [lia |].
  - intros b y b'. unfold mbind, buffered_bind, assert_log_only.
    destruct (content_length b =? 0)%nat; [| done].
    by intros [= <- _].
Qed.

Ltac decodes :=
  repeat first
    [ apply (decodes_bind 4 _ is_u32); [apply reads_uint32 | intros ? ?]
    | apply (decodes_bind 8 _ is_u64); [apply reads_uint64 | intros ? ?]
    | apply (decodes_bind 4 _ (fun _ => True));
        [apply reads_skip_forward | intros ? ?] ].

Lemma decode_index_config_06_02_decodes :
  decodes 40
    (fun saved =>
       well_typed_saved saved
       /\ saved_remapped_virtual saved = 0
       /\ saved_remapped_physical saved = 0)
    decode_index_config_06_02.
Proof.
  unfold decode_index_config_06_02.
  change 40%nat with (4 + (4 + (4 + (4 + (4 + (4 + (4 + (4 + (8 + 0)))))))))%nat.
  decodes. apply decodes_end.
  unfold well_typed_saved. cbn [saved_record_pages_per_chapter
    saved_chapters_per_volume saved_sparse_chapters_per_volume
    saved_cache_chapters saved_volume_index_mean_delta saved_bytes_per_page
    saved_sparse_sample_rate saved_nonce saved_remapped_virtual
    saved_remapped_physical].
  repeat match goal with |- _ /\ _ => split end;
    try assumption; try reflexivity; unfold is_u64; lia.
Qed.

Lemma decode_index_config_08_02_decodes :
  decodes 56 well_typed_saved decode_index_config_08_02.
Proof.
  unfold decode_index_config_08_02.
  change 56%nat with
    (4 + (4 + (4 + (4 + (4 + (4 + (4 + (4 + (8 + (8 + (8 + 0)))))))))))%nat.
  decodes. apply decodes_end.
  unfold well_typed_saved. cbn [saved_record_pages_per_chapter
    saved_chapters_per_volume saved_sparse_chapters_per_volume
    saved_cache_chapters saved_volume_index_mean_delta saved_bytes_per_page
    saved_sparse_sample_rate saved_nonce saved_remapped_virtual
    saved_remapped_physical].
  repeat match goal with |- _ /\ _ => split end; assumption.
Qed.

(** The decoders read a buffer to its end.  [decode_index_config_06_02]
    succeeds on exactly 40 bytes of content and [decode_index_config_08_02]
    on exactly 56; with fewer bytes a read runs out of content and the
    answer is [UDS_BUFFER_ERROR], with more the bytes left over give
    [UDS_CORRUPT_COMPONENT].  The buffer's array is not written. *)
Theorem decode_index_config_takes_exact_length :
  takes_exactly sizeof_uds_configuration_6_02 decode_index_config_06_02
  /\ takes_exactly sizeof_uds_configuration_8_02 decode_index_config_08_02.
Proof.
  split.
  - apply decode_index_config_06_02_decodes.
  - apply decode_index_config_08_02_decodes.
Qed.

Lemma writes_put_bytes (bs : list byte) : writes (length bs) (put_bytes bs).
Proof.
  intros b. unfold put_bytes.
  destruct (Nat.ltb_spec (available_space b) (length bs)); split;
    try lia; try done.
  intros _. eexists. split; [done |].
  unfold available_space, buffer_length in *. cbn.
  rewrite !length_app, length_take, length_drop. lia.
Qed.

Lemma writes_uint32 (v : Z) : writes 4 (put_uint32_le_into_buffer v).
Proof.
  unfold put_uint32_le_into_buffer.
  rewrite <- (length_le_split 4 v) at 1. apply writes_put_bytes.
Qed.

Lemma writes_uint64 (v : Z) : writes 8 (put_uint64_le_into_buffer v).
Proof.
  unfold put_uint64_le_into_buffer.
  rewrite <- (length_le_split 8 v) at 1. apply writes_put_bytes.
Qed.

Lemma writes_zero_bytes (n : nat) : writes n (zero_bytes n).
Proof.
  unfold zero_bytes.
  rewrite <- (length_replicate n Byte.x00) at 1. apply writes_put_bytes.
Qed.

Lemma fills_exactly_bind (n k : nat) (m : buffered unit)
    (f : unit -> buffered unit) :
  writes n m -> (forall x, fills_exactly k (f x)) ->
  fills_exactly (n + k) (x ← m; f x).
Proof.
  intros Hm Hf b. destruct (Hm b) as [Hshort Hlong].
  unfold mbind, buffered_bind.
  destruct (Nat.lt_ge_cases (available_space b) n) as [H | H].
  - rewrite Hshort by done. split; [lia |].
    by destruct (Nat.ltb_spec (available_space b) (n + k)); [| lia].
  - destruct (Hlong H) as (b' & -> & Hlen & Hstart & Hend).
    specialize (Hf tt b').
    destruct (f tt b') as [e | [y b'']].
    + destruct Hf as [Hne ->]. split; [lia |].
      destruct (Nat.ltb_spec (available_space b') k),
        (Nat.ltb_spec (available_space b) (n + k)); (done || lia).
    + destruct Hf as (H1 & H2 & H3 & H4). repeat split; (lia || congruence).
Qed.

Lemma fills_exactly_end :
  fills_exactly 0
    (assert_log_only (fun b => (available_space b =? 0)%nat)
       UDS_ASSERTION_FAILED).
Proof.
  intros b. unfold assert_log_only.
  destruct (Nat.eqb_spec (available_space b) 0) as [E | E]; cbn.
  - rewrite E. repeat split; lia.
  - split; [done |]. by destruct (Nat.ltb_spec (available_space b) 0); [lia |].
Qed.

Ltac fills :=
  repeat first
    [ apply (fills_exactly_bind 4); [apply writes_uint32 | intros ?]
    | apply (fills_exactly_bind 8); [apply writes_uint64 | intros ?]
    | apply (fills_exactly_bind 4); [apply writes_zero_bytes | intros ?] ].

(** The encoders fill a buffer to its end.  [encode_index_config_06_02]
    succeeds on exactly 40 bytes of free space and
    [encode_index_config_08_02] on exactly 56, which is what
    [write_config_contents] gives them; with less space a put answers
    [UDS_BUFFER_ERROR], with more the final check on the remaining space
    answers [UDS_ASSERTION_FAILED].  On success the content has grown by
    that many bytes at its end. *)
Theorem encode_index_config_fills_exact_space (config : configuration) :
  fills_exactly sizeof_uds_configuration_6_02
    (encode_index_config_06_02 config)
  /\ fills_exactly sizeof_uds_configuration_8_02
       (encode_index_config_08_02 config).
Proof.
  split.
  - unfold encode_index_config_06_02.
    change sizeof_uds_configuration_6_02
      with (4 + (4 + (4 + (4 + (4 + (4 + (4 + (4 + (8 + 0)))))))))%nat.
    fills. apply fills_exactly_end.
  - unfold encode_index_config_08_02.
    change sizeof_uds_configuration_8_02 with
      (4 + (4 + (4 + (4 + (4 + (4 + (4 + (4 + (8 + (8 + (8 + 0)))))))))))%nat.
    fills. apply fills_exactly_end.
Qed.

(** *** Reading one block *)

Lemma read_and_decode_cases (reader : list byte) (size : nat)
    (Q : uds_configuration_8_02 -> Prop)
    (decode : buffered uds_configuration_8_02) :
  decodes size Q decode ->
  ((length reader < size)%nat ->
   read_and_decode reader size decode = (inl UDS_END_OF_FILE, reader))
  /\ ((size <= length reader)%nat ->
      exists saved,
        read_and_decode reader size decode = (inr saved, drop size reader)
        /\ Q saved).
Proof.
  intros [Hexact HQ]. unfold read_and_decode, read_from_buffered_reader.
  replace (buffer_length (make_buffer size)) with size
    by (unfold buffer_length, make_buffer; simpl; by rewrite length_replicate).
  destruct (Nat.ltb_spec (length reader) size); split; try lia; try done.
  intros _.
  match goal with
  | |- context [decode ?buf] => set (b := buf)
  end.
  assert (Hlen : content_length b = size).
  { subst b. unfold content_length, clear_buffer, buffer_length. cbn.
    rewrite length_take. lia. }
  specialize (Hexact b). specialize (HQ b).
  destruct (decode b) as [e | [saved b']].
  - by destruct Hexact.
  - exists saved. split; [done |]. by eapply HQ.
Qed.

Lemma bytes_eqb_eq (x y : list byte) : bytes_eqb x y = true <-> x = y.
Proof. unfold bytes_eqb. apply bool_decide_eq_true. Qed.

Lemma read_version_cases (reader : list byte) :
  match read_version reader with
  | (inr saved, rest) =>
      well_typed_saved saved
      /\ (take INDEX_CONFIG_VERSION_LENGTH reader = INDEX_CONFIG_VERSION_6_02 ->
          saved_remapped_virtual saved = 0
          /\ saved_remapped_physical saved = 0)
      /\ exists version payload,
           reader = version ++ payload ++ rest
           /\ saved_block version payload
  | (inl e, rest) =>
      (e = UDS_END_OF_FILE /\ (length reader < 61)%nat)
      \/ (e = UDS_CORRUPT_COMPONENT
          /\ exists version,
               reader = version ++ rest
               /\ length version = INDEX_CONFIG_VERSION_LENGTH
               /\ version <> INDEX_CONFIG_VERSION_6_02
               /\ version <> INDEX_CONFIG_VERSION_8_02)
  end.
Proof.
  unfold read_version, read_from_buffered_reader.
  destruct (Nat.ltb_spec (length reader) INDEX_CONFIG_VERSION_LENGTH)
    as [Hshort | Hlong].
  { left. split; [done |]. unfold INDEX_CONFIG_VERSION_LENGTH in *. lia. }
  assert (Hsplit : reader
                   = take INDEX_CONFIG_VERSION_LENGTH reader
                     ++ drop INDEX_CONFIG_VERSION_LENGTH reader)
    by (by rewrite take_drop).
  assert (Hv : length (take INDEX_CONFIG_VERSION_LENGTH reader)
               = INDEX_CONFIG_VERSION_LENGTH)
    by (rewrite length_take; lia).
  set (version := take INDEX_CONFIG_VERSION_LENGTH reader) in *.
  set (rest := drop INDEX_CONFIG_VERSION_LENGTH reader) in *.
  assert (Hrest : length reader
                  = (INDEX_CONFIG_VERSION_LENGTH + length rest)%nat).
  { rewrite Hsplit at 1. rewrite length_app. lia. }
  unfold INDEX_CONFIG_VERSION_LENGTH in Hrest.
  destruct (bytes_eqb INDEX_CONFIG_VERSION_6_02 version) eqn:E6.
  { apply bytes_eqb_eq in E6.
    destruct (read_and_decode_cases rest sizeof_uds_configuration_6_02 _ _
                decode_index_config_06_02_decodes) as [Hs Hl].
    destruct (Nat.lt_ge_cases (length rest) sizeof_uds_configuration_6_02)
      as [H | H].
    - rewrite Hs by done. left. split; [done |].
      unfold sizeof_uds_configuration_6_02 in H. lia.
    - destruct (Hl H) as (saved & -> & Hwt & Hzero). split; [done |].
      split; [done |].
      exists version, (take sizeof_uds_configuration_6_02 rest).
      split; [by rewrite take_drop |]. left. split; [done |].
      rewrite length_take. lia. }
  destruct (bytes_eqb INDEX_CONFIG_VERSION_8_02 version) eqn:E8.
  { apply bytes_eqb_eq in E8.
    destruct (read_and_decode_cases rest sizeof_uds_configuration_8_02 _ _
                decode_index_config_08_02_decodes) as [Hs Hl].
    destruct (Nat.lt_ge_cases (length rest) sizeof_uds_configuration_8_02)
      as [H | H].
    - rewrite Hs by done. left. split; [done |].
      unfold sizeof_uds_configuration_8_02 in H. lia.
    - destruct (Hl H) as (saved & -> & Hwt). split; [done |].
      split; [intros E; by rewrite <- E8 in E |].
      exists version, (take sizeof_uds_configuration_8_02 rest).
      split; [by rewrite take_drop |]. right. split; [done |].
      rewrite length_take. lia. }
  right. split; [done |]. exists version. repeat split; try done.
  - intros ->. by rewrite (proj2 (bytes_eqb_eq _ _) eq_refl) in E6.
  - intros ->. by rewrite (proj2 (bytes_eqb_eq _ _) eq_refl) in E8.
Qed.

(** What [validate_config_contents] has read when it succeeds: the reader
    began with the magic, a known version and a payload of that version's
    size (40 bytes for 06.02, 56 for 08.02), 50 or 66 bytes in all, and
    stands right behind that block. *)
Theorem validate_config_contents_reads_one_block (reader rest : list byte)
    (config config' : configuration) :
  validate_config_contents reader config = (UDS_SUCCESS, config', rest) ->
  (exists version payload : list byte,
     reader = INDEX_CONFIG_MAGIC ++ version ++ payload ++ rest
     /\ saved_block version payload)
  /\ (length reader = length rest + 50 \/ length reader = length rest + 66)%nat.
Proof.
  unfold validate_config_contents, verify_buffered_data,
    read_from_buffered_reader.
  change (length INDEX_CONFIG_MAGIC) with INDEX_CONFIG_MAGIC_LENGTH.
  destruct (Nat.ltb_spec (length reader) INDEX_CONFIG_MAGIC_LENGTH)
    as [Hshort | Hlong]; [done |].
  destruct (bytes_eqb (take INDEX_CONFIG_MAGIC_LENGTH reader)
              INDEX_CONFIG_MAGIC) eqn:Em; [| done].
  apply bytes_eqb_eq in Em.
  assert (Hsplit : reader
                   = INDEX_CONFIG_MAGIC
                     ++ drop INDEX_CONFIG_MAGIC_LENGTH reader)
    by (by rewrite <- Em, take_drop).
  set (reader1 := drop INDEX_CONFIG_MAGIC_LENGTH reader) in *.
  pose proof (read_version_cases reader1) as Hread.
  destruct (read_version reader1) as [[e | saved] rest'].
  { intros [= -> _ _]. by destruct Hread as [[? _] | [? _]]. }
  destruct Hread as (_ & _ & version & payload & Hr & Hblock).
  destruct (are_matching_configurations saved config); [| done].
  cbn [negb]. intros [= _ <-].
  assert (Hall : reader = INDEX_CONFIG_MAGIC ++ version ++ payload ++ rest')
    by (by rewrite Hsplit at 1; rewrite Hr).
  split; [by exists version, payload |].
  rewrite Hall, !length_app.
  destruct Hblock as [[-> ->] | [-> ->]]; cbn; lia.
Qed.

(** The example configuration, saved in the 06.02 format: a block of 50
    bytes, read to its end. *)
Lemma validate_config_contents_reads_one_block_witness :
  (length (write_config_contents [] Examples.example_configuration 3).2
   = 0 + 50
   \/ length (write_config_contents [] Examples.example_configuration 3).2
      = 0 + 66)%nat.
Proof.
  destruct (validate_config_contents_reads_one_block
              (write_config_contents [] Examples.example_configuration 3).2
              [] Examples.example_configuration
              (set_remapping Examples.example_configuration 0 0))
    as [_ Hlen].
  { vm_compute. reflexivity. }
  exact Hlen.
Defined.

(** *** What validation accepts *)

(** Every field of a configuration that validates against a saved block
    fits the width it is saved in: the configuration that comes back is
    well typed and its page size is below [2^32].  It is the supplied
    configuration with the remapping of the block, which is zero for the
    06.02 format. *)
Theorem validated_configuration_is_well_typed (reader rest : list byte)
    (config config' : configuration) :
  validate_config_contents reader config = (UDS_SUCCESS, config', rest) ->
  well_typed_configuration config'
  /\ is_u32 (bytes_per_page (config_geometry config'))
  /\ (exists virtual physical, config' = set_remapping config virtual physical)
  /\ (take INDEX_CONFIG_VERSION_LENGTH (drop INDEX_CONFIG_MAGIC_LENGTH reader)
      = INDEX_CONFIG_VERSION_6_02 ->
      remapped_virtual (config_geometry config') = 0
      /\ remapped_physical (config_geometry config') = 0).
Proof.
  unfold validate_config_contents.
  destruct (verify_buffered_data reader INDEX_CONFIG_MAGIC)
    as [e | reader1] eqn:Hmagic.
  { intros [= -> _ _]. revert Hmagic.
    unfold verify_buffered_data, read_from_buffered_reader.
    destruct (_ <? _)%nat; [done |]. by destruct (bytes_eqb _ _). }
  assert (reader1 = drop INDEX_CONFIG_MAGIC_LENGTH reader) as ->.
  { revert Hmagic. unfold verify_buffered_data, read_from_buffered_reader.
    destruct (_ <? _)%nat; [done |].
    destruct (bytes_eqb _ _); [| done]. by intros [= <-]. }
  pose proof (read_version_cases (drop INDEX_CONFIG_MAGIC_LENGTH reader))
    as Hread.
  destruct (read_version _) as [[e | saved] r2].
  { intros [= -> _ _]. by destruct Hread as [[? _] | [? _]]. }
  destruct Hread as (Hwt & Hzero & _).
  destruct (are_matching_configurations saved config) eqn:Hm; [| done].
  apply are_matching_configurations_spec in Hm.
  cbn [negb]. intros [= <- <-].
  destruct Hwt as (H1 & H2 & H3 & H4 & H5 & H6 & H7 & H8 & H9 & H10).
  destruct Hm as (M1 & M2 & M3 & M4 & M5 & M6 & M7 & M8).
  rewrite M1 in H1. rewrite M2 in H2. rewrite M3 in H3. rewrite M4 in H4.
  rewrite M5 in H5. rewrite M6 in H6. rewrite M7 in H7. rewrite M8 in H8.
  split.
  { unfold well_typed_configuration, set_remapping, is_size_t. cbn.
    repeat match goal with |- _ /\ _ => split end; try assumption.
    unfold is_u32, is_u64 in *. lia. }
  split; [done |]. split; [by eexists _, _ |]. exact Hzero.
Qed.

(** The example configuration, saved in the 06.02 format. *)
Lemma validated_configuration_is_well_typed_witness :
  well_typed_configuration (set_remapping Examples.example_configuration 0 0)
  /\ is_u32 (bytes_per_page
               (config_geometry
                  (set_remapping Examples.example_configuration 0 0))).
Proof.
  destruct (validated_configuration_is_well_typed
              (write_config_contents [] Examples.example_configuration 3).2
              [] Examples.example_configuration
              (set_remapping Examples.example_configuration 0 0))
    as (Hwt & Hpage & _).
  { vm_compute. reflexivity. }
  by split.
Defined.

(** The remapping of the supplied configuration plays no part in
    validation: whatever it is, the status and the position of the reader
    are the same, and so is the configuration that a success leaves.
    Validating again what a success has left succeeds with the same
    result. *)
Theorem validate_config_contents_ignores_remapping (reader : list byte)
    (config : configuration) (virtual physical : Z) :
  let r := validate_config_contents reader config in
  let r' :=
    validate_config_contents reader (set_remapping config virtual physical) in
  r'.1.1 = r.1.1
  /\ r'.2 = r.2
  /\ (r.1.1 = UDS_SUCCESS ->
      r'.1.2 = r.1.2 /\ validate_config_contents reader r.1.2 = r).
Proof.
  unfold validate_config_contents.
  destruct (verify_buffered_data reader INDEX_CONFIG_MAGIC)
    as [e | reader1] eqn:Hmagic; cbn.
  { split; [done |]. split; [done |]. intros ->. revert Hmagic.
    unfold verify_buffered_data, read_from_buffered_reader.
    destruct (_ <? _)%nat; [done |]. by destruct (bytes_eqb _ _). }
  pose proof (read_version_error reader1) as Herr.
  destruct (read_version reader1) as [[e | saved] r2]; cbn.
  { split; [done |]. split; [done |]. intros ->. by destruct (Herr r2 SUCCESS). }
  change (are_matching_configurations saved
            (set_remapping config virtual physical))
    with (are_matching_configurations saved config).
  destruct (are_matching_configurations saved config) eqn:Hm; cbn; [| done].
  split; [done |]. split; [done |]. intros _. split; [done |].
  change (are_matching_configurations saved (set_remapping config _ _))
    with (are_matching_configurations saved config).
  by rewrite Hm.
Qed.

End ConfigFacts.
(** ** The sizes of a new configuration *)

Module ConfigSizesFacts.
Import ConfigSizes.

(** The thread and zone counts a configuration is made with are clamped.
    The number of read threads lies between 1 and 16: a request in that
    range is kept, a request of 0 gives the default of 2 and a larger one
    gives 16.  The number of zones lies between 1 and [MAX_ZONES]: a
    request in that range is kept, and a request of 0 gives half the number
    of cores, clamped in the same way.  Normalising twice changes
    nothing. *)
Theorem thread_and_zone_counts_are_clamped (num_cores MAX_ZONES : Z)
    (requested : Z) :
  1 <= MAX_ZONES ->
  let threads := normalize_read_threads requested in
  let zones := normalize_zone_count num_cores MAX_ZONES requested in
  1 <= threads <= MAX_VOLUME_READ_THREADS
  /\ (1 <= requested <= MAX_VOLUME_READ_THREADS -> threads = requested)
  /\ (requested = 0 -> threads = DEFAULT_VOLUME_READ_THREADS)
  /\ normalize_read_threads threads = threads
  /\ 1 <= zones <= MAX_ZONES
  /\ (1 <= requested <= MAX_ZONES -> zones = requested)
  /\ (requested = 0 ->
      zones = Z.min MAX_ZONES (Z.max 1 (num_cores / 2)))
  /\ normalize_zone_count num_cores MAX_ZONES zones = zones.
Proof.
  intros Hmax. unfold normalize_read_threads, normalize_zone_count,
    DEFAULT_VOLUME_READ_THREADS, MAX_VOLUME_READ_THREADS.
  cbv zeta. generalize (num_cores / 2). intros half.
  repeat case_match;
    repeat match goal with
    | H : (_ <? _) = true |- _ => apply Z.ltb_lt in H
    | H : (_ <? _) = false |- _ => apply Z.ltb_ge in H
    | H : (_ =? _) = true |- _ => apply Z.eqb_eq in H
    | H : (_ =? _) = false |- _ => apply Z.eqb_neq in H
    end;
    repeat split; intros; lia.
Qed.

Lemma thread_and_zone_counts_are_clamped_witness :
  normalize_read_threads 0 = 2
  /\ normalize_read_threads 40 = 16
  /\ normalize_zone_count 6 16 0 = 3
  /\ normalize_zone_count 6 16 100 = 16.
Proof.
  pose proof (thread_and_zone_counts_are_clamped 6 16 0 ltac:(lia))
    as (_ & _ & Ht & _ & _ & _ & Hz & _).
  pose proof (thread_and_zone_counts_are_clamped 6 16 40 ltac:(lia))
    as (Ht' & _).
  pose proof (thread_and_zone_counts_are_clamped 6 16 100 ltac:(lia))
    as (_ & _ & _ & _ & Hz' & _).
  split; [by apply Ht |]. split; [reflexivity |].
  split; [by rewrite Hz |]. reflexivity.
Defined.

Section MemorySizesFacts.

Variables
  (UDS_MEMORY_CONFIG_256MB UDS_MEMORY_CONFIG_512MB UDS_MEMORY_CONFIG_768MB
   UDS_MEMORY_CONFIG_MAX UDS_MEMORY_CONFIG_REDUCED
   UDS_MEMORY_CONFIG_REDUCED_MAX UDS_MEMORY_CONFIG_REDUCED_256MB
   UDS_MEMORY_CONFIG_REDUCED_512MB UDS_MEMORY_CONFIG_REDUCED_768MB
   DEFAULT_CHAPTERS_PER_VOLUME SMALL_RECORD_PAGES_PER_CHAPTER
   DEFAULT_RECORD_PAGES_PER_CHAPTER : Z).

Let sizes :=
  compute_memory_sizes
    UDS_MEMORY_CONFIG_256MB UDS_MEMORY_CONFIG_512MB UDS_MEMORY_CONFIG_768MB
    UDS_MEMORY_CONFIG_MAX UDS_MEMORY_CONFIG_REDUCED
    UDS_MEMORY_CONFIG_REDUCED_MAX UDS_MEMORY_CONFIG_REDUCED_256MB
    UDS_MEMORY_CONFIG_REDUCED_512MB UDS_MEMORY_CONFIG_REDUCED_768MB
    DEFAULT_CHAPTERS_PER_VOLUME SMALL_RECORD_PAGES_PER_CHAPTER
    DEFAULT_RECORD_PAGES_PER_CHAPTER.

(** Whether a memory size is accepted does not depend on the kind of
    index.  For an accepted size, provided ten times the chapters of the
    largest size fit in an [unsigned int]: the dense index has no sparse
    chapters; the sparse index has the same record pages per chapter, ten
    times the chapters of the dense one, counted before the chapter a
    reduced size gives up, and nine and a half in ten of them are
    sparse. *)
Theorem sparse_index_has_ten_times_the_chapters (mem_gb : Z) :
  1 <= UDS_MEMORY_CONFIG_MAX ->
  0 < DEFAULT_CHAPTERS_PER_VOLUME ->
  10 * UDS_MEMORY_CONFIG_MAX * DEFAULT_CHAPTERS_PER_VOLUME < 2 ^ 32 ->
  UDS_MEMORY_CONFIG_REDUCED_MAX - UDS_MEMORY_CONFIG_REDUCED
  <= UDS_MEMORY_CONFIG_MAX ->
  match sizes mem_gb false, sizes mem_gb true with
  | Some (chapters, record_pages, sparse_chapters),
    Some (chapters', record_pages', sparse_chapters') =>
      sparse_chapters = 0
      /\ record_pages' = record_pages
      /\ exists reduced base : Z,
           (reduced = 0 \/ reduced = 1)
           /\ 1 <= base
           /\ chapters = base - reduced
           /\ chapters' = 10 * base - reduced
           /\ sparse_chapters' = 9 * base + base / 2
           /\ sparse_chapters' <= chapters'
  | None, None => True
  | _, _ => False
  end.
Proof.
  intros Hmax Hdef Hfit Hred. subst sizes.
  unfold compute_memory_sizes, memory_size_class.
  assert (Hu : forall b, 1 <= b <= UDS_MEMORY_CONFIG_MAX ->
               u32 (b * DEFAULT_CHAPTERS_PER_VOLUME)
               = b * DEFAULT_CHAPTERS_PER_VOLUME
               /\ 1 <= b * DEFAULT_CHAPTERS_PER_VOLUME
               /\ 10 * (b * DEFAULT_CHAPTERS_PER_VOLUME) < 2 ^ 32).
  { intros b Hb. assert (1 <= b * DEFAULT_CHAPTERS_PER_VOLUME) by nia.
    assert (10 * (b * DEFAULT_CHAPTERS_PER_VOLUME) < 2 ^ 32) by nia.
    split; [| done]. unfold u32. apply Z.mod_small. lia. }
  assert (Hone : u32 DEFAULT_CHAPTERS_PER_VOLUME = DEFAULT_CHAPTERS_PER_VOLUME
                 /\ 1 <= DEFAULT_CHAPTERS_PER_VOLUME
                 /\ 10 * DEFAULT_CHAPTERS_PER_VOLUME < 2 ^ 32).
  { destruct (Hu 1) as (H1 & H2 & H3); [lia |].
    by rewrite Z.mul_1_l in H1, H2, H3. }
  assert (Hfinish : forall reduced base record_pages : Z,
            (reduced = 0 \/ reduced = 1) -> 1 <= base ->
            10 * base < 2 ^ 32 ->
            0 = 0 :> Z
            /\ record_pages = record_pages
            /\ exists reduced' base' : Z,
                 (reduced' = 0 \/ reduced' = 1)
                 /\ 1 <= base'
                 /\ u32 (base - reduced) = base' - reduced'
                 /\ u32 (u32 (base * 10) - reduced) = 10 * base' - reduced'
                 /\ u32 (9 * base + base / 2) = 9 * base' + base' / 2
                 /\ u32 (9 * base + base / 2)
                    <= u32 (u32 (base * 10) - reduced)).
  { intros reduced base record_pages Hr Hb Hten.
    split; [done |]. split; [done |]. exists reduced, base.
    assert (0 <= base / 2 /\ 2 * (base / 2) <= base)
      by (split; [apply Z.div_pos; lia | apply Z.mul_div_le; lia]).
    unfold u32.
    rewrite (Z.mod_small (base * 10)) by lia.
    rewrite !Z.mod_small by lia.
    repeat split; try lia. }
  repeat match goal with
  | |- context [?x =? ?y] => destruct (Z.eqb_spec x y)
  | |- context [?x <=? ?y] => destruct (Z.leb_spec x y)
  end; cbn [andb mbind option_bind]; try done;
  first
    [ destruct (Hu mem_gb) as (-> & ? & ?); [lia |];
      apply Hfinish; (lia || auto)
    | destruct (Hu (mem_gb - UDS_MEMORY_CONFIG_REDUCED)) as (-> & ? & ?);
      [lia |]; apply Hfinish; (lia || auto)
    | destruct Hone as (-> & ? & ?); apply Hfinish; (lia || auto) ].
Qed.

End MemorySizesFacts.

(** One gigabyte, with the size codes counted in gigabytes up to 1024, the
    reduced sizes 4096 above them, 1024 chapters to the gigabyte and 256
    record pages to the chapter. *)
Lemma sparse_index_has_ten_times_the_chapters_witness :
  compute_memory_sizes (-256) (-512) (-768) 1024 4096 5120 (-1280) (-1536)
    (-1792) 1024 64 256 1 true
  = Some (10240, 256, 9728)
  /\ exists reduced base : Z,
       1024 = base - reduced
       /\ 10240 = 10 * base - reduced
       /\ 9728 = 9 * base + base / 2.
Proof.
  split; [reflexivity |].
  pose proof (sparse_index_has_ten_times_the_chapters
                (-256) (-512) (-768) 1024 4096 5120 (-1280) (-1536) (-1792)
                1024 64 256 1 ltac:(lia) ltac:(lia) ltac:(lia) ltac:(lia))
    as H.
  vm_compute in H.
  destruct H as (_ & _ & reduced & base & _ & _ & H1 & H2 & H3 & _).
  by exists reduced, base.
Defined.

End ConfigSizesFacts.

(** ** Dump options *)

Module DumpFacts.

Import Stdlib.Strings.Ascii.

Import Dump.

Lemma strncasecmp_is_zero_prefix (arg opt : string) :
  strncasecmp_is_zero arg opt (String.length opt) = true
  <-> exists front rest : string,
        arg = String.append front rest /\ lowered front = lowered opt.
Proof.
  revert arg. induction opt as [| c opt IH]; intros arg.
  - cbn. split; [| intros _; reflexivity]. intros _. by exists EmptyString, arg.
  - cbn [String.length strncasecmp_is_zero]. destruct arg as [| d arg].
    + split; [intros E; discriminate E |]. intros (front & rest & E & Hl).
      destruct front; [discriminate Hl | discriminate E].
    + destruct (Ascii.eqb_spec (tolower d) (tolower c)) as [Hc | Hc].
      * rewrite IH. split.
        -- intros (front & rest & -> & Hl). exists (String d front), rest.
           split; [done |]. cbn. by rewrite Hc, Hl.
        -- intros (front & rest & E & Hl).
           destruct front as [| d' front]; [discriminate Hl |].
           cbn in E, Hl. injection E as -> ->. injection Hl as _ Hl.
           by exists front, rest.
      * split; [intros E; discriminate E |].
        intros (front & rest & E & Hl).
        destruct front as [| d' front]; [discriminate Hl |].
        cbn in E, Hl. injection E as -> ->. by injection Hl as Hl _.
Qed.

(** [is_arg_string] is a prefix test that ignores letter case: an
    argument matches an option name exactly when it begins with the name
    written in any mix of cases.  What follows the name is not looked at,
    so an argument with trailing characters matches as well. *)
Theorem is_arg_string_is_a_caseless_prefix_test (arg thisOption : string) :
  (is_arg_string arg thisOption = true
   <-> exists front rest : string,
         arg = String.append front rest
         /\ lowered front = lowered thisOption)
  /\ (forall rest : string,
        is_arg_string (String.append thisOption rest) thisOption = true)
  /\ (forall arg' : string,
        lowered arg' = lowered arg ->
        is_arg_string arg' thisOption = is_arg_string arg thisOption).
Proof.
  unfold is_arg_string. split; [apply strncasecmp_is_zero_prefix |]. split.
  - intros rest. apply strncasecmp_is_zero_prefix. by exists thisOption, rest.
  - intros arg'. generalize (String.length thisOption). intros n.
    revert arg arg' thisOption.
    induction n as [| n IH]; intros arg arg' opt Hl; [done |].
    destruct arg as [| c arg], arg' as [| c' arg']; try discriminate; [done |].
    cbn in Hl. injection Hl as Hc Hl. cbn.
    destruct opt as [| d opt]; [done |]. rewrite Hc.
    destruct (Ascii.eqb _ _); [| done]. by apply IH.
Qed.

Lemma find_option_elem (names : list (string * Z)) (arg : string) (flags : Z) :
  find_option names arg = Some flags ->
  exists name, (name, flags) ∈ names /\ is_arg_string arg name = true.
Proof.
  induction names as [| [name f] names IH]; [done |]. cbn.
  destruct (is_arg_string arg name) eqn:E.
  - intros [= ->]. exists name. split; [left | done].
  - intros H. destruct (IH H) as (name' & Hin & Hm). exists name'.
    split; [by right | done].
Qed.

Lemma land_skip_default (x : Z) :
  (Z.land x FLAG_SKIP_DEFAULT =? 0) = negb (Z.testbit x SKIP_DEFAULT).
Proof.
  change FLAG_SKIP_DEFAULT with (2 ^ SKIP_DEFAULT).
  destruct (Z.testbit x SKIP_DEFAULT) eqn:E; cbn [negb].
  - apply Z.eqb_neq. intros H.
    assert (Hb : Z.testbit (Z.land x (2 ^ SKIP_DEFAULT)) SKIP_DEFAULT = true).
    { rewrite Z.land_spec, E. by rewrite Z.pow2_bits_true. }
    rewrite H in Hb. by rewrite Z.bits_0 in Hb.
  - apply Z.eqb_eq. apply Z.bits_inj'. intros n Hn.
    rewrite Z.land_spec, Z.bits_0.
    destruct (Z.eq_dec SKIP_DEFAULT n) as [<- | Hne].
    + by rewrite E.
    + rewrite (Z.pow2_bits_false _ _ Hne). apply andb_false_r.
Qed.

Lemma option_names_skip_default :
  Forall (fun entry : string * Z => Z.testbit entry.2 SKIP_DEFAULT = true)
    option_names.
Proof. unfold option_names. repeat constructor. Qed.

Lemma find_option_skip_default (arg : string) (flags : Z) :
  find_option option_names arg = Some flags ->
  Z.testbit flags SKIP_DEFAULT = true.
Proof.
  intros H. apply find_option_elem in H as (name & Hin & _).
  pose proof option_names_skip_default as Hall.
  rewrite Forall_forall in Hall. exact (Hall _ Hin).
Qed.

(** The loop in terms of the arguments: the flags of the options found,
    or-ed onto the start value, and whether all were found. *)
Lemma gather_options_spec (args : list string) (start : Z) (okay : bool) :
  gather_options args start okay
  = (Z.lor start
       (union_of_flags (omap (find_option option_names) args)),
     okay && forallb (fun arg => bool_decide
                                   (is_Some (find_option option_names arg)))
                     args).
Proof.
  revert start okay. induction args as [| arg args IH]; intros start okay.
  - cbn. by rewrite Z.lor_0_r, andb_true_r.
  - cbn [gather_options omap list_omap forallb].
    destruct (find_option option_names arg) as [flags |] eqn:E.
    + rewrite IH. cbn [union_of_flags foldr].
      rewrite bool_decide_eq_true_2 by done. cbn [andb].
      by rewrite Z.lor_assoc.
    + rewrite IH. rewrite bool_decide_eq_false_2 by (by intros [? ?]).
      cbn [andb]. by rewrite andb_false_r.
Qed.

Lemma union_of_flags_testbit (flags : list Z) (n : Z) :
  Z.testbit (union_of_flags flags) n = existsb (fun f => Z.testbit f n) flags.
Proof.
  unfold union_of_flags. induction flags as [| f flags IH]; cbn.
  - apply Z.bits_0.
  - by rewrite Z.lor_spec, IH.
Qed.

(** [parse_dump_options] succeeds exactly when every argument after the
    first begins with one of the option names; one unknown argument gives
    [-EINVAL] and nothing is written, whatever the other arguments are.
    On success without options the flags are [DEFAULT_DUMP_FLAGS]; with
    options they are the flags of the options or-ed together, and the
    defaults are never added, since every option sets
    [FLAG_SKIP_DEFAULT]. *)
Theorem parse_dump_options_result (argv : list string) :
  let args := drop 1 argv in
  let found := omap (find_option option_names) args in
  parse_dump_options argv
  = if forallb (fun arg => bool_decide
                             (is_Some (find_option option_names arg))) args
    then (0, Some (match args with
                   | [] => DEFAULT_DUMP_FLAGS
                   | _ :: _ => union_of_flags found
                   end))
    else (- EINVAL, None).
Proof.
  intros args found. unfold parse_dump_options. fold args.
  rewrite gather_options_spec. fold found. cbn [andb].
  destruct (forallb _ args) eqn:Hall; cbn [negb]; [| done].
  rewrite Z.lor_0_l, land_skip_default.
  destruct args as [| arg args'] eqn:Hargs; [done |].
  subst found. cbn [forallb] in Hall. apply andb_true_iff in Hall as [Harg _].
  apply bool_decide_eq_true in Harg as [flags Hflags].
  cbn [omap list_omap]. rewrite Hflags.
  rewrite union_of_flags_testbit. cbn [existsb].
  by rewrite (find_option_skip_default arg flags Hflags).
Qed.

Lemma existsb_ext_elem {A : Type} (f : A -> bool) (l k : list A) :
  (forall x, x ∈ l <-> x ∈ k) -> existsb f l = existsb f k.
Proof.
  intros H. apply eq_true_iff_eq. rewrite !existsb_exists.
  split; intros (x & Hx & Hf); exists x; split; try done;
    apply list_elem_of_In; apply list_elem_of_In in Hx; by apply H.
Qed.

Lemma forallb_ext_elem {A : Type} (f : A -> bool) (l k : list A) :
  (forall x, x ∈ l <-> x ∈ k) -> forallb f l = forallb f k.
Proof.
  intros H. apply eq_true_iff_eq. rewrite !forallb_forall.
  split; intros Hf x Hx; apply Hf; apply list_elem_of_In;
    apply list_elem_of_In in Hx; by apply H.
Qed.

(** Neither the order of the options nor their repetition matters, nor
    does [argv[0]]: two argument vectors with the same set of options give
    the same result and the same flags. *)
Theorem parse_dump_options_depends_on_the_set_of_options
    (argv argv' : list string) :
  (forall arg, arg ∈ drop 1 argv <-> arg ∈ drop 1 argv') ->
  parse_dump_options argv = parse_dump_options argv'.
Proof.
  intros Hsame. unfold parse_dump_options.
  rewrite !gather_options_spec.
  rewrite (forallb_ext_elem _ _ _ Hsame).
  replace (union_of_flags (omap (find_option option_names) (drop 1 argv)))
    with (union_of_flags (omap (find_option option_names) (drop 1 argv')));
    [done |].
  apply Z.bits_inj'. intros n _. rewrite !union_of_flags_testbit.
  apply existsb_ext_elem. intros flags. rewrite !list_elem_of_omap.
  split; intros (arg & Harg & Hf); exists arg; split; try done;
    by apply Hsame.
Qed.

(** The options in another order, one of them twice and in capitals. *)
Lemma parse_dump_options_depends_on_the_set_of_options_witness :
  parse_dump_options ["dump"; "vdo"; "BIOQ"; "vdo"]%string
  = parse_dump_options ["x"; "BIOQ"; "vdo"]%string.
Proof.
  apply parse_dump_options_depends_on_the_set_of_options.
  intros arg. cbn [drop]. rewrite !elem_of_cons. tauto.
Defined.

End DumpFacts.


(** ** Metadata extents and the start of a vdo *)

Module ExtentFacts.

Import Extent.

Section Completions.

Variable VDO_BLOCK_SIZE : Z.
Variable vdo_completion : Type.
Variable reset_completion : vdo_completion -> vdo_completion.
Variable set_completion_result : vdo_completion -> status -> vdo_completion.
Variable finish_completion : vdo_completion -> status -> vdo_completion.

Lemma create_vios_spec (create_metadata_vio : nat -> status)
    (remaining count : nat) :
  let '(result, count', events) :=
    create_vios VDO_BLOCK_SIZE create_metadata_vio remaining count in
  (count <= count' <= count + remaining)%nat
  /\ events
     = (fun i => VioCreated i (Z.of_nat i * VDO_BLOCK_SIZE))
         <$> seq count (count' - count)
  /\ (forall i, (count <= i < count')%nat ->
                create_metadata_vio i = VDO_SUCCESS)
  /\ (if decide (result = VDO_SUCCESS)
      then count' = (count + remaining)%nat
      else (count' < count + remaining)%nat
           /\ result = create_metadata_vio count').
Proof.
  revert count. induction remaining as [| remaining IH]; intros count.
  - cbn [create_vios]. rewrite Nat.sub_diag. split; [lia |].
    split; [done |]. split; [intros i; lia |].
    rewrite decide_True by done. lia.
  - cbn [create_vios].
    destruct (decide (create_metadata_vio count <> VDO_SUCCESS)) as [Hf | Hs].
    + rewrite Nat.sub_diag. split; [lia |]. split; [done |].
      split; [intros i; lia |]. rewrite decide_False by done.
      split; [lia | done].
    + apply dec_stable in Hs. specialize (IH (S count)).
      destruct (create_vios _ _ remaining (S count))
        as [[result count'] events].
      destruct IH as (Hrange & -> & Hall & Hres).
      split; [lia |]. split.
      { replace (count' - count)%nat with (S (count' - S count)) by lia.
        done. }
      split.
      { intros i Hi. destruct (decide (i = count)) as [-> | Hne]; [done |].
        apply Hall. lia. }
      destruct (decide (result = VDO_SUCCESS)); [lia |].
      destruct Hres. split; [lia | done].
Qed.

Lemma vios_created_created (l : list nat) :
  vios_created ((fun i => VioCreated i (Z.of_nat i * VDO_BLOCK_SIZE)) <$> l)
  = l.
Proof. induction l as [| i l IH]; [done |]. cbn. by f_equal. Qed.

Lemma vios_freed_created (l : list nat) :
  vios_freed ((fun i => VioCreated i (Z.of_nat i * VDO_BLOCK_SIZE)) <$> l)
  = [].
Proof. induction l as [| i l IH]; [done |]. by cbn. Qed.

Lemma vios_freed_freed (l : list nat) : vios_freed (FreeVio <$> l) = l.
Proof. induction l as [| i l IH]; [done |]. cbn. by f_equal. Qed.

Lemma vios_created_freed (l : list nat) : vios_created (FreeVio <$> l) = [].
Proof. induction l as [| i l IH]; [done |]. by cbn. Qed.

Lemma extent_held_created (l : list nat) (rest : list extent_event)
    (held : bool) :
  extent_held
    (((fun i => VioCreated i (Z.of_nat i * VDO_BLOCK_SIZE)) <$> l) ++ rest)
    held
  = extent_held rest held.
Proof. induction l as [| i l IH]; [done |]. by cbn. Qed.

Lemma extent_held_freed (l : list nat) (rest : list extent_event)
    (held : bool) :
  extent_held ((FreeVio <$> l) ++ rest) held = extent_held rest held.
Proof. induction l as [| i l IH]; [done |]. by cbn. Qed.

(** [create_extent] gives all or nothing.  On success the extent holds
    one vio for each of the [block_count] blocks, the vio of index [i]
    created over the data at [i] blocks from the start, and nothing has
    been freed.  On failure no extent is returned, exactly the vios
    created before the failure have been freed, in the order of their
    creation, and the memory of the extent is not held. *)
Theorem create_extent_all_or_nothing (is_metadata_vio_type : bool)
    (allocate initialize : status) (initialized : vdo_completion)
    (create_metadata_vio : nat -> status) (block_count : nat) :
  let '(result, extent, events) :=
    create_extent VDO_BLOCK_SIZE is_metadata_vio_type allocate initialize
      initialized create_metadata_vio block_count in
  if decide (result = VDO_SUCCESS)
  then
    extent = Some {| completion := initialized;
                     count := Z.of_nat block_count; complete_count := 0 |}
    /\ events
       = AllocateExtent
         :: ((fun i => VioCreated i (Z.of_nat i * VDO_BLOCK_SIZE))
               <$> seq 0 block_count)
    /\ vios_freed events = []
    /\ extent_held events false = true
    /\ is_metadata_vio_type = true
    /\ forall i, (i < block_count)%nat -> create_metadata_vio i = VDO_SUCCESS
  else
    extent = None
    /\ extent_held events false = false
    /\ exists failed : nat,
         (failed <= block_count)%nat
         /\ vios_created events = seq 0 failed
         /\ vios_freed events = seq 0 failed.
Proof.
  unfold create_extent, ASSERT.
  destruct is_metadata_vio_type.
  2:{ rewrite decide_True by done. rewrite decide_False by done.
      split; [done |]. split; [done |]. exists O. split; [lia | done]. }
  rewrite (decide_False (P := SUCCESS <> SUCCESS)) by (by intros E; apply E).
  destruct (decide (allocate <> VDO_SUCCESS)) as [Ha | Ha].
  { rewrite decide_False by done.
    split; [done |]. split; [done |]. exists O. split; [lia | done]. }
  destruct (decide (initialize <> VDO_SUCCESS)) as [Hi | Hi].
  { rewrite decide_False by done.
    split; [done |]. split; [done |]. exists O. split; [lia | done]. }
  pose proof (create_vios_spec create_metadata_vio block_count 0) as Hspec.
  destruct (create_vios VDO_BLOCK_SIZE create_metadata_vio block_count 0)
    as [[result count'] events].
  destruct Hspec as (Hrange & -> & Hall & Hres).
  rewrite Nat.sub_0_r in *.
  destruct (decide (result <> VDO_SUCCESS)) as [Hr | Hr].
  - rewrite decide_False by done. rewrite decide_False in Hres by done.
    split; [done |]. split.
    + cbn [extent_held]. rewrite extent_held_created.
      unfold free_extent. by rewrite extent_held_freed.
    + exists count'. split; [lia |].
      unfold free_extent, vios_freed, vios_created.
      cbn [omap list_omap]. rewrite !omap_app.
      fold (vios_freed
              ((fun i => VioCreated i (Z.of_nat i * VDO_BLOCK_SIZE))
                 <$> seq 0 count')).
      fold (vios_created
              ((fun i => VioCreated i (Z.of_nat i * VDO_BLOCK_SIZE))
                 <$> seq 0 count')).
      fold (vios_freed (FreeVio <$> seq 0 count')).
      fold (vios_created (FreeVio <$> seq 0 count')).
      rewrite vios_freed_created, vios_created_created, vios_freed_freed,
        vios_created_freed.
      cbn. by rewrite !app_nil_r.
  - apply dec_stable in Hr. subst result. rewrite decide_True by done.
    rewrite decide_True in Hres by done. subst count'.
    split; [done |]. split; [done |]. split.
    { unfold vios_freed. cbn [omap list_omap].
      apply vios_freed_created. }
    split.
    { cbn [extent_held]. rewrite <- (app_nil_r (_ <$> _)).
      by rewrite extent_held_created. }
    split; [done |]. intros i Hlt. apply Hall. lia.
Qed.

Lemma handle_vio_completion_step (extent : vdo_extent vdo_completion)
    (r : status) :
  0 <= complete_count extent ->
  complete_count extent + 1 <= count extent ->
  count extent < 2 ^ 64 ->
  handle_vio_completion set_completion_result finish_completion extent r
  = {| completion :=
         if complete_count extent + 1 =? count extent
         then finish_completion (completion extent) r
         else set_completion_result (completion extent) r;
       count := count extent;
       complete_count := complete_count extent + 1 |}.
Proof.
  intros Hc Hle Hn. unfold handle_vio_completion.
  cbn [count complete_count completion].
  assert (Hu : u64 (complete_count extent + 1) = complete_count extent + 1)
    by (unfold u64; apply Z.mod_small; lia).
  rewrite !Hu. by destruct (_ =? _).
Qed.

Lemma handle_vio_completions_before_the_last (results : list status) :
  forall extent : vdo_extent vdo_completion,
    0 <= complete_count extent ->
    complete_count extent + Z.of_nat (length results) < count extent ->
    count extent < 2 ^ 64 ->
    handle_vio_completions set_completion_result finish_completion extent
      results
    = {| completion :=
           foldl set_completion_result (completion extent) results;
         count := count extent;
         complete_count := complete_count extent + Z.of_nat (length results)
      |}.
Proof.
  induction results as [| r results IH]; intros extent Hc Hlt Hn.
  { cbn. rewrite Z.add_0_r. by destruct extent. }
  cbn [length] in Hlt. unfold handle_vio_completions. cbn [foldl].
  rewrite handle_vio_completion_step by lia.
  destruct (Z.eqb_spec (complete_count extent + 1) (count extent)) as [E | E];
    [lia |].
  match goal with
  | |- context [foldl _ ?e results] =>
      change (foldl (handle_vio_completion set_completion_result
                       finish_completion) e results)
        with (handle_vio_completions set_completion_result
                finish_completion e results)
  end.
  rewrite IH; cbn [count complete_count completion]; try lia.
  f_equal. cbn [length]. lia.
Qed.

(** An extent is finished by the completion of the last vio launched, and
    by it alone.  A launch of more blocks than the extent has vios resets
    the completion, finishes it at once with [VDO_OUT_OF_RANGE] and
    launches nothing.  Otherwise the first [blocks] vios are launched on
    consecutive blocks from [start_block]; while fewer than [blocks] of them
    have completed their results have only been set on the reset completion,
    in the order of arrival, and the completion of the last one finishes
    it. *)
Theorem extent_finishes_with_its_last_vio
    (extent : vdo_extent vdo_completion) (start_block blocks : Z) :
  0 <= blocks ->
  0 <= count extent < 2 ^ 64 ->
  let launched :=
    launchMetadataExtent reset_completion finish_completion extent
      start_block blocks in
  let completions :=
    handle_vio_completions set_completion_result finish_completion
      launched.1 in
  (count extent < blocks ->
   launched
   = ({| completion :=
           finish_completion (reset_completion (completion extent))
             VDO_OUT_OF_RANGE;
         count := count extent;
         complete_count := complete_count extent |}, []))
  /\ (blocks <= count extent ->
      launched.2
      = (fun i => (i, u64 (start_block + Z.of_nat i)))
          <$> seq 0 (Z.to_nat blocks)
      /\ (forall results : list status,
            Z.of_nat (length results) < blocks ->
            completion (completions results)
            = foldl set_completion_result
                (reset_completion (completion extent)) results)
      /\ (forall (results : list status) (last : status),
            Z.of_nat (length results) + 1 = blocks ->
            completion (completions (results ++ [last]))
            = finish_completion
                (foldl set_completion_result
                   (reset_completion (completion extent)) results)
                last)).
Proof.
  intros Hb Hn launched completions. subst completions launched.
  unfold launchMetadataExtent. cbn [count complete_count completion]. split.
  - intros Hlt. destruct (Z.gtb_spec blocks (count extent)); [done | lia].
  - intros Hle. destruct (Z.gtb_spec blocks (count extent)); [lia |].
    cbn [fst snd]. split; [done |].
    assert (Hu : u64 (count extent - blocks) = count extent - blocks)
      by (unfold u64; apply Z.mod_small; lia).
    rewrite Hu. split.
    + intros results Hlen.
      rewrite handle_vio_completions_before_the_last;
        cbn [count complete_count completion]; (done || lia).
    + intros results last Hlen. unfold handle_vio_completions.
      rewrite foldl_app. cbn [foldl].
      match goal with
      | |- context [foldl _ ?e results] =>
          change (foldl (handle_vio_completion set_completion_result
                           finish_completion) e results)
            with (handle_vio_completions set_completion_result
                    finish_completion e results)
      end.
      rewrite handle_vio_completions_before_the_last;
        cbn [count complete_count completion]; try lia.
      rewrite handle_vio_completion_step;
        cbn [count complete_count completion]; try lia.
      by rewrite (proj2 (Z.eqb_eq _ _)) by lia.
Qed.

End Completions.

(** An extent of three vios, two of which are launched from block 10, its
    completion a result and whether it is finished, which keeps the first
    error it is given. *)
Lemma extent_finishes_with_its_last_vio_witness :
  let reset := fun _ : status * bool => (VDO_SUCCESS, false) in
  let set := fun (c : status * bool) (result : status) =>
    (if decide (c.1 = VDO_SUCCESS) then result else c.1, c.2) in
  let finish := fun (c : status * bool) (result : status) =>
    (if decide (c.1 = VDO_SUCCESS) then result else c.1, true) in
  let extent :=
    {| completion := (VDO_OUT_OF_RANGE, true); count := 3;
       complete_count := 0 |} in
  let launched := launchMetadataExtent reset finish extent 10 2 in
  launched.2 = [(0%nat, 10); (1%nat, 11)]
  /\ completion
       (handle_vio_completions set finish launched.1 [VDO_READ_ONLY])
     = (VDO_READ_ONLY, false)
  /\ completion
       (handle_vio_completions set finish launched.1
          [VDO_READ_ONLY; VDO_SUCCESS])
     = (VDO_READ_ONLY, true).
Proof.
  intros reset set finish extent launched.
  destruct (extent_finishes_with_its_last_vio _ reset set finish
              extent 10 2 ltac:(lia) ltac:(simpl; lia))
    as [_ Hlaunched].
  destruct Hlaunched as (Hvios & Hone & Htwo); [simpl; lia |].
  split; [exact Hvios |]. split.
  - exact (Hone [VDO_READ_ONLY] ltac:(simpl; lia)).
  - exact (Htwo [VDO_READ_ONLY] VDO_SUCCESS ltac:(simpl; lia)).
Defined.

End ExtentFacts.

Module VdoInitFacts.

Import VdoInit.

(** [initialize_vdo] succeeds exactly when the geometry block is read and
    both sysfs directories are added, and returns the result of the first
    of the three that fails.  On success no reason is written, nothing is
    released and each directory has been initialised and not put.  On every
    failure a reason is written, [release_vdo_instance] and [FREE(layer)]
    are called one time each, as the last two calls, and every directory
    initialised has been put. *)
Theorem initialize_vdo_releases_on_failure
    (read_geometry_block add_vdo_directory add_work_queue_directory : Z) :
  let '(result, reason, events) :=
    initialize_vdo read_geometry_block add_vdo_directory
      add_work_queue_directory in
  result
  = (if read_geometry_block =? 0
     then if add_vdo_directory =? 0 then add_work_queue_directory
          else add_vdo_directory
     else read_geometry_block)
  /\ if result =? 0
     then reason = None
          /\ (ReleaseVdoInstance ∉ events) /\ (FreeLayer ∉ events)
          /\ references_held events vdo_directory = 1
          /\ references_held events work_queue_directory = 1
     else is_Some reason
          /\ (exists before,
                events = before ++ [ReleaseVdoInstance; FreeLayer]
                /\ (ReleaseVdoInstance ∉ before) /\ (FreeLayer ∉ before))
          /\ references_held events vdo_directory = 0
          /\ references_held events work_queue_directory = 0.
Proof.
  unfold initialize_vdo, initialize_vdo_kobjects.
  destruct (Z.eqb_spec read_geometry_block 0) as [Hg | Hg]; cbn [negb].
  2:{ split; [done |]. rewrite (proj2 (Z.eqb_neq _ _) Hg).
      split; [by eexists |]. split; [| done].
      exists []. split; [done |]. split; apply not_elem_of_nil. }
  destruct (Z.eqb_spec add_vdo_directory 0) as [Hv | Hv]; cbn [negb].
  2:{ rewrite (proj2 (Z.eqb_neq _ _) Hv). cbn [negb]. split; [done |].
      rewrite (proj2 (Z.eqb_neq _ _) Hv).
      split; [by eexists |]. split; [| done].
      eexists. split; [reflexivity |].
      split; intros H; repeat (apply elem_of_cons in H as [H | H];
        [discriminate H |]); by apply elem_of_nil in H. }
  destruct (Z.eqb_spec add_work_queue_directory 0) as [Hw | Hw]; cbn [negb].
  2:{ rewrite (proj2 (Z.eqb_neq _ _) Hw). cbn [negb]. split; [done |].
      rewrite (proj2 (Z.eqb_neq _ _) Hw).
      split; [by eexists |]. split; [| done].
      eexists. split; [reflexivity |].
      split; intros H; repeat (apply elem_of_cons in H as [H | H];
        [discriminate H |]); by apply elem_of_nil in H. }
  cbn. split; [done |]. split; [done |].
  split; [| split; [| done]];
    intros H; repeat (apply elem_of_cons in H as [H | H];
      [discriminate H |]); by apply elem_of_nil in H.
Qed.

End VdoInitFacts.
